(** * Real-estate voice agent: call flow, CRM ledger and OpenAI fallbacks

    A shallow embedding of [voice_agent.py], [voice_agent_with_openai.py]
    and [openai_integration.py].  Python objects that the code mutates
    (the CRM's [calls] dict and [appointments] list) live in an explicit
    state; the system clock, the random generator, the chat backend and
    [json.loads] are oracles of a [runtime] record, read through counters
    kept in the state.  A Python exception is a [Raise] result that keeps
    the state reached when it was raised. *)

From Stdlib Require Import String Ascii List ZArith Bool Arith Lia.
From Stdlib Require Import DecimalString.
Import ListNotations.

Local Open Scope string_scope.
Local Open Scope Z_scope.

(* ================================================================== *)
(** ** Python values, exceptions and string helpers                     *)
(* ================================================================== *)

Module Py.

(** The exceptions raised by the modelled code, all subclasses of
    Python's [Exception].  [APIError] stands for whatever the chat
    backend raises (network, authentication, rate limit, ...). *)
Inductive exn : Type :=
| KeyError (key : string)
| ValueError (msg : string)
| AttributeError (msg : string)
| TypeError (msg : string)
| IndexError (msg : string)
| OverflowError (msg : string)
| JSONDecodeError (msg : string)
| APIError (msg : string).

Inductive result (A : Type) : Type :=
| Ok (a : A)
| Raise (e : exn).
Arguments Ok {A} a.
Arguments Raise {A} e.

(** Line feed and the double quote, built from their codes. *)
Definition nl : string := String (ascii_of_nat 10) EmptyString.
Definition dq : string := String (ascii_of_nat 34) EmptyString.

(** [str.isspace] on one ASCII character. *)
Definition is_space (c : ascii) : bool :=
  let n := nat_of_ascii c in
  ((9 <=? n) && (n <=? 13) || (28 <=? n) && (n <=? 32))%nat.

Fixpoint lstrip (s : string) : string :=
  match s with
  | EmptyString => EmptyString
  | String c s' => if is_space c then lstrip s' else s
  end.

Fixpoint str_rev_onto (s acc : string) : string :=
  match s with
  | EmptyString => acc
  | String c s' => str_rev_onto s' (String c acc)
  end.

Definition str_rev (s : string) : string := str_rev_onto s EmptyString.

Definition rstrip (s : string) : string := str_rev (lstrip (str_rev s)).

(** [s.strip()] *)
Definition strip (s : string) : string := rstrip (lstrip s).

Definition is_upper (c : ascii) : bool :=
  let n := nat_of_ascii c in ((65 <=? n) && (n <=? 90))%nat.
Definition is_lower (c : ascii) : bool :=
  let n := nat_of_ascii c in ((97 <=? n) && (n <=? 122))%nat.
Definition to_lower (c : ascii) : ascii :=
  if is_upper c then ascii_of_nat (nat_of_ascii c + 32) else c.
Definition to_upper (c : ascii) : ascii :=
  if is_lower c then ascii_of_nat (nat_of_ascii c - 32) else c.

Fixpoint str_map (f : ascii -> ascii) (s : string) : string :=
  match s with
  | EmptyString => EmptyString
  | String c s' => String (f c) (str_map f s')
  end.

(** [s.lower()] on ASCII text. *)
Definition lower (s : string) : string := str_map to_lower s.

(** [s.replace(old, new)] for one-character [old] and [new], the only
    shape the code uses ([outcome.replace("_", " ")]). *)
Definition replace_char (old new : ascii) (s : string) : string :=
  str_map (fun c => if Ascii.eqb c old then new else c) s.

(** [s.title()] on ASCII text: a cased letter is upper-cased when the
    character before it is not a cased letter, lower-cased otherwise. *)
Fixpoint title_from (prev_cased : bool) (s : string) : string :=
  match s with
  | EmptyString => EmptyString
  | String c s' =>
      if is_upper c || is_lower c
      then String (if prev_cased then to_lower c else to_upper c) (title_from true s')
      else String c (title_from false s')
  end.

Definition title (s : string) : string := title_from false s.

(** [sub in s] *)
Definition contains (sub s : string) : bool :=
  match String.index 0 sub s with Some _ => true | None => false end.

(** [str(n)] for an [int]. *)
Definition str_of_Z (z : Z) : string := NilZero.string_of_int (Z.to_int z).

(** Left padding with zeros to [width] characters, as the format
    specs [02d] and the C conversions [%d], [%m], [%H], [%M], [%S] do
    for a non-negative number. *)
Fixpoint zeros (n : nat) : string :=
  match n with O => EmptyString | S n' => String "0" (zeros n') end.

Definition zfill (width : nat) (s : string) : string :=
  zeros (width - String.length s) ++ s.

Definition pad2 (z : Z) : string := zfill 2 (str_of_Z z).

(** The format spec [,] on a non-negative [int]: digits grouped by three
    from the right. *)
Fixpoint group3 (rev_digits : list ascii) (k : nat) (acc : string) : string :=
  match rev_digits with
  | [] => acc
  | c :: rest =>
      match k with
      | 3%nat => group3 rest 1 (String c (String "," acc))
      | _ => group3 rest (S k) (String c acc)
      end
  end.

Definition format_thousands (z : Z) : string :=
  if z <? 0
  then String "-" (group3 (rev (list_ascii_of_string (str_of_Z (- z)))) 0 EmptyString)
  else group3 (rev (list_ascii_of_string (str_of_Z z))) 0 EmptyString.

(** Value of a decimal digit, and of a run of digits (no sign, no blanks). *)
Definition digit_val (c : ascii) : option Z :=
  let n := nat_of_ascii c in
  if ((48 <=? n) && (n <=? 57))%nat then Some (Z.of_nat (n - 48)) else None.

Fixpoint digits_val (acc : Z) (s : string) : option Z :=
  match s with
  | EmptyString => Some acc
  | String c s' =>
      match digit_val c with
      | Some d => digits_val (10 * acc + d) s'
      | None => None
      end
  end.

(** [seq[i]] on a list. *)
Definition list_index {A} (l : list A) (i : nat) : result A :=
  match nth_error l i with
  | Some x => Ok x
  | None => Raise (IndexError "list index out of range")
  end.

(** An insertion-ordered [dict] with string keys. *)
Definition dict (V : Type) : Type := list (string * V).

Fixpoint dict_get {V} (d : dict V) (k : string) : option V :=
  match d with
  | [] => None
  | (k', v) :: d' => if String.eqb k' k then Some v else dict_get d' k
  end.

(** [d[k] = v]: an existing key keeps its place, a new key goes last. *)
Fixpoint dict_set {V} (d : dict V) (k : string) (v : V) : dict V :=
  match d with
  | [] => [(k, v)]
  | (k', v') :: d' =>
      if String.eqb k' k then (k', v) :: d' else (k', v') :: dict_set d' k v
  end.

Definition dict_mem {V} (d : dict V) (k : string) : bool :=
  match dict_get d k with Some _ => true | None => false end.

(** [d.get(k, default)] *)
Definition dict_get_default {V} (d : dict V) (k : string) (default : V) : V :=
  match dict_get d k with Some v => v | None => default end.

(** Truth value of an optional string argument: [None] and the empty
    string are false. *)
Definition truthy (o : option string) : bool :=
  match o with
  | None => false
  | Some s => negb (String.eqb s "")
  end.

(** What [json.loads] can return. *)
#[local] Set Warnings "-register-all".
Inductive json : Type :=
| JNull
| JBool (b : bool)
| JInt (z : Z)
| JFloat (literal : string)
| JStr (s : string)
| JArr (items : list json)
| JObj (fields : list (string * json)).

Fixpoint json_field (fields : list (string * json)) (k : string) : option json :=
  match fields with
  | [] => None
  | (k', v) :: rest => if String.eqb k' k then Some v else json_field rest k
  end.

(** [v[key]] for a string key on a decoded JSON value. *)
Definition json_getitem (v : json) (key : string) : result json :=
  match v with
  | JObj fields =>
      match json_field fields key with
      | Some x => Ok x
      | None => Raise (KeyError key)
      end
  | JArr _ => Raise (TypeError "list indices must be integers or slices, not str")
  | JStr _ => Raise (TypeError "string indices must be integers")
  | _ => Raise (TypeError "object is not subscriptable")
  end.

(** [v == s] for a decoded JSON value and a string literal. *)
Definition json_eq_str (v : json) (s : string) : bool :=
  match v with
  | JStr s' => String.eqb s' s
  | _ => false
  end.

End Py.

Export Py.

(* ================================================================== *)
(** ** [datetime]: calendar, formatting and parsing                     *)
(* ================================================================== *)

Module Datetime.

(** A naive [datetime]; microseconds are left out, no format the code
    uses prints them. *)
Record datetime : Type := mk_datetime {
  year : Z; month : Z; day : Z; hour : Z; minute : Z; second : Z
}.

Definition is_leap (y : Z) : bool :=
  (y mod 4 =? 0) && (negb (y mod 100 =? 0) || (y mod 400 =? 0)).

Definition days_in_month (y m : Z) : Z :=
  if m =? 2 then (if is_leap y then 29 else 28)
  else if (m =? 4) || (m =? 6) || (m =? 9) || (m =? 11) then 30
  else 31.

(** The constructor's range check. *)
Definition valid_datetime (d : datetime) : bool :=
  (1 <=? year d) && (year d <=? 9999)
  && (1 <=? month d) && (month d <=? 12)
  && (1 <=? day d) && (day d <=? days_in_month (year d) (month d))
  && (0 <=? hour d) && (hour d <=? 23)
  && (0 <=? minute d) && (minute d <=? 59)
  && (0 <=? second d) && (second d <=? 59).

Definition days_before_year (y : Z) : Z :=
  let y1 := y - 1 in y1 * 365 + y1 / 4 - y1 / 100 + y1 / 400.

Definition days_before_month (y m : Z) : Z :=
  nth (Z.to_nat m) [0; 0; 31; 59; 90; 120; 151; 181; 212; 243; 273; 304; 334] 0
  + (if (2 <? m) && is_leap y then 1 else 0).

(** [d.toordinal()] *)
Definition toordinal (d : datetime) : Z :=
  days_before_year (year d) + days_before_month (year d) (month d) + day d.

(** [d.weekday()], Monday is 0. *)
Definition weekday (d : datetime) : Z := (toordinal d + 6) mod 7.

Definition day_name (w : Z) : string :=
  nth (Z.to_nat w)
    ["Monday"; "Tuesday"; "Wednesday"; "Thursday"; "Friday"; "Saturday"; "Sunday"] "".

Definition month_name (m : Z) : string :=
  nth (Z.to_nat m)
    [""; "January"; "February"; "March"; "April"; "May"; "June"; "July";
     "August"; "September"; "October"; "November"; "December"] "".

(** [d.strftime("%Y-%m-%d %H:%M:%S")] as the C library under CPython on
    Linux prints it: [%Y] is the year as a plain number, not padded, so
    a year below 1000 comes out on fewer than four digits. *)
Definition strftime_stamp (d : datetime) : string :=
  str_of_Z (year d) ++ "-" ++ pad2 (month d) ++ "-" ++ pad2 (day d) ++ " "
  ++ pad2 (hour d) ++ ":" ++ pad2 (minute d) ++ ":" ++ pad2 (second d).

(** [d.strftime("%A, %B %d")] *)
Definition strftime_day (d : datetime) : string :=
  day_name (weekday d) ++ ", " ++ month_name (month d) ++ " " ++ pad2 (day d).

(** [datetime.strptime(s, "%Y-%m-%d %H:%M:%S")] on the fixed-width text
    that [strftime_stamp] writes for a year of four digits, which is
    what [%Y] reads; any other text is a [ValueError], the stamp of a
    year below 1000 included. *)
Definition strptime_stamp (s : string) : result datetime :=
  let bad := Raise (ValueError "time data does not match format") in
  if negb (Nat.eqb (String.length s) 19) then bad else
  if negb (String.eqb (substring 4 1 s) "-" && String.eqb (substring 7 1 s) "-"
           && String.eqb (substring 10 1 s) " " && String.eqb (substring 13 1 s) ":"
           && String.eqb (substring 16 1 s) ":") then bad else
  match digits_val 0 (substring 0 4 s), digits_val 0 (substring 5 2 s),
        digits_val 0 (substring 8 2 s), digits_val 0 (substring 11 2 s),
        digits_val 0 (substring 14 2 s), digits_val 0 (substring 17 2 s) with
  | Some y, Some m, Some d, Some hh, Some mm, Some ss =>
      let dt := mk_datetime y m d hh mm ss in
      if valid_datetime dt then Ok dt else bad
  | _, _, _, _, _, _ => bad
  end.

(** [d.replace(day=n)]: the constructor rejects a day the month lacks. *)
Definition replace_day (d : datetime) (n : Z) : result datetime :=
  if (1 <=? n) && (n <=? days_in_month (year d) (month d))
  then Ok (mk_datetime (year d) (month d) n (hour d) (minute d) (second d))
  else Raise (ValueError "day is out of range for month").

(** [d + timedelta(days=1)] *)
Definition next_day (d : datetime) : result datetime :=
  if day d <? days_in_month (year d) (month d)
  then Ok (mk_datetime (year d) (month d) (day d + 1) (hour d) (minute d) (second d))
  else if month d <? 12
  then Ok (mk_datetime (year d) (month d + 1) 1 (hour d) (minute d) (second d))
  else if year d <? 9999
  then Ok (mk_datetime (year d + 1) 1 1 (hour d) (minute d) (second d))
  else Raise (OverflowError "date value out of range").

(** [d + timedelta(days=n)] for [n >= 0]. *)
Fixpoint add_days (d : datetime) (n : nat) : result datetime :=
  match n with
  | O => Ok d
  | S n' => match next_day d with Ok d' => add_days d' n' | Raise e => Raise e end
  end.

(** [(later - earlier).total_seconds()], a whole number here. *)
Definition total_seconds (later earlier : datetime) : Z :=
  (toordinal later - toordinal earlier) * 86400
  + ((hour later * 3600 + minute later * 60 + second later)
     - (hour earlier * 3600 + minute earlier * 60 + second earlier)).

(** [f"{int(duration // 60)}:{int(duration % 60):02d}"] *)
Definition format_duration (duration : Z) : string :=
  str_of_Z (duration / 60) ++ ":" ++ pad2 (duration mod 60).

End Datetime.

Export Datetime.

(* ================================================================== *)
(** ** Runtime oracles, program state and the exception monad          *)
(* ================================================================== *)

(** [ClientInfo]: the dict a caller passes to [make_call].  [name] and
    [phone] are read with [client_info[...]], the other keys with
    [.get]; [email] and [budget] are never read. *)
Record client : Type := mk_client {
  client_id : option string;
  client_name : string;
  client_phone : string;
  client_interest : option string;
  client_location : option string
}.

(** One entry of [agent.properties]. *)
Record property : Type := mk_property {
  prop_id : string;
  prop_name : string;
  prop_type : string;
  prop_price : Z;
  prop_address : string;
  prop_features : string;
  prop_description : string
}.

(** One message of a chat request or of the conversation history. *)
Record chat_message : Type := mk_message { role : string; content : string }.

(** The arguments of [openai.ChatCompletion.create] that are not
    floating-point sampling settings. *)
Record chat_request : Type := mk_request {
  req_model : string;
  req_messages : list chat_message;
  req_max_tokens : Z;
  req_json_object : bool
}.

(** The world outside the program.  The [k]-th read of the clock, draw
    of the generator or call of the backend gets the oracle's value at
    [k].  A chat response is the list of [choices[i].message.content]. *)
Record runtime : Type := mk_runtime {
  now_at : nat -> datetime;
  time_at : nat -> Z;
  random_at : nat -> nat;
  chat_at : nat -> chat_request -> result (list string);
  json_loads : string -> result json
}.

Inductive call_status : Type := in_progress | completed.

Record note : Type := mk_note { note_timestamp : string; note_content : string }.

(** A value of [crm.calls].  [end_time] and [duration] are keys that
    [log_call_start] does not create: [None] is the missing key.
    [outcome] and [sentiment] start as Python's [None]. *)
Record call_record : Type := mk_call {
  call_client : client;
  start_time : string;
  status : call_status;
  notes : list note;
  outcome : option string;
  sentiment : option json;
  end_time : option string;
  duration : option string
}.

Inductive appointment_status : Type := scheduled.

Record appointment : Type := mk_appointment {
  apt_id : string;
  apt_client : client;
  apt_date : string;
  apt_time : string;
  apt_property_id : option string;
  apt_status : appointment_status;
  apt_created_at : string
}.

(** [CRMIntegration]'s two containers. *)
Record crm_store : Type := mk_crm {
  calls : dict call_record;
  appointments : list appointment
}.

Record state : Type := mk_state {
  crm : crm_store;
  clock_reads : nat;
  rand_draws : nat;
  chat_calls : nat
}.

Definition crm_init : crm_store := mk_crm [] [].
Definition state_init : state := mk_state crm_init 0 0 0.

Module Monad.

(** A computation reads and updates the state and returns or raises. *)
Definition M (A : Type) : Type := state -> result A * state.

Definition ret {A} (a : A) : M A := fun s => (Ok a, s).
Definition raise {A} (e : exn) : M A := fun s => (Raise e, s).

Definition bind {A B} (m : M A) (k : A -> M B) : M B :=
  fun s => match m s with
           | (Ok a, s') => k a s'
           | (Raise e, s') => (Raise e, s')
           end.

(** [try: m  except Exception: handler] *)
Definition try_except {A} (m : M A) (handler : exn -> M A) : M A :=
  fun s => match m s with
           | (Ok a, s') => (Ok a, s')
           | (Raise e, s') => handler e s'
           end.

Definition lift {A} (r : result A) : M A := fun s => (r, s).

Definition get_crm : M crm_store := fun s => (Ok (crm s), s).
Definition put_crm (c : crm_store) : M unit :=
  fun s => (Ok tt, mk_state c (clock_reads s) (rand_draws s) (chat_calls s)).

End Monad.

Export Monad.

Declare Scope py_scope.
Delimit Scope py_scope with py.
Notation "x <- m ;; k" := (bind m (fun x => k))
  (at level 61, m at next level, right associativity) : py_scope.
Notation "m ;;; k" := (bind m (fun _ => k))
  (at level 61, right associativity) : py_scope.
Local Open Scope py_scope.

(** *** The standard-library calls that touch the world *)

(** [datetime.now()] *)
Definition datetime_now (rt : runtime) : M datetime :=
  fun s => (Ok (now_at rt (clock_reads s)),
            mk_state (crm s) (S (clock_reads s)) (rand_draws s) (chat_calls s)).

(** What the name [time] is bound to where [time.time()] is written:
    the imported module, or a string passed as a parameter of that name. *)
Inductive time_binding : Type :=
| TimeModule
| TimeStr (s : string).

(** [int(time.time())] under a binding of the name [time]. *)
Definition int_time_time (rt : runtime) (binding : time_binding) : M Z :=
  match binding with
  | TimeModule =>
      fun s => (Ok (time_at rt (clock_reads s)),
                mk_state (crm s) (S (clock_reads s)) (rand_draws s) (chat_calls s))
  | TimeStr _ => raise (AttributeError "'str' object has no attribute 'time'")
  end.

Definition draw (rt : runtime) : M nat :=
  fun s => (Ok (random_at rt (rand_draws s)),
            mk_state (crm s) (clock_reads s) (S (rand_draws s)) (chat_calls s)).

(** [random.randint(a, b)] for [a <= b]. *)
Definition randint (rt : runtime) (a b : Z) : M Z :=
  r <- draw rt ;; ret (a + Z.of_nat r mod (b - a + 1)).

(** [random.choice(seq)]; an empty [seq] is an [IndexError]. *)
Definition random_choice {A} (rt : runtime) (seq : list A) : M A :=
  match seq with
  | [] => raise (IndexError "Cannot choose from an empty sequence")
  | _ => r <- draw rt ;; lift (list_index seq (r mod length seq)%nat)
  end.

(** [random.choices(population, weights=weights, k=1)[0]], with the
    weights in hundredths and the uniform draw read as a number of
    hundredths: the first item whose cumulative weight exceeds it. *)
Fixpoint pick_weighted {A} (population : list A) (weights : list nat) (u : nat)
  : option A :=
  match population, weights with
  | x :: xs, w :: ws =>
      if (u <? w)%nat then Some x
      else match xs with
           | [] => Some x
           | _ => pick_weighted xs ws (u - w)
           end
  | _, _ => None
  end.

Definition random_choices {A} (rt : runtime) (population : list A) (weights : list nat)
  : M A :=
  r <- draw rt ;;
  match pick_weighted population weights (r mod 100)%nat with
  | Some x => ret x
  | None => raise (IndexError "list index out of range")
  end.

(** [openai.ChatCompletion.create(...)] *)
Definition chat_completion_create (rt : runtime) (req : chat_request) : M (list string) :=
  fun s => (chat_at rt (chat_calls s) req,
            mk_state (crm s) (clock_reads s) (rand_draws s) (S (chat_calls s))).

(* ================================================================== *)
(** ** [CRMIntegration]                                                 *)
(* ================================================================== *)

(** The class as [voice_agent_with_openai.py] has it.  The one in
    [voice_agent.py] is the same text without the [sentiment] key and
    without [update_client_sentiment]. *)
Module CRMIntegration.

Definition set_calls (d : dict call_record) : M unit :=
  c <- get_crm ;; put_crm (mk_crm d (appointments c)).

(** [self.calls[call_id][field] = ...] once [call_id in self.calls] holds. *)
Definition modify_call (call_id : string) (f : call_record -> call_record) : M unit :=
  c <- get_crm ;;
  match dict_get (calls c) call_id with
  | Some r => set_calls (dict_set (calls c) call_id (f r))
  | None => raise (KeyError call_id)
  end.

Definition read_call (call_id : string) : M call_record :=
  c <- get_crm ;;
  match dict_get (calls c) call_id with
  | Some r => ret r
  | None => raise (KeyError call_id)
  end.

Definition has_call (call_id : string) : M bool :=
  c <- get_crm ;; ret (dict_mem (calls c) call_id).

(** [log_call_start] ([voice_agent.py] 313-324,
    [voice_agent_with_openai.py] 427-439). *)
Definition log_call_start (rt : runtime) (client_info : client) : M string :=
  t <- int_time_time rt TimeModule ;;
  r <- randint rt 1000 9999 ;;
  let call_id := "call_" ++ str_of_Z t ++ "_" ++ str_of_Z r in
  now <- datetime_now rt ;;
  c <- get_crm ;;
  set_calls (dict_set (calls c) call_id
               (mk_call client_info (strftime_stamp now) in_progress [] None None None None)) ;;;
  ret call_id.

(** [update_call_notes] (326-333, 441-448). *)
Definition update_call_notes (rt : runtime) (call_id : string) (text : string) : M unit :=
  known <- has_call call_id ;;
  if known then
    now <- datetime_now rt ;;
    modify_call call_id (fun r =>
      mk_call (call_client r) (start_time r) (status r)
              (notes r ++ [mk_note (strftime_stamp now) text])
              (outcome r) (sentiment r) (end_time r) (duration r))
  else ret tt.

(** [update_client_sentiment] ([voice_agent_with_openai.py] 450-454). *)
Definition update_client_sentiment (call_id : string) (v : json) : M unit :=
  known <- has_call call_id ;;
  if known then
    modify_call call_id (fun r =>
      mk_call (call_client r) (start_time r) (status r) (notes r)
              (outcome r) (Some v) (end_time r) (duration r))
  else ret tt.

(** [update_call_outcome] (335-339, 456-460). *)
Definition update_call_outcome (call_id : string) (o : string) : M unit :=
  known <- has_call call_id ;;
  if known then
    modify_call call_id (fun r =>
      mk_call (call_client r) (start_time r) (status r) (notes r)
              (Some o) (sentiment r) (end_time r) (duration r))
  else ret tt.

(** [log_call_end] (341-353, 462-474): the end time and the status
    are written before the two time stamps are parsed. *)
Definition log_call_end (rt : runtime) (call_id : string) : M unit :=
  known <- has_call call_id ;;
  if known then
    now <- datetime_now rt ;;
    modify_call call_id (fun r =>
      mk_call (call_client r) (start_time r) (status r) (notes r)
              (outcome r) (sentiment r) (Some (strftime_stamp now)) (duration r)) ;;;
    modify_call call_id (fun r =>
      mk_call (call_client r) (start_time r) completed (notes r)
              (outcome r) (sentiment r) (end_time r) (duration r)) ;;;
    r <- read_call call_id ;;
    start <- lift (strptime_stamp (start_time r)) ;;
    stop <- lift (match end_time r with
                  | Some e => strptime_stamp e
                  | None => Raise (KeyError "end_time")
                  end) ;;
    let seconds := total_seconds stop start in
    modify_call call_id (fun r =>
      mk_call (call_client r) (start_time r) (status r) (notes r)
              (outcome r) (sentiment r) (end_time r) (Some (format_duration seconds)))
  else ret tt.

(** [schedule_appointment] (355-369, 476-490).  The parameter named
    [time] hides the module [time] in the body, so [time.time()] there
    is an attribute lookup on the string passed in. *)
Definition schedule_appointment (rt : runtime) (client_info : client)
    (date : string) (time : string) (property_id : option string) : M string :=
  t <- int_time_time rt (TimeStr time) ;;
  r <- randint rt 1000 9999 ;;
  let appointment_id := "apt_" ++ str_of_Z t ++ "_" ++ str_of_Z r in
  now <- datetime_now rt ;;
  let apt := mk_appointment appointment_id client_info date time property_id
                            scheduled (strftime_stamp now) in
  c <- get_crm ;;
  put_crm (mk_crm (calls c) (appointments c ++ [apt])) ;;;
  ret appointment_id.

(** The two shapes [get_call_history] returns. *)
Inductive call_history : Type :=
| HistoryList (records : list call_record)
| HistoryDict (mapping : dict call_record).

(** [record["client"].get("id") == client_id] *)
Definition client_id_is (c : client) (wanted : option string) : bool :=
  match client_id c, wanted with
  | Some i, Some w => String.eqb i w
  | None, None => true
  | _, _ => false
  end.

(** [get_call_history] (371-376, 492-497), with its [if client_id:]. *)
Definition get_call_history (c : crm_store) (client_id : option string) : call_history :=
  if truthy client_id
  then HistoryList
         (map snd (filter (fun kv => client_id_is (call_client (snd kv)) client_id) (calls c)))
  else HistoryDict (calls c).

(** The list [get_appointments] returns: a new filtered list, or the
    store's own [appointments] object. *)
Inductive appointment_list : Type :=
| FilteredList (items : list appointment)
| StoreList (items : list appointment).

(** [get_appointments] (378-383, 499-504). *)
Definition get_appointments (c : crm_store) (client_id : option string) : appointment_list :=
  if truthy client_id
  then FilteredList (filter (fun a => client_id_is (apt_client a) client_id) (appointments c))
  else StoreList (appointments c).

End CRMIntegration.

(* ================================================================== *)
(** ** [OpenAIIntegration]                                              *)
(* ================================================================== *)

Module OpenAIIntegration.

Record t : Type := mk_openai { api_key : string }.

(** [__init__] ([openai_integration.py] 12-26): [environ_key] is
    [os.environ.get("OPENAI_API_KEY")]. *)
Definition init (api_key environ_key : option string) : result t :=
  let chosen := if truthy api_key then api_key else environ_key in
  match chosen with
  | Some k =>
      if truthy chosen then Ok (mk_openai k)
      else Raise (ValueError "OpenAI API key is required. Set OPENAI_API_KEY environment variable or pass as parameter.")
  | None =>
      Raise (ValueError "OpenAI API key is required. Set OPENAI_API_KEY environment variable or pass as parameter.")
  end.

Definition apology : string :=
  "I apologize, but I'm having trouble generating a response right now. Let me connect you with a human agent who can assist you further.".

Definition system_persona (agent_name : string) : string :=
  "You are an experienced real estate agent named " ++ agent_name ++ ". " ++ nl
  ++ "        You are professional, knowledgeable, and friendly. Your goal is to help potential clients " ++ nl
  ++ "        find properties that match their needs and schedule viewings when appropriate." ++ nl
  ++ "        " ++ nl
  ++ "        Keep your responses concise but informative. Focus on providing value to the potential client." ++ nl
  ++ "        ".

(** Every key the block reads with [.get] is present in a [property]. *)
Definition property_details (p : property) : string :=
  nl ++ "            You are currently discussing this property:" ++ nl
  ++ "            - Name: " ++ prop_name p ++ nl
  ++ "            - Type: " ++ prop_type p ++ nl
  ++ "            - Price: $" ++ format_thousands (prop_price p) ++ nl
  ++ "            - Address: " ++ prop_address p ++ nl
  ++ "            - Features: " ++ prop_features p ++ nl
  ++ "            - Description: " ++ prop_description p ++ nl
  ++ "            ".

Definition system_message (agent_name : string) (property_info : option property)
    (agent_context : option string) : string :=
  system_persona agent_name
  ++ match property_info with Some p => property_details p | None => "" end
  ++ match agent_context with
     | Some ctx => if truthy agent_context
                   then nl ++ nl ++ "Additional context: " ++ ctx else ""
     | None => ""
     end.

Definition build_messages (client_message : string)
    (conversation_history : option (list chat_message))
    (property_info : option property) (agent_name : string)
    (agent_context : option string) : list chat_message :=
  [mk_message "system" (system_message agent_name property_info agent_context)]
  ++ match conversation_history with
     | Some history => map (fun m => mk_message (role m) (content m)) history
     | None => []
     end
  ++ [mk_message "user" client_message].

(** [generate_response] (28-104): only the backend call and the
    reading of its first choice are inside the [try]. *)
Definition generate_response (rt : runtime) (client_message : string)
    (conversation_history : option (list chat_message))
    (property_info : option property) (agent_name : string)
    (agent_context : option string) : M string :=
  let messages :=
    build_messages client_message conversation_history property_info agent_name agent_context in
  try_except
    (response <- chat_completion_create rt (mk_request "gpt-4o" messages 300 false) ;;
     lift (list_index response 0))
    (fun _ => ret apology).

Definition description_prompt (p : property) : string :=
  nl ++ "        Create an engaging and persuasive description for this property:" ++ nl
  ++ "        " ++ nl
  ++ "        Property Type: " ++ prop_type p ++ nl
  ++ "        Price: $" ++ format_thousands (prop_price p) ++ nl
  ++ "        Location: " ++ prop_address p ++ nl
  ++ "        Features: " ++ prop_features p ++ nl
  ++ "        " ++ nl
  ++ "        The description should highlight the property's best features and appeal to potential buyers." ++ nl
  ++ "        Keep it concise (100-150 words) but compelling." ++ nl
  ++ "        ".

Definition description_unavailable : string :=
  "Property description not available at this time.".

(** [generate_property_description] (106-143). *)
Definition generate_property_description (rt : runtime) (property_info : property) : M string :=
  let prompt := description_prompt property_info in
  try_except
    (response <- chat_completion_create rt
       (mk_request "gpt-4o"
          [mk_message "system" "You are an expert real estate copywriter.";
           mk_message "user" prompt] 200 false) ;;
     lift (list_index response 0))
    (fun _ => ret description_unavailable).

Definition sentiment_prompt (client_message : string) : string :=
  nl ++ "        Analyze this message from a potential real estate client:" ++ nl
  ++ "        " ++ nl
  ++ "        " ++ dq ++ client_message ++ dq ++ nl
  ++ "        " ++ nl
  ++ "        Provide a JSON response with the following fields:" ++ nl
  ++ "        - sentiment: (positive, neutral, or negative)" ++ nl
  ++ "        - interest_level: (high, medium, or low)" ++ nl
  ++ "        - key_concerns: (list of any concerns mentioned)" ++ nl
  ++ "        - preferences: (list of any preferences mentioned)" ++ nl
  ++ "        - next_action: (what the agent should focus on next)" ++ nl
  ++ "        ".

Definition default_sentiment : json :=
  JObj [("sentiment", JStr "neutral");
        ("interest_level", JStr "medium");
        ("key_concerns", JArr []);
        ("preferences", JArr []);
        ("next_action", JStr "ask_follow_up_questions")].

(** [analyze_client_sentiment] (145-192): the backend call and
    [json.loads] are both inside the [try]. *)
Definition analyze_client_sentiment (rt : runtime) (client_message : string) : M json :=
  let prompt := sentiment_prompt client_message in
  try_except
    (response <- chat_completion_create rt
       (mk_request "gpt-4o"
          [mk_message "system" "You are an AI assistant that analyzes client messages for real estate agents.";
           mk_message "user" prompt] 300 true) ;;
     text <- lift (list_index response 0) ;;
     analysis <- lift (json_loads rt text) ;;
     ret analysis)
    (fun _ => ret default_sentiment).

End OpenAIIntegration.

(* ================================================================== *)
(** ** Fixture data shared by the two agents                            *)
(* ================================================================== *)

(** The property list, the script templates and the canned replies are
    the same text in [voice_agent.py] and [voice_agent_with_openai.py]. *)
Module Fixtures.

Definition property_catalog : list property :=
  [ mk_property "prop001" "Lakeside Villa" "Residential" 1250000
      "123 Lake Dr, Waterfront, CA" "4 bed, 3 bath, 3,200 sq ft"
      "Luxurious lakefront property with panoramic water views";
    mk_property "prop002" "Downtown Condo" "Residential" 650000
      "456 Main St #302, Downtown, CA" "2 bed, 2 bath, 1,100 sq ft"
      "Modern condo in the heart of downtown with city views";
    mk_property "prop003" "Commercial Office" "Commercial" 2800000
      "789 Business Ave, Commerce, CA" "12,000 sq ft, 3 floors"
      "Prime commercial space in the business district";
    mk_property "prop004" "Suburban House" "Residential" 875000
      "321 Oak St, Suburbia, CA" "3 bed, 2.5 bath, 2,400 sq ft"
      "Family home in a quiet suburban neighborhood" ].

(** [scripts["initial_contact"].format(...)] *)
Definition initial_contact (client_name agent_name property_type location : string) : string :=
  nl ++ "                Hello " ++ client_name ++ ", this is " ++ agent_name ++ " from Premier Real Estate." ++ nl
  ++ "                " ++ nl
  ++ "                I'm reaching out because I noticed you recently expressed interest in " ++ property_type ++ " properties in the " ++ location ++ " area." ++ nl
  ++ "                " ++ nl
  ++ "                We have several new listings that match your criteria. Would you be interested in hearing more about them or perhaps scheduling a viewing?" ++ nl
  ++ "                " ++ nl
  ++ "                [If yes] Great! Let me tell you about a few properties that might interest you..." ++ nl
  ++ "                " ++ nl
  ++ "                [If no] I understand. Would it be alright if I follow up with you in the future when we have new listings that match your preferences?" ++ nl
  ++ "            ".

(** [scripts["property_details"].format(...)] *)
Definition property_details (property_name property_type address features : string)
    (price : Z) (description : string) : string :=
  nl ++ "                The " ++ property_name ++ " is a beautiful " ++ property_type ++ " located at " ++ address ++ ". " ++ nl
  ++ "                " ++ nl
  ++ "                It features " ++ features ++ " and is priced at $" ++ format_thousands price ++ "." ++ nl
  ++ "                " ++ nl
  ++ "                " ++ description ++ nl
  ++ "                " ++ nl
  ++ "                Would you be interested in scheduling a viewing of this property?" ++ nl
  ++ "            ".

(** [scripts["appointment_scheduling"].format(...)] *)
Definition appointment_scheduling
    (date_option_1 time_option_1 date_option_2 time_option_2 selected_date selected_time : string)
    : string :=
  nl ++ "                Great! I'd be happy to schedule a viewing for you. " ++ nl
  ++ "                " ++ nl
  ++ "                We have availability on " ++ date_option_1 ++ " at " ++ time_option_1 ++ " or " ++ date_option_2 ++ " at " ++ time_option_2 ++ "." ++ nl
  ++ "                " ++ nl
  ++ "                Which of these would work better for you?" ++ nl
  ++ "                " ++ nl
  ++ "                [After selection] Perfect! I've scheduled your viewing for " ++ selected_date ++ " at " ++ selected_time ++ ". " ++ nl
  ++ "                " ++ nl
  ++ "                You'll receive a confirmation email shortly with all the details." ++ nl
  ++ "            ".

Definition general_client_responses : list string :=
  [ "Yes, I'd like to hear more about the properties you have.";
    "I'm not sure if I'm ready to view properties just yet.";
    "What kind of properties do you have in that area?";
    "I'm specifically looking for something with a garage." ].

Definition general_ai_responses : dict string :=
  [ ("Yes, I'd like to hear more about the properties you have.",
     "Great! We have several properties that might interest you. One of our most popular listings is a modern two-bedroom condo in the heart of downtown. It features an open floor plan, high ceilings, and a private balcony with city views. It's priced at $650,000.");
    ("I'm not sure if I'm ready to view properties just yet.",
     "I completely understand. Would you like me to tell you a bit more about the properties we have available in the downtown area? This might help you decide if you'd like to schedule a viewing.");
    ("What kind of properties do you have in that area?",
     "In the downtown area, we have a mix of modern condos, luxury apartments, and a few townhouses. Our most popular listing is a two-bedroom condo with an open floor plan and city views, priced at $650,000. We also have a three-bedroom townhouse with a rooftop terrace for $875,000.");
    ("I'm specifically looking for something with a garage.",
     "We do have several properties with garage parking. Our downtown condo comes with one dedicated parking space in the secure underground garage. We also have a townhouse in the suburban area with a two-car garage, priced at $875,000. Would either of these interest you?") ].

Definition general_fallback_response : string :=
  "I understand. Let me find some properties that would match your needs.".

Definition schedule_viewing : string := "I'd like to schedule a viewing.".

Definition property_client_responses : list string :=
  [ "That sounds interesting. Is parking included?";
    "What are the HOA fees?";
    "Is it close to public transportation?";
    schedule_viewing ].

Definition property_ai_responses (p : property) : dict string :=
  let residential := String.eqb (prop_type p) "Residential" in
  [ ("That sounds interesting. Is parking included?",
     "Yes, the " ++ prop_name p ++ " comes with dedicated parking. For this specific property, you get "
     ++ (if residential then "one assigned space in the underground garage"
         else "multiple parking spaces in the private lot") ++ ".");
    ("What are the HOA fees?",
     "The HOA fees for " ++ prop_name p ++ " are "
     ++ (if residential then "$450 per month"
         else "not applicable as this is a commercial property with a different fee structure")
     ++ ". This includes "
     ++ (if residential then "building maintenance, security, and access to amenities like the gym and pool"
         else "common area maintenance and security") ++ ".");
    ("Is it close to public transportation?",
     "Yes, " ++ prop_name p ++ " is very conveniently located. There's a "
     ++ (if contains "Downtown" (prop_address p) then "subway station just two blocks away"
         else "bus stop within walking distance")
     ++ ", and several bus lines run nearby.");
    (schedule_viewing,
     "That's great! I'd be happy to arrange that for you. We have availability tomorrow at 2:00 PM or Friday at 10:00 AM. Which would work better for your schedule?") ].

Definition property_fallback_response (p : property) : string :=
  "Thank you for your interest in " ++ prop_name p ++ ". I'll make a note of your question and have our property specialist get back to you with more details.".

(** [f"Client: {client_response}\nAgent: {ai_response}"] *)
Definition call_note (client_response ai_response : string) : string :=
  "Client: " ++ client_response ++ nl ++ "Agent: " ++ ai_response.

Definition outcomes : list string :=
  ["appointment_scheduled"; "information_provided"; "follow_up_required"; "not_interested"].

(** [weights = [0.25, 0.4, 0.2, 0.15]], in hundredths. *)
Definition weights : list nat := [25; 40; 20; 15]%nat.

Definition general_available_times : list string :=
  ["10:00 AM"; "1:00 PM"; "3:30 PM"; "5:00 PM"].

Definition property_available_times : list string := ["10:00 AM"; "2:00 PM"].

(** [next((p for p in properties if p["id"] == property_id), None)] *)
Definition find_property (properties : list property) (property_id : string)
  : option property :=
  find (fun p => String.eqb (prop_id p) property_id) properties.

(** [[x for x in items if x != chosen]] *)
Definition others (items : list string) (chosen : string) : list string :=
  filter (fun x => negb (String.eqb x chosen)) items.

(** The three candidate dates of the general flow ([voice_agent.py]
    213-217, [voice_agent_with_openai.py] 269-273), the later two built
    by [datetime.now().replace(day=datetime.now().day + k)]. *)
Definition general_available_dates (rt : runtime) : M (list string) :=
  today <- datetime_now rt ;;
  a <- datetime_now rt ;;
  a' <- datetime_now rt ;;
  tomorrow <- lift (replace_day a (day a' + 1)) ;;
  b <- datetime_now rt ;;
  b' <- datetime_now rt ;;
  after <- lift (replace_day b (day b' + 2)) ;;
  ret [strftime_day today; strftime_day tomorrow; strftime_day after].

End Fixtures.

Export Fixtures.

(* ================================================================== *)
(** ** [voice_agent.py]: the template-only agent                        *)
(* ================================================================== *)

Module VoiceAgent.

Import CRMIntegration.

Record agent : Type := mk_agent { properties : list property }.

Definition _load_properties : list property := property_catalog.

(** [RealEstateVoiceAgent(...)]: a fresh agent owns a fresh, empty CRM. *)
Definition init : M agent :=
  put_crm crm_init ;;; ret (mk_agent _load_properties).

(** [_handle_general_inquiry] ([voice_agent.py] 145-239). *)
Definition _handle_general_inquiry (rt : runtime) (self : agent)
    (client_info : client) (call_id : string) : M unit :=
  let script :=
    initial_contact (client_name client_info) "Sarah"
      (match client_interest client_info with Some i => i | None => "residential" end)
      (match client_location client_info with Some l => l | None => "downtown" end) in
  client_response <- random_choice rt general_client_responses ;;
  let ai_response :=
    dict_get_default general_ai_responses client_response general_fallback_response in
  update_call_notes rt call_id (call_note client_response ai_response) ;;;
  outcome <- random_choices rt outcomes weights ;;
  if String.eqb outcome "appointment_scheduled" then
    available_dates <- general_available_dates rt ;;
    let available_times := general_available_times in
    date_option_1 <- random_choice rt available_dates ;;
    time_option_1 <- random_choice rt available_times ;;
    date_option_2 <- random_choice rt (others available_dates date_option_1) ;;
    time_option_2 <- random_choice rt (others available_times time_option_1) ;;
    let appointment_script :=
      appointment_scheduling date_option_1 time_option_1 date_option_2 time_option_2
        date_option_1 time_option_1 in
    schedule_appointment rt client_info date_option_1 time_option_1 None ;;;
    update_call_outcome call_id "Appointment scheduled"
  else
    update_call_outcome call_id (title (replace_char "_" " " outcome)).

(** [_handle_property_inquiry] ([voice_agent.py] 241-303). *)
Definition _handle_property_inquiry (rt : runtime) (self : agent)
    (client_info : client) (property_info : property) (call_id : string) : M unit :=
  let script :=
    Fixtures.property_details (prop_name property_info) (lower (prop_type property_info))
      (prop_address property_info) (prop_features property_info)
      (prop_price property_info) (prop_description property_info) in
  client_response <- random_choice rt property_client_responses ;;
  let ai_response :=
    dict_get_default (property_ai_responses property_info) client_response
      (property_fallback_response property_info) in
  update_call_notes rt call_id (call_note client_response ai_response) ;;;
  if String.eqb client_response schedule_viewing then
    today <- datetime_now rt ;;
    a <- datetime_now rt ;;
    a' <- datetime_now rt ;;
    tomorrow <- lift (replace_day a (day a' + 1)) ;;
    let available_dates := [strftime_day today; strftime_day tomorrow] in
    let available_times := property_available_times in
    selected_date <- lift (list_index available_dates 0) ;;
    selected_time <- lift (list_index available_times 1) ;;
    schedule_appointment rt client_info selected_date selected_time
      (Some (prop_id property_info)) ;;;
    update_call_outcome call_id "Appointment scheduled"
  else
    update_call_outcome call_id "Information provided".

(** [make_call] ([voice_agent.py] 110-143).  [print] and [time.sleep]
    leave the state alone and are left out. *)
Definition make_call (rt : runtime) (self : agent) (client_info : client)
    (property_id : option string) : M string :=
  call_id <- log_call_start rt client_info ;;
  (if truthy property_id then
     match find_property (properties self)
             (match property_id with Some i => i | None => "" end) with
     | Some property_info =>
         _handle_property_inquiry rt self client_info property_info call_id
     | None => _handle_general_inquiry rt self client_info call_id
     end
   else _handle_general_inquiry rt self client_info call_id) ;;;
  log_call_end rt call_id ;;;
  ret call_id.

End VoiceAgent.

(* ================================================================== *)
(** ** [voice_agent_with_openai.py]: the agent with the chat backend    *)
(* ================================================================== *)

Module VoiceAgentOpenAI.

Import CRMIntegration.

(** The agent object.  [has_openai] is [hasattr(self, 'openai')];
    [use_openai] is [None] until [__init__] assigns the attribute. *)
Record agent : Type := mk_agent {
  properties : list property;
  has_openai : bool;
  use_openai : option bool
}.

(** [self.use_openai] *)
Definition read_use_openai (self : agent) : M bool :=
  match use_openai self with
  | Some b => ret b
  | None => raise (AttributeError "'RealEstateVoiceAgent' object has no attribute 'use_openai'")
  end.

Definition set_description (p : property) (d : string) : property :=
  mk_property (prop_id p) (prop_name p) (prop_type p) (prop_price p)
              (prop_address p) (prop_features p) d.

(** The loop [for property in properties: try: ... except: pass]
    ([voice_agent_with_openai.py] 75-80). *)
Fixpoint enrich_descriptions (rt : runtime) (ps : list property) : M (list property) :=
  match ps with
  | [] => ret []
  | p :: rest =>
      p' <- try_except
              (d <- OpenAIIntegration.generate_property_description rt p ;;
               ret (set_description p d))
              (fun _ => ret p) ;;
      rest' <- enrich_descriptions rt rest ;;
      ret (p' :: rest')
  end.

(** [_load_properties] ([voice_agent_with_openai.py] 31-83). *)
Definition _load_properties (rt : runtime) (self : agent) : M (list property) :=
  let properties := property_catalog in
  enrich <- (if has_openai self then read_use_openai self else ret false) ;;
  if enrich then enrich_descriptions rt properties else ret properties.

(** [__init__] ([voice_agent_with_openai.py] 9-29): the properties are
    loaded before [self.openai] and [self.use_openai] are assigned. *)
Definition init (rt : runtime) (openai_api_key environ_key : option string) : M agent :=
  let self := mk_agent [] false None in
  loaded <- _load_properties rt self ;;
  put_crm crm_init ;;;
  match OpenAIIntegration.init openai_api_key environ_key with
  | Ok _ => ret (mk_agent loaded true (Some true))
  | Raise _ => ret (mk_agent loaded false (Some false))
  end.

(** The [if / elif / else] over [sentiment["interest_level"]]
    ([voice_agent_with_openai.py] 250-255). *)
Definition outcome_of_sentiment (sentiment : json) : result string :=
  match json_getitem sentiment "interest_level" with
  | Raise e => Raise e
  | Ok level =>
      if json_eq_str level "high" then Ok "appointment_scheduled"
      else
        match json_getitem sentiment "interest_level" with
        | Raise e => Raise e
        | Ok level' =>
            if json_eq_str level' "medium" then Ok "information_provided"
            else Ok "follow_up_required"
        end
  end.

(** The outcome decision of the general flow (243-265): sentiment
    first when OpenAI is in use, the weighted draw when it is not or
    when anything in the [try] raised. *)
Definition decide_outcome (rt : runtime) (self : agent) (call_id client_response : string)
  : M string :=
  use <- read_use_openai self ;;
  if use then
    try_except
      (sentiment <- OpenAIIntegration.analyze_client_sentiment rt client_response ;;
       update_client_sentiment call_id sentiment ;;;
       lift (outcome_of_sentiment sentiment))
      (fun _ => random_choices rt outcomes weights)
  else random_choices rt outcomes weights.

(** [_handle_general_inquiry] ([voice_agent_with_openai.py] 162-305). *)
Definition _handle_general_inquiry (rt : runtime) (self : agent)
    (client_info : client) (call_id : string) (conversation_history : list chat_message)
  : M unit :=
  let interest := match client_interest client_info with Some i => i | None => "residential" end in
  let location := match client_location client_info with Some l => l | None => "downtown" end in
  use1 <- read_use_openai self ;;
  script <-
    (if use1 then
       let initial_context :=
         "You are making an initial call to " ++ client_name client_info
         ++ " who has expressed interest in " ++ interest ++ " properties in the "
         ++ location ++ " area." in
       OpenAIIntegration.generate_response rt
         "Generate an initial greeting for a cold call to a potential real estate client."
         None None "Sarah" (Some initial_context)
     else ret (initial_contact (client_name client_info) "Sarah" interest location)) ;;
  let conversation_history := (conversation_history ++ [mk_message "assistant" (strip script)])%list in
  client_response <- random_choice rt general_client_responses ;;
  let conversation_history := (conversation_history ++ [mk_message "user" client_response])%list in
  use2 <- read_use_openai self ;;
  ai_response <-
    (if use2 then
       OpenAIIntegration.generate_response rt client_response (Some conversation_history)
         None "Sarah" None
     else ret (dict_get_default general_ai_responses client_response
                 general_fallback_response)) ;;
  let conversation_history := (conversation_history ++ [mk_message "assistant" ai_response])%list in
  update_call_notes rt call_id (call_note client_response ai_response) ;;;
  outcome <- decide_outcome rt self call_id client_response ;;
  if String.eqb outcome "appointment_scheduled" then
    available_dates <- general_available_dates rt ;;
    let available_times := general_available_times in
    date_option_1 <- random_choice rt available_dates ;;
    time_option_1 <- random_choice rt available_times ;;
    date_option_2 <- random_choice rt (others available_dates date_option_1) ;;
    time_option_2 <- random_choice rt (others available_times time_option_1) ;;
    use3 <- read_use_openai self ;;
    appointment_script <-
      (if use3 then
         let scheduling_context :=
           "You need to schedule a viewing appointment. Offer these options: "
           ++ date_option_1 ++ " at " ++ time_option_1 ++ " or "
           ++ date_option_2 ++ " at " ++ time_option_2 ++ "." in
         OpenAIIntegration.generate_response rt schedule_viewing
           (Some conversation_history) None "Sarah" (Some scheduling_context)
       else ret (appointment_scheduling date_option_1 time_option_1 date_option_2
                   time_option_2 date_option_1 time_option_1)) ;;
    schedule_appointment rt client_info date_option_1 time_option_1 None ;;;
    update_call_outcome call_id "Appointment scheduled"
  else
    update_call_outcome call_id (title (replace_char "_" " " outcome)).

(** [_handle_property_inquiry] ([voice_agent_with_openai.py] 307-417). *)
Definition _handle_property_inquiry (rt : runtime) (self : agent)
    (client_info : client) (property_info : property) (call_id : string)
    (conversation_history : list chat_message) : M unit :=
  use1 <- read_use_openai self ;;
  script <-
    (if use1 then
       let property_context :=
         "You are discussing the " ++ prop_name property_info
         ++ " property with a potential client. This is a "
         ++ lower (prop_type property_info) ++ " property priced at $"
         ++ format_thousands (prop_price property_info) ++ ", located at "
         ++ prop_address property_info ++ ". It features "
         ++ prop_features property_info ++ "." in
       OpenAIIntegration.generate_response rt "Tell me about this property."
         None (Some property_info) "Sarah" (Some property_context)
     else ret (Fixtures.property_details (prop_name property_info)
                 (lower (prop_type property_info)) (prop_address property_info)
                 (prop_features property_info) (prop_price property_info)
                 (prop_description property_info))) ;;
  let conversation_history := (conversation_history ++ [mk_message "assistant" (strip script)])%list in
  client_response <- random_choice rt property_client_responses ;;
  let conversation_history := (conversation_history ++ [mk_message "user" client_response])%list in
  use2 <- read_use_openai self ;;
  ai_response <-
    (if use2 then
       OpenAIIntegration.generate_response rt client_response (Some conversation_history)
         (Some property_info) "Sarah" None
     else ret (dict_get_default (property_ai_responses property_info) client_response
                 (property_fallback_response property_info))) ;;
  let conversation_history := (conversation_history ++ [mk_message "assistant" ai_response])%list in
  update_call_notes rt call_id (call_note client_response ai_response) ;;;
  if String.eqb client_response schedule_viewing then
    today <- datetime_now rt ;;
    tomorrow <- lift (add_days today 1) ;;
    after <- lift (add_days today 2) ;;
    let available_dates := [strftime_day today; strftime_day tomorrow; strftime_day after] in
    let available_times := property_available_times in
    selected_date <- lift (list_index available_dates 0) ;;
    selected_time <- lift (list_index available_times 1) ;;
    use3 <- read_use_openai self ;;
    (if use3 then
       let confirmation_context :=
         "The client has selected to view the property on " ++ selected_date ++ " at "
         ++ selected_time ++ ". Confirm the appointment and provide next steps." in
       confirmation <-
         OpenAIIntegration.generate_response rt
           ("I'll take the " ++ selected_date ++ " at " ++ selected_time ++ " slot.")
           (Some conversation_history) (Some property_info) "Sarah"
           (Some confirmation_context) ;;
       ret tt
     else ret tt) ;;;
    schedule_appointment rt client_info selected_date selected_time
      (Some (prop_id property_info)) ;;;
    update_call_outcome call_id "Appointment scheduled"
  else
    update_call_outcome call_id "Information provided".

(** [make_call] ([voice_agent_with_openai.py] 124-160).  [print] and
    [time.sleep] leave the state alone and are left out. *)
Definition make_call (rt : runtime) (self : agent) (client_info : client)
    (property_id : option string) : M string :=
  call_id <- log_call_start rt client_info ;;
  let conversation_history := [] in
  (if truthy property_id then
     match find_property (properties self)
             (match property_id with Some i => i | None => "" end) with
     | Some property_info =>
         _handle_property_inquiry rt self client_info property_info call_id
           conversation_history
     | None => _handle_general_inquiry rt self client_info call_id conversation_history
     end
   else _handle_general_inquiry rt self client_info call_id conversation_history) ;;;
  log_call_end rt call_id ;;;
  ret call_id.

End VoiceAgentOpenAI.

(* ================================================================== *)
(** ** Vocabulary of the statements, and sample worlds                  *)
(* ================================================================== *)

Import CRMIntegration.

(** *** States *)

(** The state after one more backend call, and after one more read of
    the clock. *)
Definition after_chat (st : state) : state :=
  mk_state (crm st) (clock_reads st) (rand_draws st) (S (chat_calls st)).

Definition tick (st : state) : state :=
  mk_state (crm st) (S (clock_reads st)) (rand_draws st) (chat_calls st).

Definition with_calls (st : state) (d : dict call_record) : state :=
  mk_state (mk_crm d (appointments (crm st))) (clock_reads st) (rand_draws st) (chat_calls st).

(** The identifier and the record [log_call_start] makes in [st]. *)
Definition fresh_call_id (rt : runtime) (st : state) : string :=
  "call_" ++ str_of_Z (time_at rt (clock_reads st)) ++ "_"
  ++ str_of_Z (1000 + Z.of_nat (random_at rt (rand_draws st)) mod (9999 - 1000 + 1)).

Definition fresh_record (rt : runtime) (st : state) (c : client) : call_record :=
  mk_call c (strftime_stamp (now_at rt (S (clock_reads st)))) in_progress [] None None None None.

(** The record [log_call_end] leaves for a call that started as [r]. *)
Definition closed_record (r : call_record) (stop : datetime) (seconds : Z) : call_record :=
  mk_call (call_client r) (start_time r) completed (notes r) (outcome r) (sentiment r)
          (Some (strftime_stamp stop)) (Some (format_duration seconds)).

(** *** Call records *)

Definition is_set {A} (o : option A) : bool :=
  match o with Some _ => true | None => false end.

Definition is_completed (r : call_record) : bool :=
  match status r with completed => true | in_progress => false end.

(** End timestamp and duration are set exactly when the call is completed. *)
Definition closing_fields_ok (r : call_record) : bool :=
  Bool.eqb (is_set (end_time r)) (is_completed r)
  && Bool.eqb (is_set (duration r)) (is_completed r).

(** A completed call has an outcome. *)
Definition outcome_before_completion (r : call_record) : bool :=
  implb (is_completed r) (is_set (outcome r)).

(** Both halves of the record invariant of the data model. *)
Definition claimed_call_invariant (r : call_record) : bool :=
  closing_fields_ok r && outcome_before_completion r.

Definition every_call (P : call_record -> bool) (c : crm_store) : bool :=
  forallb (fun kv => P (snd kv)) (calls c).

(** A date whose stamp [strptime_stamp] reads back: a real date with a
    year of four digits. *)
Definition readable (d : datetime) : bool :=
  valid_datetime d && (1000 <=? year d).

(** A start time is text that [strftime_stamp] wrote for a readable
    date. *)
Definition stamped (s : string) : Prop :=
  exists d, readable d = true /\ s = strftime_stamp d.

(** What a history maintains of a record.  The outcome half is kept
    only by some histories: [strict] says whether it is asked for. *)
Definition record_ok (strict : bool) (r : call_record) : Prop :=
  stamped (start_time r)
  /\ closing_fields_ok r = true
  /\ (strict = true -> outcome_before_completion r = true).

Definition ledger_ok (strict : bool) (c : crm_store) : Prop :=
  Forall (fun kv => record_ok strict (snd kv)) (calls c).

(** The clock only shows dates that exist. *)
Definition clock_ok (rt : runtime) : Prop :=
  forall n, valid_datetime (now_at rt n) = true.

(** The clock only shows dates that exist and whose year has four
    digits, from 1000 on: the dates whose stamps can be read back. *)
Definition clock_readable (rt : runtime) : Prop :=
  forall n, readable (now_at rt n) = true.

(** The call [id] is in the ledger, open and undecided; [apts] are the
    appointments. *)
Definition call_open (strict : bool) (id : string) (apts : list appointment)
    (c : crm_store) : Prop :=
  ledger_ok strict c /\ appointments c = apts
  /\ exists r, dict_get (calls c) id = Some r
               /\ status r = in_progress /\ outcome r = None.

(** The call [id] is open and has an outcome. *)
Definition call_decided (strict : bool) (id : string) (apts : list appointment)
    (c : crm_store) : Prop :=
  ledger_ok strict c /\ appointments c = apts
  /\ exists r o, dict_get (calls c) id = Some r
                 /\ status r = in_progress /\ outcome r = Some o.

(** The call [id] is completed, with outcome, end time and duration. *)
Definition call_closed (strict : bool) (id : string) (apts : list appointment)
    (c : crm_store) : Prop :=
  ledger_ok strict c /\ appointments c = apts
  /\ exists r o e d, dict_get (calls c) id = Some r
                     /\ status r = completed /\ outcome r = Some o
                     /\ end_time r = Some e /\ duration r = Some d.

(** Status, outcome, end time and duration of every call, in order. *)
Definition call_summary (st : state)
  : list (call_status * option string * option string * option string) :=
  map (fun kv => (status (snd kv), outcome (snd kv), end_time (snd kv), duration (snd kv)))
      (calls (crm st)).

Definition is_history_list (h : call_history) : bool :=
  match h with HistoryList _ => true | HistoryDict _ => false end.

Definition is_filtered_list (l : appointment_list) : bool :=
  match l with FilteredList _ => true | StoreList _ => false end.

(** *** Histories *)

(** The operations of the ledger, as a caller can issue them. *)
Inductive ledger_op : Type :=
| OpLogCallStart (client_info : client)
| OpUpdateCallNotes (call_id text : string)
| OpUpdateClientSentiment (call_id : string) (v : json)
| OpUpdateCallOutcome (call_id o : string)
| OpLogCallEnd (call_id : string)
| OpScheduleAppointment (client_info : client) (date time : string)
                        (property_id : option string).

Definition run_op (rt : runtime) (op : ledger_op) : M unit :=
  (match op with
   | OpLogCallStart c => (_ <- log_call_start rt c ;; ret tt)
   | OpUpdateCallNotes i t => update_call_notes rt i t
   | OpUpdateClientSentiment i v => update_client_sentiment i v
   | OpUpdateCallOutcome i o => update_call_outcome i o
   | OpLogCallEnd i => log_call_end rt i
   | OpScheduleAppointment c d t p => (_ <- schedule_appointment rt c d t p ;; ret tt)
   end)%py.

(** What can happen to a ledger: one of its operations, or a whole call
    by one of the two agents. *)
Inductive session_step : Type :=
| Ledger (op : ledger_op)
| TemplateCall (self : VoiceAgent.agent) (client_info : client)
               (property_id : option string)
| OpenAICall (self : VoiceAgentOpenAI.agent) (client_info : client)
             (property_id : option string).

(** A step leaves the state it reached, also when it raised. *)
Definition run_step (rt : runtime) (s : session_step) (st : state) : state :=
  match s with
  | Ledger op => snd (run_op rt op st)
  | TemplateCall self c p => snd (VoiceAgent.make_call rt self c p st)
  | OpenAICall self c p => snd (VoiceAgentOpenAI.make_call rt self c p st)
  end.

Fixpoint run_steps (rt : runtime) (steps : list session_step) (st : state) : state :=
  match steps with
  | [] => st
  | s :: rest => run_steps rt rest (run_step rt s st)
  end.

(** A history in which the ledger is only driven by the agents. *)
Definition is_agent_call (s : session_step) : bool :=
  match s with
  | Ledger _ => false
  | TemplateCall _ _ _ | OpenAICall _ _ _ => true
  end.

Definition only_agent_calls (steps : list session_step) : bool :=
  forallb is_agent_call steps.

(** *** A small program logic over the CRM *)

(** A computation that leaves the CRM as it found it. *)
Definition keeps_crm {A} (m : M A) : Prop :=
  forall st, crm (snd (m st)) = crm st.

(** [triple P m Q E]: from a CRM satisfying [P], [m] either returns [a]
    with the CRM in [Q a], or raises with the CRM in [E]. *)
Definition triple {A} (P : crm_store -> Prop) (m : M A)
    (Q : A -> crm_store -> Prop) (E : crm_store -> Prop) : Prop :=
  forall st, P (crm st) ->
    match m st with
    | (Ok a, st') => Q a (crm st')
    | (Raise _, st') => E (crm st')
    end.

(** *** Checks over a finite range *)

Definition range_Z (n : Z) : list Z := map Z.of_nat (seq 0 (Z.to_nat n)).

(** The padded text of [z] has two characters and reads back as [z];
    the text of a year [z] from 1000 on has four and reads back as [z]. *)
Definition two_digits (z : Z) : bool :=
  match pad2 z with
  | String _ (String _ EmptyString) =>
      match digits_val 0 (pad2 z) with Some v => v =? z | None => false end
  | _ => false
  end.

Definition four_digits (z : Z) : bool :=
  if z <? 1000 then true else
  match str_of_Z z with
  | String _ (String _ (String _ (String _ EmptyString))) =>
      match digits_val 0 (str_of_Z z) with Some v => v =? z | None => false end
  | _ => false
  end.

(** *** Sample worlds *)

Module Samples.

(** The client of the example usage in both agent files. *)
Definition john : client :=
  mk_client (Some "client123") "John Smith" "(555) 123-4567"
            (Some "residential") (Some "downtown").

Definition mid_january : datetime := mk_datetime 2024 1 15 10 0 0.
Definition end_of_january : datetime := mk_datetime 2024 1 31 10 0 0.

(** A backend that is down, and one that answers every request with
    the same text. *)
Definition backend_down : nat -> chat_request -> result (list string) :=
  fun _ _ => Raise (APIError "connection refused").
Definition backend_says (text : string) : nat -> chat_request -> result (list string) :=
  fun _ _ => Ok [text].

Definition keen_text : string :=
  "{" ++ dq ++ "interest_level" ++ dq ++ ": " ++ dq ++ "high" ++ dq ++ "}".
Definition keen : json := JObj [("interest_level", JStr "high")].
Definition vague_text : string :=
  "{" ++ dq ++ "interest_level" ++ dq ++ ": " ++ dq ++ "maybe" ++ dq ++ "}".
Definition vague : json := JObj [("interest_level", JStr "maybe")].

(** A decoder that knows the two sample texts. *)
Definition decode (text : string) : result json :=
  if String.eqb text keen_text then Ok keen
  else if String.eqb text vague_text then Ok vague
  else Raise (JSONDecodeError "Expecting value").

(** A world with a stopped clock and a fixed stream of random draws. *)
Definition world (today : datetime) (draws : nat -> nat)
    (backend : nat -> chat_request -> result (list string)) : runtime :=
  mk_runtime (fun _ => today) (fun _ => 1705312800) draws backend decode.

Definition zeros_draws : nat -> nat := fun _ => 0%nat.
Definition threes_draws : nat -> nat := fun _ => 3%nat.

(** Mid-January, every draw 0, backend down. *)
Definition stopped : runtime := world mid_january zeros_draws backend_down.

Definition template_agent : VoiceAgent.agent := VoiceAgent.mk_agent property_catalog.
Definition openai_agent : VoiceAgentOpenAI.agent :=
  VoiceAgentOpenAI.mk_agent property_catalog true (Some true).
Definition fallback_agent : VoiceAgentOpenAI.agent :=
  VoiceAgentOpenAI.mk_agent property_catalog false (Some false).

(** One call by the sample client, still open. *)
Definition one_call_store : crm_store :=
  crm (run_steps stopped [Ledger (OpLogCallStart john)] state_init).

End Samples.

(* ================================================================== *)
(** ** Vocabulary of the properties of the ledger and of whole calls    *)
(* ================================================================== *)

(** Whether an operation opens a call, and whether it books an
    appointment. *)
Definition is_start (op : ledger_op) : bool :=
  match op with OpLogCallStart _ => true | _ => false end.

Definition is_schedule (op : ledger_op) : bool :=
  match op with OpScheduleAppointment _ _ _ _ => true | _ => false end.

(** The call an operation is addressed to. *)
Definition op_call_id (op : ledger_op) : option string :=
  match op with
  | OpUpdateCallNotes i _ | OpUpdateClientSentiment i _
  | OpUpdateCallOutcome i _ | OpLogCallEnd i => Some i
  | OpLogCallStart _ | OpScheduleAppointment _ _ _ _ => None
  end.

(** [r'] is a later state of the record [r]: same client and start
    time, the notes of [r] first, and completed if [r] was. *)
Definition later_record (r r' : call_record) : Prop :=
  call_client r' = call_client r
  /\ start_time r' = start_time r
  /\ (exists added, notes r' = (notes r ++ added)%list)
  /\ (status r = completed -> status r' = completed).

(** The outcomes the agents write when a call goes through. *)
Definition recorded_outcomes : list string :=
  ["Information Provided"; "Follow Up Required"; "Not Interested"; "Information provided"].

(** An outcome field as the agents leave it: empty, or one of
    [recorded_outcomes]. *)
Definition outcome_recordable (o : option string) : bool :=
  match o with
  | None => true
  | Some s => existsb (String.eqb s) recorded_outcomes
  end.

(** The state after one more draw from the random stream. *)
Definition drew (st : state) : state :=
  mk_state (crm st) (clock_reads st) (S (rand_draws st)) (chat_calls st).

(** What [make_call] leaves of the call it made for [c]: a returned
    call is completed, with one of the [recorded_outcomes], an end time
    and a duration; a call that raised is in progress with none of them. *)
Definition call_finished (c : client) (r : call_record) : Prop :=
  call_client r = c /\ status r = completed
  /\ (exists o, outcome r = Some o /\ In o recorded_outcomes)
  /\ is_set (end_time r) = true /\ is_set (duration r) = true.

Definition call_abandoned (c : client) (r : call_record) : Prop :=
  call_client r = c /\ status r = in_progress /\ outcome r = None
  /\ end_time r = None /\ duration r = None.

Definition made_call (rt : runtime) (c : client) (st : state)
    (out : result string * state) : Prop :=
  exists r, dict_get (calls (crm (snd out))) (fresh_call_id rt st) = Some r
    /\ match fst out with
       | Ok id => id = fresh_call_id rt st /\ call_finished c r
       | Raise _ => call_abandoned c r
       end.


(** A runtime whose chat backend raises on every request. *)
Definition backend_is_down (rt : runtime) : Prop :=
  forall n req, exists e, chat_at rt n req = Raise e.

(** *** More sample worlds *)

Module MoreSamples.

(** The ledger after [log_call_start] for the sample client, and the
    id of that call. *)
Definition opened : state :=
  run_steps Samples.stopped [Ledger (OpLogCallStart Samples.john)] state_init.

Definition opened_id : string := fresh_call_id Samples.stopped state_init.

(** An assessment without the [interest_level] key. *)
Definition terse_assessment : json := JObj [("sentiment", JStr "positive")].

(** A world whose backend answers and whose decoder reads every answer
    as [terse_assessment]. *)
Definition terse : runtime :=
  mk_runtime (fun _ => Samples.mid_january) (fun _ => 1705312800) Samples.zeros_draws
             (Samples.backend_says "{}") (fun _ => Ok terse_assessment).

(** The last day of January, with every draw 3: the client of a
    property call asks for a viewing. *)
Definition month_end : runtime :=
  Samples.world Samples.end_of_january Samples.threes_draws Samples.backend_down.

Definition condo : property :=
  mk_property "prop002" "Downtown Condo" "Residential" 650000
    "456 Main St #302, Downtown, CA" "2 bed, 2 bath, 1,100 sq ft"
    "Modern condo in the heart of downtown with city views".

End MoreSamples.

(* ================================================================== *)
(** * Properties                                                       *)
(* ================================================================== *)


(** ** Running a computation *)

Lemma bind_ok {A B} (m : M A) (k : A -> M B) st a st' :
  m st = (Ok a, st') -> bind m k st = k a st'.
Proof. intros H. unfold bind. rewrite H. reflexivity. Qed.

Lemma try_except_ok {A} (m : M A) h st a st' :
  m st = (Ok a, st') -> try_except m h st = (Ok a, st').
Proof. intros H. unfold try_except. rewrite H. reflexivity. Qed.

Lemma dict_get_set_same {V} (d : dict V) k v :
  dict_get (dict_set d k v) k = Some v.
Proof.
  induction d as [|[k' v'] d IH]; cbn.
  - rewrite String.eqb_refl. reflexivity.
  - destruct (String.eqb k' k) eqn:E; cbn; rewrite E; auto.
Qed.

Lemma dict_set_set {V} (d : dict V) k v v' :
  dict_set (dict_set d k v) k v' = dict_set d k v'.
Proof.
  induction d as [|[k0 v0] d IH]; cbn.
  - rewrite String.eqb_refl. reflexivity.
  - destruct (String.eqb k0 k) eqn:E; cbn; rewrite E; [reflexivity|]. rewrite IH. reflexivity.
Qed.

Lemma dict_get_Forall {V} (Q : V -> Prop) (d : dict V) k v :
  Forall (fun kv => Q (snd kv)) d -> dict_get d k = Some v -> Q v.
Proof.
  induction 1 as [|[k0 v0] d H0 H IH]; cbn; [discriminate|].
  destruct (String.eqb k0 k); [intros [= <-]; exact H0 | exact IH].
Qed.

Lemma dict_set_Forall {V} (Q : V -> Prop) (d : dict V) k v :
  Forall (fun kv => Q (snd kv)) d -> Q v -> Forall (fun kv => Q (snd kv)) (dict_set d k v).
Proof.
  intros H Hv. induction H as [|[k0 v0] d H0 H IH]; cbn.
  - constructor; [exact Hv | constructor].
  - destruct (String.eqb k0 k); constructor; auto.
Qed.

(** ** Time stamps read back as written *)

Lemma in_range_Z z n : 0 <= z < n -> In z (range_Z n).
Proof.
  intros H. unfold range_Z. apply in_map_iff. exists (Z.to_nat z). split; [lia|].
  apply in_seq. lia.
Qed.

Lemma two_digits_all : forallb two_digits (range_Z 100) = true.
Proof. vm_compute. reflexivity. Qed.

Lemma four_digits_all : forallb four_digits (range_Z 10000) = true.
Proof. vm_compute. reflexivity. Qed.

Lemma pad2_digits z : 0 <= z < 100 ->
  exists a b, pad2 z = String a (String b EmptyString)
              /\ digits_val 0 (String a (String b EmptyString)) = Some z.
Proof.
  intros H. pose proof two_digits_all as A. rewrite forallb_forall in A.
  specialize (A z (in_range_Z z 100 ltac:(lia))). unfold two_digits in A.
  destruct (pad2 z) as [|a [|b [|]]]; try discriminate.
  exists a, b. split; [reflexivity|].
  destruct (digits_val 0 (String a (String b EmptyString))); [|discriminate].
  apply Z.eqb_eq in A. congruence.
Qed.

Lemma year_digits z : 1000 <= z < 10000 ->
  exists a b c d, str_of_Z z = String a (String b (String c (String d EmptyString)))
              /\ digits_val 0 (String a (String b (String c (String d EmptyString)))) = Some z.
Proof.
  intros H. pose proof four_digits_all as A. rewrite forallb_forall in A.
  specialize (A z (in_range_Z z 10000 ltac:(lia))). unfold four_digits in A.
  destruct (Z.ltb_spec z 1000) as [?|_]; [lia|].
  destruct (str_of_Z z) as [|a [|b [|c [|d [|]]]]]; try discriminate.
  exists a, b, c, d. split; [reflexivity|].
  destruct (digits_val 0 _); [|discriminate].
  apply Z.eqb_eq in A. congruence.
Qed.

Lemma strptime_stamp_shape y1 y2 y3 y4 m1 m2 d1 d2 h1 h2 n1 n2 s1 s2 :
  strptime_stamp
    (String y1 (String y2 (String y3 (String y4 (String "-"
      (String m1 (String m2 (String "-" (String d1 (String d2 (String " "
        (String h1 (String h2 (String ":" (String n1 (String n2 (String ":"
          (String s1 (String s2 EmptyString)))))))))))))))))))
  = match digits_val 0 (String y1 (String y2 (String y3 (String y4 EmptyString)))),
          digits_val 0 (String m1 (String m2 EmptyString)),
          digits_val 0 (String d1 (String d2 EmptyString)),
          digits_val 0 (String h1 (String h2 EmptyString)),
          digits_val 0 (String n1 (String n2 EmptyString)),
          digits_val 0 (String s1 (String s2 EmptyString)) with
    | Some y, Some m, Some d, Some hh, Some mm, Some ss =>
        let dt := mk_datetime y m d hh mm ss in
        if valid_datetime dt then Ok dt
        else Raise (ValueError "time data does not match format")
    | _, _, _, _, _, _ => Raise (ValueError "time data does not match format")
    end.
Proof. reflexivity. Qed.

Lemma valid_datetime_bounds d : valid_datetime d = true ->
  1 <= year d <= 9999 /\ 1 <= month d <= 12 /\ 1 <= day d <= 31
  /\ 0 <= hour d <= 23 /\ 0 <= minute d <= 59 /\ 0 <= second d <= 59.
Proof.
  unfold valid_datetime. intros H.
  repeat (apply andb_prop in H; destruct H as [H ?]).
  assert (days_in_month (year d) (month d) <= 31).
  { unfold days_in_month. repeat match goal with |- context [if ?b then _ else _] => destruct b end; lia. }
  lia.
Qed.

Lemma readable_valid d :
  readable d = true -> valid_datetime d = true /\ 1000 <= year d.
Proof.
  unfold readable. intros H. apply andb_prop in H. destruct H as [Hv Hy].
  apply Z.leb_le in Hy. split; assumption.
Qed.

(** The stamp of a readable date parses back to the date. *)
Lemma strptime_strftime d :
  readable d = true -> strptime_stamp (strftime_stamp d) = Ok d.
Proof.
  intros Hr. destruct (readable_valid d Hr) as [Hv Hy1000].
  pose proof (valid_datetime_bounds d Hv) as (Hy & Hm & Hd & Hh & Hn & Hs).
  destruct (year_digits (year d) ltac:(lia)) as (y1 & y2 & y3 & y4 & Ey & Vy).
  destruct (pad2_digits (month d) ltac:(lia)) as (m1 & m2 & Em & Vm).
  destruct (pad2_digits (day d) ltac:(lia)) as (d1 & d2 & Ed & Vd).
  destruct (pad2_digits (hour d) ltac:(lia)) as (h1 & h2 & Eh & Vh).
  destruct (pad2_digits (minute d) ltac:(lia)) as (n1 & n2 & En & Vn).
  destruct (pad2_digits (second d) ltac:(lia)) as (s1 & s2 & Es & Vs).
  unfold strftime_stamp. rewrite Ey, Em, Ed, Eh, En, Es.
  cbn [append]. rewrite strptime_stamp_shape.
  rewrite Vy, Vm, Vd, Vh, Vn, Vs. cbv zeta.
  destruct d; cbn [year month day hour minute second] in *. rewrite Hv. reflexivity.
Qed.

(** ** What each ledger operation does to the state *)

#[local] Arguments strftime_stamp : simpl never.
#[local] Arguments strptime_stamp : simpl never.
#[local] Arguments format_duration : simpl never.
#[local] Arguments total_seconds : simpl never.

Lemma has_call_run id st : has_call id st = (Ok (dict_mem (calls (crm st)) id), st).
Proof. reflexivity. Qed.

Lemma modify_call_present id f st r :
  dict_get (calls (crm st)) id = Some r ->
  modify_call id f st = (Ok tt, with_calls st (dict_set (calls (crm st)) id (f r))).
Proof.
  intros H. unfold modify_call, set_calls, bind, get_crm, put_crm. cbn. rewrite H. reflexivity.
Qed.

Lemma update_call_outcome_run id o st :
  update_call_outcome id o st =
  (Ok tt,
   match dict_get (calls (crm st)) id with
   | Some r => with_calls st (dict_set (calls (crm st)) id
        (mk_call (call_client r) (start_time r) (status r) (notes r)
                 (Some o) (sentiment r) (end_time r) (duration r)))
   | None => st
   end).
Proof.
  unfold update_call_outcome. unfold bind at 1. rewrite has_call_run. unfold dict_mem.
  destruct (dict_get (calls (crm st)) id) as [r|] eqn:E; [|reflexivity].
  rewrite (modify_call_present _ _ _ _ E). reflexivity.
Qed.

Lemma update_client_sentiment_run id v st :
  update_client_sentiment id v st =
  (Ok tt,
   match dict_get (calls (crm st)) id with
   | Some r => with_calls st (dict_set (calls (crm st)) id
        (mk_call (call_client r) (start_time r) (status r) (notes r)
                 (outcome r) (Some v) (end_time r) (duration r)))
   | None => st
   end).
Proof.
  unfold update_client_sentiment. unfold bind at 1. rewrite has_call_run. unfold dict_mem.
  destruct (dict_get (calls (crm st)) id) as [r|] eqn:E; [|reflexivity].
  rewrite (modify_call_present _ _ _ _ E). reflexivity.
Qed.

Lemma update_call_notes_run rt id text st :
  update_call_notes rt id text st =
  (Ok tt,
   match dict_get (calls (crm st)) id with
   | Some r => with_calls (tick st) (dict_set (calls (crm st)) id
        (mk_call (call_client r) (start_time r) (status r)
                 (notes r ++ [mk_note (strftime_stamp (now_at rt (clock_reads st))) text])
                 (outcome r) (sentiment r) (end_time r) (duration r)))
   | None => st
   end).
Proof.
  unfold update_call_notes. unfold bind at 1. rewrite has_call_run. unfold dict_mem.
  destruct (dict_get (calls (crm st)) id) as [r|] eqn:E; [|reflexivity].
  unfold bind, datetime_now.
  rewrite (modify_call_present _ _ (tick st) r E). reflexivity.
Qed.

Lemma log_call_end_unknown rt id st :
  dict_get (calls (crm st)) id = None -> log_call_end rt id st = (Ok tt, st).
Proof.
  intros E. unfold log_call_end. unfold bind at 1. rewrite has_call_run. unfold dict_mem.
  rewrite E. reflexivity.
Qed.

Lemma log_call_end_known rt id st r d0 :
  dict_get (calls (crm st)) id = Some r ->
  start_time r = strftime_stamp d0 -> readable d0 = true ->
  readable (now_at rt (clock_reads st)) = true ->
  log_call_end rt id st =
  (Ok tt, with_calls (tick st) (dict_set (calls (crm st)) id
     (closed_record r (now_at rt (clock_reads st))
        (total_seconds (now_at rt (clock_reads st)) d0)))).
Proof.
  intros E Hs Hd0 Hnow. unfold log_call_end. unfold bind at 1. rewrite has_call_run.
  unfold dict_mem. rewrite E.
  unfold bind at 1. unfold datetime_now at 1. fold (tick st).
  unfold bind at 1. rewrite (modify_call_present _ _ (tick st) r E).
  unfold bind at 1.
  erewrite modify_call_present by (cbn; apply dict_get_set_same).
  unfold bind at 1. unfold read_call at 1. unfold bind at 1, get_crm at 1.
  cbn [crm with_calls calls]. rewrite dict_set_set, dict_get_set_same. unfold ret at 1.
  cbn [start_time end_time].
  assert (Hp : strptime_stamp (start_time r) = Ok d0)
    by (rewrite Hs; apply strptime_strftime; exact Hd0).
  unfold bind at 1, lift at 1. rewrite Hp.
  unfold bind at 1, lift at 1. rewrite (strptime_strftime _ Hnow).
  erewrite modify_call_present by (cbn; apply dict_get_set_same).
  cbn. rewrite !dict_set_set. reflexivity.
Qed.

Lemma log_call_start_run rt c st :
  log_call_start rt c st =
  (Ok (fresh_call_id rt st),
   mk_state (mk_crm (dict_set (calls (crm st)) (fresh_call_id rt st) (fresh_record rt st c))
                    (appointments (crm st)))
            (S (S (clock_reads st))) (S (rand_draws st)) (chat_calls st)).
Proof. reflexivity. Qed.

Lemma schedule_appointment_raises rt c date time pid st :
  schedule_appointment rt c date time pid st
  = (Raise (AttributeError "'str' object has no attribute 'time'"), st).
Proof. reflexivity. Qed.

(** Every operation of the ledger keeps the closing fields in step
    with the status. *)
Lemma run_op_ledger_ok rt op st :
  clock_readable rt -> ledger_ok false (crm st) -> ledger_ok false (crm (snd (run_op rt op st))).
Proof.
  intros Hclock Hok. unfold ledger_ok in *.
  assert (Hsame : forall id r r',
             dict_get (calls (crm st)) id = Some r ->
             start_time r' = start_time r -> closing_fields_ok r' = closing_fields_ok r ->
             Forall (fun kv => record_ok false (snd kv)) (dict_set (calls (crm st)) id r')).
  { intros id r r' E Hs Hc. apply dict_set_Forall; [exact Hok|].
    destruct (dict_get_Forall (record_ok false) _ _ _ Hok E) as (Hstamp & Hfields & _).
    split; [rewrite Hs; exact Hstamp|]. split; [rewrite Hc; exact Hfields | discriminate]. }
  destruct op as [c | id text | id v | id o | id | c d t p]; unfold run_op.
  - unfold bind. rewrite log_call_start_run. cbn [snd crm calls ret].
    apply dict_set_Forall; [exact Hok|]. split; [|split; [reflexivity | discriminate]].
    exists (now_at rt (S (clock_reads st))). split; [apply Hclock | reflexivity].
  - rewrite update_call_notes_run. cbn [snd].
    destruct (dict_get (calls (crm st)) id) as [r|] eqn:E; [|exact Hok].
    cbn [crm with_calls calls]. apply (Hsame id r _ E); reflexivity.
  - rewrite update_client_sentiment_run. cbn [snd].
    destruct (dict_get (calls (crm st)) id) as [r|] eqn:E; [|exact Hok].
    cbn [crm with_calls calls]. apply (Hsame id r _ E); reflexivity.
  - rewrite update_call_outcome_run. cbn [snd].
    destruct (dict_get (calls (crm st)) id) as [r|] eqn:E; [|exact Hok].
    cbn [crm with_calls calls]. apply (Hsame id r _ E); reflexivity.
  - destruct (dict_get (calls (crm st)) id) as [r|] eqn:E.
    + destruct (dict_get_Forall (record_ok false) _ _ _ Hok E) as ((d0 & Hd0 & Hs) & _).
      rewrite (log_call_end_known rt id st r d0 E Hs Hd0 (Hclock _)).
      cbn [snd crm with_calls calls]. apply dict_set_Forall; [exact Hok|].
      split; [exists d0; split; [exact Hd0 | exact Hs] |].
      split; [reflexivity | discriminate].
    + rewrite (log_call_end_unknown rt id st E). exact Hok.
  - unfold bind. rewrite schedule_appointment_raises. exact Hok.
Qed.

Lemma ledger_ok_every_call strict c :
  ledger_ok strict c -> every_call closing_fields_ok c = true.
Proof.
  unfold ledger_ok, every_call. intros H. apply forallb_forall. intros kv Hin.
  rewrite Forall_forall in H. exact (proj1 (proj2 (H kv Hin))).
Qed.

Lemma ledger_ok_strict_every_call c :
  ledger_ok true c -> every_call claimed_call_invariant c = true.
Proof.
  unfold ledger_ok, every_call. intros H. apply forallb_forall. intros kv Hin.
  rewrite Forall_forall in H. destruct (H kv Hin) as (_ & Hc & Ho).
  unfold claimed_call_invariant. rewrite Hc, (Ho eq_refl). reflexivity.
Qed.

(** ** Computations that leave the CRM alone *)

Lemma keeps_ret {A} (a : A) : keeps_crm (ret a).
Proof. intros st. reflexivity. Qed.

Lemma keeps_raise {A} e : keeps_crm (@raise A e).
Proof. intros st. reflexivity. Qed.

Lemma keeps_lift {A} (r : result A) : keeps_crm (lift r).
Proof. intros st. reflexivity. Qed.

Lemma keeps_bind {A B} (m : M A) (k : A -> M B) :
  keeps_crm m -> (forall a, keeps_crm (k a)) -> keeps_crm (bind m k).
Proof.
  intros Hm Hk st. unfold bind. specialize (Hm st).
  destruct (m st) as [[a|e] st1]; cbn [snd] in *.
  - rewrite Hk. exact Hm.
  - exact Hm.
Qed.

Lemma keeps_try_except {A} (m : M A) h :
  keeps_crm m -> (forall e, keeps_crm (h e)) -> keeps_crm (try_except m h).
Proof.
  intros Hm Hh st. unfold try_except. specialize (Hm st).
  destruct (m st) as [[a|e] st1]; cbn [snd] in *.
  - exact Hm.
  - rewrite Hh. exact Hm.
Qed.

Lemma keeps_if {A} (b : bool) (m1 m2 : M A) :
  keeps_crm m1 -> keeps_crm m2 -> keeps_crm (if b then m1 else m2).
Proof. destruct b; auto. Qed.

Lemma keeps_datetime_now rt : keeps_crm (datetime_now rt).
Proof. intros st. reflexivity. Qed.

Lemma keeps_draw rt : keeps_crm (draw rt).
Proof. intros st. reflexivity. Qed.

Lemma keeps_random_choice {A} rt (l : list A) : keeps_crm (random_choice rt l).
Proof.
  destruct l; [apply keeps_raise|].
  apply keeps_bind; [apply keeps_draw | intros; apply keeps_lift].
Qed.

Lemma keeps_random_choices {A} rt (l : list A) w : keeps_crm (random_choices rt l w).
Proof.
  apply keeps_bind; [apply keeps_draw|]. intros r.
  destruct (pick_weighted l w _); [apply keeps_ret | apply keeps_raise].
Qed.

Lemma keeps_chat rt req : keeps_crm (chat_completion_create rt req).
Proof. intros st. reflexivity. Qed.

Lemma keeps_generate_response rt msg hist p name ctx :
  keeps_crm (OpenAIIntegration.generate_response rt msg hist p name ctx).
Proof.
  apply keeps_try_except; [|intros; apply keeps_ret].
  apply keeps_bind; [apply keeps_chat | intros; apply keeps_lift].
Qed.

Lemma keeps_analyze rt msg : keeps_crm (OpenAIIntegration.analyze_client_sentiment rt msg).
Proof.
  apply keeps_try_except; [|intros; apply keeps_ret].
  apply keeps_bind; [apply keeps_chat | intros].
  apply keeps_bind; [apply keeps_lift | intros].
  apply keeps_bind; [apply keeps_lift | intros; apply keeps_ret].
Qed.

Lemma keeps_general_available_dates rt : keeps_crm (general_available_dates rt).
Proof.
  unfold general_available_dates.
  repeat (apply keeps_bind;
          [first [apply keeps_datetime_now | apply keeps_lift] | intros]).
  apply keeps_ret.
Qed.

Lemma keeps_read_use_openai self : keeps_crm (VoiceAgentOpenAI.read_use_openai self).
Proof.
  unfold VoiceAgentOpenAI.read_use_openai.
  destruct (VoiceAgentOpenAI.use_openai self); [apply keeps_ret | apply keeps_raise].
Qed.

Create HintDb keeps.
#[local] Hint Resolve keeps_ret keeps_raise keeps_lift keeps_bind keeps_try_except keeps_if
  keeps_datetime_now keeps_draw keeps_random_choice keeps_random_choices keeps_chat
  keeps_generate_response keeps_analyze keeps_general_available_dates
  keeps_read_use_openai : keeps.

(** ** Triples *)

Lemma triple_keeps {A} P (m : M A) : keeps_crm m -> triple P m (fun _ => P) P.
Proof.
  intros H st HP. specialize (H st). destruct (m st) as [[a|e] st1]; cbn [snd] in H;
    rewrite H; exact HP.
Qed.

Lemma triple_bind {A B} P (m : M A) (k : A -> M B) Q R E :
  triple P m Q E -> (forall a, triple (Q a) (k a) R E) -> triple P (bind m k) R E.
Proof.
  intros Hm Hk st HP. unfold bind. specialize (Hm st HP).
  destruct (m st) as [[a|e] st1]; [exact (Hk a st1 Hm) | exact Hm].
Qed.

Lemma triple_try_except {A} P (m : M A) h Q E' E :
  triple P m Q E' -> (forall e, triple E' (h e) Q E) -> triple P (try_except m h) Q E.
Proof.
  intros Hm Hh st HP. unfold try_except. specialize (Hm st HP).
  destruct (m st) as [[a|e] st1]; [exact Hm | exact (Hh e st1 Hm)].
Qed.

Lemma triple_false {A} (m : M A) Q E : triple (fun _ => False) m Q E.
Proof. intros st []. Qed.

Lemma triple_weaken {A} P (m : M A) Q (E E' : crm_store -> Prop) :
  (forall c, E c -> E' c) -> triple P m Q E -> triple P m Q E'.
Proof.
  intros HE Hm st HP. specialize (Hm st HP).
  destruct (m st) as [[a|e] st1]; [exact Hm | exact (HE _ Hm)].
Qed.

Lemma triple_schedule_appointment rt c date time pid P :
  triple P (schedule_appointment rt c date time pid) (fun _ _ => False) P.
Proof. intros st HP. rewrite schedule_appointment_raises. exact HP. Qed.

Section Calls.

Variable rt : runtime.
Hypothesis Hclock : clock_readable rt.
Variable strict : bool.

(** Rewriting fields of an open call other than its start time, status,
    end time and duration keeps the ledger well formed. *)
Lemma call_open_modified id c r (f : call_record -> call_record) :
  ledger_ok strict c ->
  dict_get (calls c) id = Some r -> status r = in_progress ->
  start_time (f r) = start_time r -> status (f r) = status r ->
  end_time (f r) = end_time r -> duration (f r) = duration r ->
  ledger_ok strict (mk_crm (dict_set (calls c) id (f r)) (appointments c)).
Proof.
  intros Hok E Hopen Hs Hst He Hd. unfold ledger_ok in *. cbn [calls].
  apply dict_set_Forall; [exact Hok|].
  destruct (dict_get_Forall (record_ok strict) _ _ _ Hok E) as (Hstamp & Hfields & _).
  split; [rewrite Hs; exact Hstamp|]. split.
  - unfold closing_fields_ok, is_completed in *. rewrite Hst, He, Hd. exact Hfields.
  - intros _. unfold outcome_before_completion, is_completed. rewrite Hst, Hopen. reflexivity.
Qed.

Lemma triple_update_call_notes id apts text :
  triple (call_open strict id apts) (update_call_notes rt id text)
         (fun _ => call_open strict id apts) (call_open strict id apts).
Proof.
  intros st (Hok & Ha & r & E & Hst & Ho). rewrite update_call_notes_run, E.
  cbn [crm with_calls tick]. split; [|split; [exact Ha|]].
  - apply (call_open_modified id (crm st) r
             (fun r => mk_call (call_client r) (start_time r) (status r) _ (outcome r)
                               (sentiment r) (end_time r) (duration r))); auto.
  - eexists. cbn [calls]. rewrite dict_get_set_same. repeat split; assumption.
Qed.

Lemma triple_update_client_sentiment id apts v :
  triple (call_open strict id apts) (update_client_sentiment id v)
         (fun _ => call_open strict id apts) (call_open strict id apts).
Proof.
  intros st (Hok & Ha & r & E & Hst & Ho). rewrite update_client_sentiment_run, E.
  cbn [crm with_calls]. split; [|split; [exact Ha|]].
  - apply (call_open_modified id (crm st) r
             (fun r => mk_call (call_client r) (start_time r) (status r) (notes r) (outcome r)
                               (Some v) (end_time r) (duration r))); auto.
  - eexists. cbn [calls]. rewrite dict_get_set_same. repeat split; assumption.
Qed.

Lemma triple_update_call_outcome id apts o :
  triple (call_open strict id apts) (update_call_outcome id o)
         (fun _ => call_decided strict id apts) (call_open strict id apts).
Proof.
  intros st (Hok & Ha & r & E & Hst & Ho). rewrite update_call_outcome_run, E.
  cbn [crm with_calls]. split; [|split; [exact Ha|]].
  - apply (call_open_modified id (crm st) r
             (fun r => mk_call (call_client r) (start_time r) (status r) (notes r) (Some o)
                               (sentiment r) (end_time r) (duration r))); auto.
  - eexists _, o. cbn [calls]. rewrite dict_get_set_same. repeat split; assumption.
Qed.

Lemma triple_log_call_end id apts :
  triple (call_decided strict id apts) (log_call_end rt id)
         (fun _ => call_closed strict id apts) (fun _ => False).
Proof.
  intros st (Hok & Ha & r & o & E & Hst & Ho).
  destruct (dict_get_Forall (record_ok strict) _ _ _ Hok E) as ((d0 & Hd0 & Hs) & _).
  rewrite (log_call_end_known rt id st r d0 E Hs Hd0 (Hclock _)).
  cbn [crm with_calls tick]. split; [|split; [exact Ha|]].
  - unfold ledger_ok in *. cbn [calls]. apply dict_set_Forall; [exact Hok|].
    split; [exists d0; split; [exact Hd0 | exact Hs] |].
    split; [reflexivity|]. intros _.
    unfold outcome_before_completion, closed_record. cbn. rewrite Ho. reflexivity.
  - eexists _, o, _, _. cbn [calls]. rewrite dict_get_set_same.
    split; [reflexivity|]. cbn. repeat split. exact Ho.
Qed.

(** One step of a handler that leaves the CRM alone. *)
Ltac keep_step :=
  eapply triple_bind; [ apply triple_keeps; auto 6 with keeps | intros ? ].

(** The tail of a handler from the call to [schedule_appointment]: it
    raises there, so what follows never runs. *)
Ltac appointment_tail :=
  eapply triple_bind; [apply triple_schedule_appointment | intros ?; apply triple_false].

(** ** A call either closes with an outcome or stays open *)

Lemma VoiceAgent_general_inquiry self c id apts :
  triple (call_open strict id apts) (VoiceAgent._handle_general_inquiry rt self c id)
         (fun _ => call_decided strict id apts) (call_open strict id apts).
Proof.
  unfold VoiceAgent._handle_general_inquiry. cbv zeta.
  keep_step.
  eapply triple_bind; [apply triple_update_call_notes | intros ?].
  keep_step.
  match goal with |- context [if ?b then _ else _] => destruct b end.
  - do 5 keep_step. appointment_tail.
  - apply triple_update_call_outcome.
Qed.

Lemma VoiceAgent_property_inquiry self c p id apts :
  triple (call_open strict id apts) (VoiceAgent._handle_property_inquiry rt self c p id)
         (fun _ => call_decided strict id apts) (call_open strict id apts).
Proof.
  unfold VoiceAgent._handle_property_inquiry. cbv zeta.
  keep_step.
  eapply triple_bind; [apply triple_update_call_notes | intros ?].
  match goal with |- context [if ?b then _ else _] => destruct b end.
  - do 6 keep_step. appointment_tail.
  - apply triple_update_call_outcome.
Qed.

Lemma triple_decide_outcome self id msg apts :
  triple (call_open strict id apts) (VoiceAgentOpenAI.decide_outcome rt self id msg)
         (fun _ => call_open strict id apts) (call_open strict id apts).
Proof.
  unfold VoiceAgentOpenAI.decide_outcome.
  keep_step.
  match goal with |- context [if ?b then _ else _] => destruct b end.
  - eapply triple_try_except with (E' := call_open strict id apts).
    + keep_step.
      eapply triple_bind; [apply triple_update_client_sentiment | intros ?].
      apply triple_keeps. auto with keeps.
    + intros e. apply triple_keeps. auto with keeps.
  - apply triple_keeps. auto with keeps.
Qed.

Lemma VoiceAgentOpenAI_general_inquiry self c id history apts :
  triple (call_open strict id apts)
         (VoiceAgentOpenAI._handle_general_inquiry rt self c id history)
         (fun _ => call_decided strict id apts) (call_open strict id apts).
Proof.
  unfold VoiceAgentOpenAI._handle_general_inquiry. cbv zeta.
  do 5 keep_step.
  eapply triple_bind; [apply triple_update_call_notes | intros ?].
  eapply triple_bind; [apply triple_decide_outcome | intros outcome].
  destruct (String.eqb outcome "appointment_scheduled").
  - do 7 keep_step. appointment_tail.
  - apply triple_update_call_outcome.
Qed.

Lemma VoiceAgentOpenAI_property_inquiry self c p id history apts :
  triple (call_open strict id apts)
         (VoiceAgentOpenAI._handle_property_inquiry rt self c p id history)
         (fun _ => call_decided strict id apts) (call_open strict id apts).
Proof.
  unfold VoiceAgentOpenAI._handle_property_inquiry. cbv zeta.
  do 5 keep_step.
  eapply triple_bind; [apply triple_update_call_notes | intros ?].
  match goal with |- context [if String.eqb ?x schedule_viewing then _ else _] =>
    destruct (String.eqb x schedule_viewing) end.
  - do 7 keep_step. appointment_tail.
  - apply triple_update_call_outcome.
Qed.

Lemma call_open_after_start c st :
  ledger_ok strict (crm st) ->
  call_open strict (fresh_call_id rt st) (appointments (crm st))
    (mk_crm (dict_set (calls (crm st)) (fresh_call_id rt st) (fresh_record rt st c))
            (appointments (crm st))).
Proof.
  intros Hok. split; [|split; [reflexivity|]].
  - unfold ledger_ok in *. cbn [calls]. apply dict_set_Forall; [exact Hok|].
    split; [|split; reflexivity]. eexists. split; [apply Hclock | reflexivity].
  - eexists. cbn [calls]. rewrite dict_get_set_same. repeat split.
Qed.

(** The part of [make_call] after [log_call_start]. *)
Lemma triple_call_body id apts (handler : M unit) :
  triple (call_open strict id apts) handler
         (fun _ => call_decided strict id apts) (call_open strict id apts) ->
  triple (call_open strict id apts)
         (handler ;;; log_call_end rt id ;;; ret id)
         (fun id' c => id' = id /\ call_closed strict id apts c) (call_open strict id apts).
Proof.
  intros Hh.
  eapply triple_bind; [exact Hh | intros ?].
  eapply triple_bind.
  - eapply triple_weaken; [|apply triple_log_call_end]. intros ? [].
  - intros ? st H. cbn. split; [reflexivity | exact H].
Qed.

(** [make_call] of the template agent, from any well-formed ledger:
    when it returns, the call it opened is completed, with outcome, end
    time and duration; when it raises, that call is left in progress
    with no outcome.  Either way the appointments are what they were. *)
Lemma VoiceAgent_make_call_closes_or_stays_open
    (self : VoiceAgent.agent) (c : client) (property_id : option string) (st : state) :
  ledger_ok strict (crm st) ->
  match VoiceAgent.make_call rt self c property_id st with
  | (Ok id, st') =>
      id = fresh_call_id rt st
      /\ call_closed strict (fresh_call_id rt st) (appointments (crm st)) (crm st')
  | (Raise _, st') =>
      call_open strict (fresh_call_id rt st) (appointments (crm st)) (crm st')
  end.
Proof.
  intros Hok. unfold VoiceAgent.make_call. unfold bind at 1.
  rewrite log_call_start_run.
  match goal with |- context [bind ?h ?k ?s] =>
    refine (triple_call_body (fresh_call_id rt st) (appointments (crm st)) h _ s _)
  end.
  - destruct (truthy property_id); [|apply VoiceAgent_general_inquiry].
    destruct (find_property _ _);
      [apply VoiceAgent_property_inquiry | apply VoiceAgent_general_inquiry].
  - cbn [crm]. apply call_open_after_start; assumption.
Qed.

(** The same for the agent with the chat backend, whatever the backend
    and the decoder answer. *)
Lemma VoiceAgentOpenAI_make_call_closes_or_stays_open
    (self : VoiceAgentOpenAI.agent) (c : client) (property_id : option string)
    (st : state) :
  ledger_ok strict (crm st) ->
  match VoiceAgentOpenAI.make_call rt self c property_id st with
  | (Ok id, st') =>
      id = fresh_call_id rt st
      /\ call_closed strict (fresh_call_id rt st) (appointments (crm st)) (crm st')
  | (Raise _, st') =>
      call_open strict (fresh_call_id rt st) (appointments (crm st)) (crm st')
  end.
Proof.
  intros Hok. unfold VoiceAgentOpenAI.make_call. unfold bind at 1.
  rewrite log_call_start_run. cbv zeta.
  match goal with |- context [bind ?h ?k ?s] =>
    refine (triple_call_body (fresh_call_id rt st) (appointments (crm st)) h _ s _)
  end.
  - destruct (truthy property_id); [|apply VoiceAgentOpenAI_general_inquiry].
    destruct (find_property _ _);
      [apply VoiceAgentOpenAI_property_inquiry | apply VoiceAgentOpenAI_general_inquiry].
  - cbn [crm]. apply call_open_after_start; assumption.
Qed.

(** An agent call keeps the ledger well formed, in the strict sense too. *)
Lemma run_step_agent_call s st :
  is_agent_call s = true ->
  ledger_ok strict (crm st) -> ledger_ok strict (crm (run_step rt s st)).
Proof.
  intros Hs Hok. destruct s as [op | self c p | self c p]; [discriminate| |]; cbn [run_step].
  - pose proof (VoiceAgent_make_call_closes_or_stays_open self c p st Hok) as H.
    destruct (VoiceAgent.make_call rt self c p st) as [[id|e] st']; cbn [snd].
    + exact (proj1 (proj2 H)).
    + exact (proj1 H).
  - pose proof (VoiceAgentOpenAI_make_call_closes_or_stays_open self c p st Hok) as H.
    destruct (VoiceAgentOpenAI.make_call rt self c p st) as [[id|e] st']; cbn [snd].
    + exact (proj1 (proj2 H)).
    + exact (proj1 H).
Qed.

Lemma run_steps_agent_calls steps st :
  only_agent_calls steps = true ->
  ledger_ok strict (crm st) -> ledger_ok strict (crm (run_steps rt steps st)).
Proof.
  revert st. induction steps as [|s steps IH]; intros st Hs Hok; cbn [run_steps].
  - exact Hok.
  - cbn in Hs. apply andb_prop in Hs. destruct Hs as [Hs Hrest].
    apply IH; [exact Hrest|]. apply run_step_agent_call; assumption.
Qed.

End Calls.

Lemma run_step_ledger_ok rt s st :
  clock_readable rt -> ledger_ok false (crm st) -> ledger_ok false (crm (run_step rt s st)).
Proof.
  intros Hclock Hok. destruct s as [op | self c p | self c p] eqn:Es.
  - apply run_op_ledger_ok; assumption.
  - apply (run_step_agent_call rt Hclock false); [reflexivity | exact Hok].
  - apply (run_step_agent_call rt Hclock false); [reflexivity | exact Hok].
Qed.

Lemma run_steps_ledger_ok rt steps st :
  clock_readable rt -> ledger_ok false (crm st) -> ledger_ok false (crm (run_steps rt steps st)).
Proof.
  intros Hclock. revert st.
  induction steps as [|s steps IH]; intros st Hok; cbn [run_steps].
  - exact Hok.
  - apply IH. apply run_step_ledger_ok; assumption.
Qed.

(** ** The record invariant over every history *)

(** C8 (amended).  While the clock shows years of four digits, from
    1000 on, so that [log_call_end] can read the stamps back: over every
    history of ledger operations and agent calls, in any order, each
    call record has its end timestamp and its duration set exactly when
    its status is completed.  The ledger asks for no outcome before
    completion: [log_call_end] completes any known record and keeps the
    outcome it had, set or not.  It is [make_call] that sets the outcome
    first: in a history made of agent calls alone, every completed
    record has an outcome. *)
Theorem closing_fields_follow_status (rt : runtime) (steps : list session_step) :
  clock_readable rt ->
  let st := run_steps rt steps state_init in
  every_call closing_fields_ok (crm st) = true
  /\ (forall id r, dict_get (calls (crm st)) id = Some r ->
        exists r',
          dict_get (calls (crm (snd (log_call_end rt id st)))) id = Some r'
          /\ status r' = completed /\ outcome r' = outcome r)
  /\ (only_agent_calls steps = true ->
        every_call claimed_call_invariant (crm st) = true).
Proof.
  intros Hclock st.
  assert (Hok : ledger_ok false (crm st)).
  { apply run_steps_ledger_ok; [exact Hclock | constructor]. }
  split; [apply (ledger_ok_every_call false); exact Hok|].
  split.
  - intros id r E.
    destruct (dict_get_Forall (record_ok false) _ _ _ Hok E) as ((d0 & Hd0 & Hs) & _).
    rewrite (log_call_end_known rt id st r d0 E Hs Hd0 (Hclock _)).
    cbn [snd crm with_calls calls]. rewrite dict_get_set_same.
    eexists. split; [reflexivity|]. split; reflexivity.
  - intros Hcalls. apply ledger_ok_strict_every_call.
    apply (run_steps_agent_calls rt Hclock true); [exact Hcalls | constructor].
Qed.

(** C8 at a sample history: one property call by the template agent,
    which closes with the outcome ["Information provided"]. *)
Lemma closing_fields_follow_status_witness :
  let steps := [TemplateCall Samples.template_agent Samples.john (Some "prop002")] in
  let st := run_steps Samples.stopped steps state_init in
  every_call closing_fields_ok (crm st) = true
  /\ (forall id r, dict_get (calls (crm st)) id = Some r ->
        exists r',
          dict_get (calls (crm (snd (log_call_end Samples.stopped id st)))) id = Some r'
          /\ status r' = completed /\ outcome r' = outcome r)
  /\ (only_agent_calls steps = true ->
        every_call claimed_call_invariant (crm st) = true).
Proof.
  apply (closing_fields_follow_status Samples.stopped
           [TemplateCall Samples.template_agent Samples.john (Some "prop002")]).
  intros n. reflexivity.
Defined.

(** The sample property call does close. *)
Example sample_call_closes :
  call_summary
    (run_steps Samples.stopped
       [TemplateCall Samples.template_agent Samples.john (Some "prop002")] state_init)
  = [(completed, Some "Information provided", Some "2024-01-15 10:00:00", Some "0:00")].
Proof. vm_compute. reflexivity. Qed.

(** C8, as claimed, fails: a call that is started and ended with nothing
    in between is completed and has no outcome. *)
Lemma completed_without_outcome :
  every_call claimed_call_invariant
    (crm (run_steps Samples.stopped
            [Ledger (OpLogCallStart Samples.john);
             Ledger (OpLogCallEnd "call_1705312800_1000")] state_init)) = false.
Proof. vm_compute. reflexivity. Qed.

(** Before the year 1000 the first half fails too: the stamp of the
    start time has three digits for the year, [strptime] rejects it, and
    [log_call_end] raises after it has written the status and the end
    time.  The record is left completed with no duration. *)
Lemma completed_without_duration :
  let early := Samples.world (mk_datetime 999 1 15 10 0 0) Samples.zeros_draws
                 Samples.backend_down in
  valid_datetime (mk_datetime 999 1 15 10 0 0) = true
  /\ strftime_stamp (mk_datetime 999 1 15 10 0 0) = "999-01-15 10:00:00"
  /\ fst (run_op early (OpLogCallEnd "call_1705312800_1000")
            (run_steps early [Ledger (OpLogCallStart Samples.john)] state_init))
     = Raise (ValueError "time data does not match format")
  /\ call_summary
       (run_steps early
          [Ledger (OpLogCallStart Samples.john);
           Ledger (OpLogCallEnd "call_1705312800_1000")] state_init)
     = [(completed, None, Some "999-01-15 10:00:00", None)].
Proof. vm_compute. repeat split; reflexivity. Qed.

(** ** The sentiment-based outcome decision *)

Lemma analyze_client_sentiment_state rt msg st :
  exists v, OpenAIIntegration.analyze_client_sentiment rt msg st = (Ok v, after_chat st).
Proof.
  unfold OpenAIIntegration.analyze_client_sentiment, try_except, bind,
    chat_completion_create, lift, ret.
  destruct (chat_at rt (chat_calls st) _) as [choices|e]; [|eexists; reflexivity].
  destruct (list_index choices 0) as [text|e]; [|eexists; reflexivity].
  destruct (json_loads rt text) as [v|e]; eexists; reflexivity.
Qed.

Lemma outcome_of_sentiment_level sentiment level :
  json_getitem sentiment "interest_level" = Ok level ->
  VoiceAgentOpenAI.outcome_of_sentiment sentiment =
    Ok (if json_eq_str level "high" then "appointment_scheduled"
        else if json_eq_str level "medium" then "information_provided"
        else "follow_up_required").
Proof.
  intros H. unfold VoiceAgentOpenAI.outcome_of_sentiment. rewrite H.
  destruct (json_eq_str level "high"); [reflexivity|].
  destruct (json_eq_str level "medium"); reflexivity.
Qed.

(** C1.  When the general flow decides the outcome from the sentiment
    assessment that [analyze_client_sentiment] returned, the outcome is
    fixed by its [interest_level] alone: ["high"] gives
    [appointment_scheduled], ["medium"] gives [information_provided],
    ["low"] gives [follow_up_required]; no random draw is consumed and
    [not_interested] never comes out of this path. *)
Theorem sentiment_decides_outcome
    (rt : runtime) (self : VoiceAgentOpenAI.agent) (call_id msg : string)
    (st st1 : state) (sentiment : json) (level : string) :
  VoiceAgentOpenAI.use_openai self = Some true ->
  OpenAIIntegration.analyze_client_sentiment rt msg st = (Ok sentiment, st1) ->
  json_getitem sentiment "interest_level" = Ok (JStr level) ->
  exists o st2,
    VoiceAgentOpenAI.decide_outcome rt self call_id msg st = (Ok o, st2)
    /\ rand_draws st2 = rand_draws st
    /\ (level = "high" -> o = "appointment_scheduled")
    /\ (level = "medium" -> o = "information_provided")
    /\ (level = "low" -> o = "follow_up_required")
    /\ o <> "not_interested".
Proof.
  intros Huse Han Hlevel.
  destruct (analyze_client_sentiment_state rt msg st) as [v Hv].
  rewrite Hv in Han. injection Han as -> <-.
  pose proof (outcome_of_sentiment_level sentiment (JStr level) Hlevel) as Hout.
  eexists _, _. split; [|split].
  - unfold VoiceAgentOpenAI.decide_outcome, VoiceAgentOpenAI.read_use_openai.
    rewrite Huse. unfold bind at 1, ret at 1.
    apply try_except_ok.
    rewrite (bind_ok _ _ _ _ _ Hv).
    rewrite (bind_ok _ _ _ _ _ (update_client_sentiment_run call_id sentiment (after_chat st))).
    unfold lift. rewrite Hout. reflexivity.
  - destruct (dict_get (calls (crm (after_chat st))) call_id); reflexivity.
  - cbn [json_eq_str].
    repeat split.
    + intros ->. reflexivity.
    + intros ->. reflexivity.
    + intros ->. reflexivity.
    + destruct (String.eqb level "high"); [discriminate|].
      destruct (String.eqb level "medium"); discriminate.
Qed.

(** C1 at a sample call: the backend answers with a high interest level. *)
Lemma sentiment_decides_outcome_witness :
  exists o st2,
    VoiceAgentOpenAI.decide_outcome
      (Samples.world Samples.mid_january Samples.zeros_draws (Samples.backend_says Samples.keen_text))
      Samples.openai_agent "call_1" "Yes, I'd like to hear more about the properties you have."
      state_init = (Ok o, st2)
    /\ rand_draws st2 = rand_draws state_init
    /\ ("high" = "high" -> o = "appointment_scheduled")
    /\ ("high" = "medium" -> o = "information_provided")
    /\ ("high" = "low" -> o = "follow_up_required")
    /\ o <> "not_interested".
Proof.
  apply (sentiment_decides_outcome
           (Samples.world Samples.mid_january Samples.zeros_draws
              (Samples.backend_says Samples.keen_text))
           Samples.openai_agent "call_1" _ state_init (after_chat state_init)
           Samples.keen "high").
  - reflexivity.
  - vm_compute. reflexivity.
  - reflexivity.
Defined.

(** C9.  In the sentiment-based decision the last branch is a plain
    [else]: whatever value [interest_level] holds, a string or not, as
    long as it is neither ["high"] nor ["medium"] the outcome is
    [follow_up_required]; and the decision returns for every value. *)
Theorem other_interest_levels_follow_up (sentiment level : json) :
  json_getitem sentiment "interest_level" = Ok level ->
  (level <> JStr "high" -> level <> JStr "medium" ->
     VoiceAgentOpenAI.outcome_of_sentiment sentiment = Ok "follow_up_required")
  /\ exists o, VoiceAgentOpenAI.outcome_of_sentiment sentiment = Ok o.
Proof.
  intros H. rewrite (outcome_of_sentiment_level _ _ H). split; [|eexists; reflexivity].
  intros Hh Hm.
  assert (E : forall s, level <> JStr s -> json_eq_str level s = false).
  { intros s Hs. destruct level; cbn; try reflexivity.
    destruct (String.eqb s0 s) eqn:E; [|reflexivity].
    apply String.eqb_eq in E. subst. contradiction. }
  rewrite (E _ Hh), (E _ Hm). reflexivity.
Qed.

(** C9 at a sample value: the interest level ["maybe"]. *)
Lemma other_interest_levels_follow_up_witness :
  (JStr "maybe" <> JStr "high" -> JStr "maybe" <> JStr "medium" ->
     VoiceAgentOpenAI.outcome_of_sentiment Samples.vague = Ok "follow_up_required")
  /\ exists o, VoiceAgentOpenAI.outcome_of_sentiment Samples.vague = Ok o.
Proof.
  apply (other_interest_levels_follow_up Samples.vague (JStr "maybe")).
  reflexivity.
Defined.

(** ** Fallbacks of the OpenAI integration *)

(** Whatever the backend does, [generate_response] returns a text. *)
Lemma generate_response_returns rt msg hist p name ctx st :
  exists text,
    OpenAIIntegration.generate_response rt msg hist p name ctx st = (Ok text, after_chat st).
Proof.
  unfold OpenAIIntegration.generate_response, try_except, bind, chat_completion_create, lift.
  destruct (chat_at rt (chat_calls st) _) as [choices|e]; [|eexists; reflexivity].
  destruct (list_index choices 0) as [text|e]; eexists; reflexivity.
Qed.

(** C4.  When the chat backend raises on the request that
    [generate_response] sends, the function returns the fixed apology
    text and raises nothing, whatever its arguments. *)
Theorem generate_response_backend_failure
    (rt : runtime) (client_message : string)
    (conversation_history : option (list chat_message))
    (property_info : option property) (agent_name : string)
    (agent_context : option string) (st : state) (e : exn) :
  chat_at rt (chat_calls st)
    (mk_request "gpt-4o"
       (OpenAIIntegration.build_messages client_message conversation_history
          property_info agent_name agent_context) 300 false) = Raise e ->
  OpenAIIntegration.generate_response rt client_message conversation_history
    property_info agent_name agent_context st
  = (Ok "I apologize, but I'm having trouble generating a response right now. Let me connect you with a human agent who can assist you further.",
     after_chat st).
Proof.
  intros H.
  unfold OpenAIIntegration.generate_response, try_except, bind, chat_completion_create.
  rewrite H. reflexivity.
Qed.

(** C4 at a sample request, with the backend down. *)
Lemma generate_response_backend_failure_witness :
  OpenAIIntegration.generate_response
    (Samples.world Samples.mid_january Samples.zeros_draws Samples.backend_down)
    "Tell me about properties in downtown." None None "Sarah"
    (Some "You are a real estate agent specializing in downtown properties.") state_init
  = (Ok "I apologize, but I'm having trouble generating a response right now. Let me connect you with a human agent who can assist you further.",
     after_chat state_init).
Proof.
  apply (generate_response_backend_failure
           (Samples.world Samples.mid_january Samples.zeros_draws Samples.backend_down)
           "Tell me about properties in downtown." None None "Sarah"
           (Some "You are a real estate agent specializing in downtown properties.")
           state_init (APIError "connection refused")).
  reflexivity.
Defined.

(** The request [analyze_client_sentiment] sends. *)
Lemma analyze_client_sentiment_unfold rt msg st :
  OpenAIIntegration.analyze_client_sentiment rt msg st =
  match chat_at rt (chat_calls st)
          (mk_request "gpt-4o"
             [mk_message "system" "You are an AI assistant that analyzes client messages for real estate agents.";
              mk_message "user" (OpenAIIntegration.sentiment_prompt msg)] 300 true) with
  | Ok choices =>
      match list_index choices 0 with
      | Ok text =>
          match json_loads rt text with
          | Ok v => (Ok v, after_chat st)
          | Raise _ => (Ok OpenAIIntegration.default_sentiment, after_chat st)
          end
      | Raise _ => (Ok OpenAIIntegration.default_sentiment, after_chat st)
      end
  | Raise _ => (Ok OpenAIIntegration.default_sentiment, after_chat st)
  end.
Proof.
  unfold OpenAIIntegration.analyze_client_sentiment, try_except, bind,
    chat_completion_create, lift, ret.
  destruct (chat_at rt (chat_calls st) _) as [choices|e]; [|reflexivity].
  destruct (list_index choices 0) as [text|e]; [|reflexivity].
  destruct (json_loads rt text) as [v|e]; reflexivity.
Qed.

(** C5.  When the backend raises, or answers with a text that
    [json.loads] rejects, [analyze_client_sentiment] returns the default
    assessment (neutral, medium interest, no concerns, no preferences,
    next action [ask_follow_up_questions]) and raises nothing. *)
Theorem analyze_client_sentiment_fallback
    (rt : runtime) (client_message : string) (st : state) :
  let request :=
    mk_request "gpt-4o"
      [mk_message "system" "You are an AI assistant that analyzes client messages for real estate agents.";
       mk_message "user" (OpenAIIntegration.sentiment_prompt client_message)] 300 true in
  ((exists e, chat_at rt (chat_calls st) request = Raise e)
   \/ (exists text rest e,
         chat_at rt (chat_calls st) request = Ok (text :: rest)
         /\ json_loads rt text = Raise e)) ->
  OpenAIIntegration.analyze_client_sentiment rt client_message st
  = (Ok (JObj [("sentiment", JStr "neutral");
               ("interest_level", JStr "medium");
               ("key_concerns", JArr []);
               ("preferences", JArr []);
               ("next_action", JStr "ask_follow_up_questions")]),
     after_chat st).
Proof.
  intros request H. rewrite analyze_client_sentiment_unfold. fold request.
  destruct H as [[e He] | (text & rest & e & Hc & Hj)].
  - rewrite He. reflexivity.
  - rewrite Hc. cbn. rewrite Hj. reflexivity.
Qed.

(** C5 at a sample message, with a backend that answers in prose. *)
Lemma analyze_client_sentiment_fallback_witness :
  OpenAIIntegration.analyze_client_sentiment
    (Samples.world Samples.mid_january Samples.zeros_draws (Samples.backend_says "Sure, here it is!"))
    "I'm interested in the property, but I'm concerned about the price." state_init
  = (Ok (JObj [("sentiment", JStr "neutral");
               ("interest_level", JStr "medium");
               ("key_concerns", JArr []);
               ("preferences", JArr []);
               ("next_action", JStr "ask_follow_up_questions")]),
     after_chat state_init).
Proof.
  apply (analyze_client_sentiment_fallback
           (Samples.world Samples.mid_january Samples.zeros_draws
              (Samples.backend_says "Sure, here it is!"))
           "I'm interested in the property, but I'm concerned about the price." state_init).
  right. exists "Sure, here it is!", [], (JSONDecodeError "Expecting value").
  split; reflexivity.
Defined.

(** ** Property descriptions *)

(** C6 (the code departs from it).  Construction never stores a
    generated description: [__init__] loads the properties before the
    [openai] attribute exists, so the catalog keeps its own texts and
    the backend is not called.  And where the enrichment loop does run,
    on an agent whose [openai] is set, a failing backend does not leave
    the original text: [generate_property_description] swallows the
    error and returns its placeholder, which overwrites every
    description. *)
Theorem description_enrichment_misses :
  (forall rt openai_api_key environ_key st,
      exists a st',
        VoiceAgentOpenAI.init rt openai_api_key environ_key st = (Ok a, st')
        /\ VoiceAgentOpenAI.properties a = property_catalog
        /\ chat_calls st' = chat_calls st)
  /\ fst (VoiceAgentOpenAI._load_properties Samples.stopped Samples.openai_agent state_init)
     = Ok (map (fun p => VoiceAgentOpenAI.set_description p
                           "Property description not available at this time.")
               property_catalog).
Proof.
  split.
  - intros rt k e st. unfold VoiceAgentOpenAI.init, VoiceAgentOpenAI._load_properties.
    cbn [VoiceAgentOpenAI.has_openai]. unfold bind, ret, put_crm.
    destruct (OpenAIIntegration.init k e); eexists _, _; repeat split.
  - vm_compute. reflexivity.
Qed.

(** ** Appointments *)

(** C2 (the code departs from it).  [schedule_appointment] raises on
    every input, before it touches the ledger.  So a property call in
    which the client asks for a viewing, with either agent, ends in an
    [AttributeError]: no appointment is stored, and the call record is
    left in progress with no outcome. *)
Theorem viewing_request_books_nothing :
  (forall rt c date time pid st,
      schedule_appointment rt c date time pid st
      = (Raise (AttributeError "'str' object has no attribute 'time'"), st))
  /\ (let run :=
        VoiceAgent.make_call
          (Samples.world Samples.mid_january Samples.threes_draws Samples.backend_down)
          Samples.template_agent Samples.john (Some "prop002") state_init in
      fst run = Raise (AttributeError "'str' object has no attribute 'time'")
      /\ appointments (crm (snd run)) = []
      /\ call_summary (snd run) = [(in_progress, None, None, None)])
  /\ (let run :=
        VoiceAgentOpenAI.make_call
          (Samples.world Samples.mid_january Samples.threes_draws
             (Samples.backend_says "Of course!"))
          Samples.openai_agent Samples.john (Some "prop002") state_init in
      fst run = Raise (AttributeError "'str' object has no attribute 'time'")
      /\ appointments (crm (snd run)) = []
      /\ call_summary (snd run) = [(in_progress, None, None, None)]).
Proof.
  split; [intros; reflexivity|]. split; vm_compute; repeat split.
Qed.

(** C3 (the code departs from it).  A general call whose outcome is
    decided as [appointment_scheduled], by the weighted draw or by a
    ["high"] interest level, raises out of [make_call]: the record it
    opened stays in progress, with no end time, duration or outcome. *)
Theorem appointment_outcome_leaves_call_open :
  (let run :=
     VoiceAgent.make_call Samples.stopped Samples.template_agent Samples.john None
       state_init in
   fst run = Raise (AttributeError "'str' object has no attribute 'time'")
   /\ call_summary (snd run) = [(in_progress, None, None, None)])
  /\ (let run :=
        VoiceAgentOpenAI.make_call
          (Samples.world Samples.mid_january Samples.zeros_draws
             (Samples.backend_says Samples.keen_text))
          Samples.openai_agent Samples.john None state_init in
      fst run = Raise (AttributeError "'str' object has no attribute 'time'")
      /\ call_summary (snd run) = [(in_progress, None, None, None)])
  /\ (let run :=
        VoiceAgentOpenAI.make_call Samples.stopped Samples.fallback_agent Samples.john None
          state_init in
      fst run = Raise (AttributeError "'str' object has no attribute 'time'")
      /\ call_summary (snd run) = [(in_progress, None, None, None)]).
Proof. repeat split; vm_compute; reflexivity. Qed.

Lemma random_choice_member {A} rt (l : list A) st y st' :
  random_choice rt l st = (Ok y, st') -> In y l.
Proof.
  destruct l as [|x l]; [discriminate|].
  unfold random_choice, bind, draw, lift, list_index.
  destruct (nth_error (x :: l) _) eqn:E; intros [= <- _].
  exact (nth_error_In _ _ E).
Qed.

(** The second date (time) offered is drawn among the candidates other
    than the first, so whenever it is drawn it differs from the first. *)
Lemma second_option_differs rt items first st second st' :
  random_choice rt (others items first) st = (Ok second, st') -> second <> first.
Proof.
  intros H. apply random_choice_member in H. unfold others in H.
  apply filter_In in H. destruct H as [_ H]. intros ->.
  rewrite String.eqb_refl in H. discriminate.
Qed.

(** Away from the end of the month the general flow does offer today
    and the two days after it. *)
Lemma general_available_dates_mid_month rt d st :
  (forall n, now_at rt n = d) ->
  1 <= day d -> day d + 2 <= days_in_month (year d) (month d) ->
  fst (general_available_dates rt st)
  = Ok [strftime_day d;
        strftime_day (mk_datetime (year d) (month d) (day d + 1) (hour d) (minute d) (second d));
        strftime_day (mk_datetime (year d) (month d) (day d + 2) (hour d) (minute d) (second d))].
Proof.
  intros Hnow Hlo Hhi.
  unfold general_available_dates, bind, datetime_now, lift, ret. cbn [clock_reads].
  rewrite !Hnow. unfold replace_day.
  replace ((1 <=? day d + 1) && (day d + 1 <=? days_in_month (year d) (month d))) with true
    by (symmetry; apply andb_true_intro; split; apply Z.leb_le; lia).
  replace ((1 <=? day d + 2) && (day d + 2 <=? days_in_month (year d) (month d))) with true
    by (symmetry; apply andb_true_intro; split; apply Z.leb_le; lia).
  reflexivity.
Qed.

(** C7 (the code departs from it).  On the last two days of a month the
    general flow has no candidate dates at all: building them raises
    [ValueError], and with it the call, for either agent. *)
Theorem month_end_has_no_candidate_dates :
  fst (general_available_dates
         (Samples.world Samples.end_of_january Samples.zeros_draws Samples.backend_down)
         state_init)
  = Raise (ValueError "day is out of range for month")
  /\ fst (general_available_dates
            (Samples.world (mk_datetime 2024 1 30 10 0 0) Samples.zeros_draws
               Samples.backend_down) state_init)
     = Raise (ValueError "day is out of range for month")
  /\ (let run :=
        VoiceAgent.make_call
          (Samples.world Samples.end_of_january Samples.zeros_draws Samples.backend_down)
          Samples.template_agent Samples.john None state_init in
      fst run = Raise (ValueError "day is out of range for month")
      /\ call_summary (snd run) = [(in_progress, None, None, None)])
  /\ (let run :=
        VoiceAgentOpenAI.make_call
          (Samples.world Samples.end_of_january Samples.zeros_draws
             (Samples.backend_says Samples.keen_text))
          Samples.openai_agent Samples.john None state_init in
      fst run = Raise (ValueError "day is out of range for month")
      /\ call_summary (snd run) = [(in_progress, None, None, None)]).
Proof. repeat split; vm_compute; reflexivity. Qed.

(** ** Read accessors *)

Lemma truthy_nonempty s : s <> "" -> truthy (Some s) = true.
Proof.
  intros H. cbn. destruct (String.eqb s "") eqn:E; [|reflexivity].
  apply String.eqb_eq in E. contradiction.
Qed.

Lemma client_id_is_spec c wanted :
  client_id_is c (Some wanted) = true <-> client_id c = Some wanted.
Proof.
  unfold client_id_is. destruct (client_id c) as [i|].
  - rewrite String.eqb_eq. split; congruence.
  - split; discriminate.
Qed.

(** C10 (amended).  Both read accessors branch on the truth value of
    [client_id]: a non-empty id gives a new list, holding exactly the
    records (appointments) of the client with that id; no id, or the
    empty string, gives the ledger's own mapping (its own list). *)
Theorem accessors_branch_on_truthiness (c : crm_store) (wanted : string) :
  wanted <> "" ->
  (exists records,
      get_call_history c (Some wanted) = HistoryList records
      /\ forall r, In r records <->
                   (exists k, In (k, r) (calls c)) /\ client_id (call_client r) = Some wanted)
  /\ (exists items,
      get_appointments c (Some wanted) = FilteredList items
      /\ forall a, In a items <->
                   In a (appointments c) /\ client_id (apt_client a) = Some wanted)
  /\ get_call_history c None = HistoryDict (calls c)
  /\ get_call_history c (Some "") = HistoryDict (calls c)
  /\ get_appointments c None = StoreList (appointments c)
  /\ get_appointments c (Some "") = StoreList (appointments c).
Proof.
  intros Hne. unfold get_call_history, get_appointments.
  rewrite (truthy_nonempty wanted Hne).
  split; [|split; [|repeat split]].
  - eexists. split; [reflexivity|]. intros r.
    rewrite in_map_iff. split.
    + intros ([k r'] & <- & Hin). apply filter_In in Hin. destruct Hin as [Hin Hid].
      cbn [snd] in *. split; [exists k; exact Hin | apply client_id_is_spec; exact Hid].
    + intros [[k Hin] Hid]. exists (k, r). split; [reflexivity|].
      apply filter_In. split; [exact Hin | apply client_id_is_spec; exact Hid].
  - eexists. split; [reflexivity|]. intros a.
    rewrite filter_In, client_id_is_spec. reflexivity.
Qed.

(** C10 at a sample ledger and the id of its one client. *)
Lemma accessors_branch_on_truthiness_witness :
  (exists records,
      get_call_history Samples.one_call_store (Some "client123") = HistoryList records
      /\ forall r, In r records <->
                   (exists k, In (k, r) (calls Samples.one_call_store))
                   /\ client_id (call_client r) = Some "client123")
  /\ (exists items,
      get_appointments Samples.one_call_store (Some "client123") = FilteredList items
      /\ forall a, In a items <->
                   In a (appointments Samples.one_call_store)
                   /\ client_id (apt_client a) = Some "client123")
  /\ get_call_history Samples.one_call_store None
     = HistoryDict (calls Samples.one_call_store)
  /\ get_call_history Samples.one_call_store (Some "")
     = HistoryDict (calls Samples.one_call_store)
  /\ get_appointments Samples.one_call_store None
     = StoreList (appointments Samples.one_call_store)
  /\ get_appointments Samples.one_call_store (Some "")
     = StoreList (appointments Samples.one_call_store).
Proof.
  apply (accessors_branch_on_truthiness Samples.one_call_store "client123").
  discriminate.
Defined.

(** C10, as claimed, fails: with the empty string supplied as
    [client_id], neither accessor returns a filtered list. *)
Lemma empty_client_id_gets_the_mapping :
  is_history_list (get_call_history Samples.one_call_store (Some "")) = false
  /\ is_filtered_list (get_appointments Samples.one_call_store (Some "")) = false.
Proof. split; reflexivity. Qed.

(* ================================================================== *)
(** * Further properties of the ledger, the agents and the integration  *)
(* ================================================================== *)

(** One step that leaves the CRM alone, and the tail of a handler from
    its call to [schedule_appointment]. *)
Ltac kept_step :=
  eapply triple_bind; [ apply triple_keeps; auto 6 with keeps | intros ? ].

Ltac booking_tail :=
  eapply triple_bind; [ apply triple_schedule_appointment | intros ?; apply triple_false ].

Lemma dict_get_set_other {V} (d : dict V) k k' v :
  k <> k' -> dict_get (dict_set d k v) k' = dict_get d k'.
Proof.
  intros Hne. induction d as [|[k0 v0] d IH]; cbn.
  - destruct (String.eqb k k') eqn:E; [apply String.eqb_eq in E; contradiction | reflexivity].
  - destruct (String.eqb k0 k) eqn:E; cbn.
    + apply String.eqb_eq in E. subst k0.
      destruct (String.eqb k k') eqn:E'; [apply String.eqb_eq in E'; contradiction | reflexivity].
    + rewrite IH. reflexivity.
Qed.

(** What [log_call_end] leaves of a known call, whether or not the
    parsing of the time stamps went through; the duration is there when
    it returned. *)
Lemma log_call_end_cases rt id st r :
  dict_get (calls (crm st)) id = Some r ->
  exists res dur,
    log_call_end rt id st
    = (res,
       with_calls (tick st)
         (dict_set (calls (crm st)) id
            (mk_call (call_client r) (start_time r) completed (notes r) (outcome r)
                     (sentiment r)
                     (Some (strftime_stamp (now_at rt (clock_reads st)))) dur)))
    /\ (res = Ok tt -> is_set dur = true).
Proof.
  intros E. unfold log_call_end. unfold bind at 1. rewrite has_call_run.
  unfold dict_mem. rewrite E.
  unfold bind at 1. unfold datetime_now at 1. fold (tick st).
  unfold bind at 1. rewrite (modify_call_present _ _ (tick st) r E).
  unfold bind at 1.
  erewrite modify_call_present by apply dict_get_set_same.
  unfold bind at 1. unfold read_call at 1. unfold bind at 1, get_crm at 1.
  cbn [crm with_calls calls]. rewrite dict_set_set, dict_get_set_same. unfold ret at 1.
  cbn [start_time end_time].
  unfold bind at 1, lift at 1.
  destruct (strptime_stamp (start_time r)) as [start|e].
  2:{ eexists _, _. split; [unfold with_calls, tick; cbn; reflexivity | discriminate]. }
  unfold bind at 1, lift at 1.
  destruct (strptime_stamp (strftime_stamp (now_at rt (clock_reads st)))) as [stop|e].
  2:{ eexists _, _. split; [unfold with_calls, tick; cbn; reflexivity | discriminate]. }
  erewrite modify_call_present by apply dict_get_set_same.
  eexists _, _.
  split; [unfold with_calls, tick; cbn; rewrite !dict_set_set; reflexivity
         | intros _; reflexivity].
Qed.

(** X1.  An update or a close addressed to a call id that is not in
    the ledger does nothing and raises nothing: [update_call_notes],
    [update_client_sentiment], [update_call_outcome] and [log_call_end]
    return with the state exactly as it was; not even the clock is
    read. *)
Theorem unknown_call_id_is_ignored (rt : runtime) (st : state) (id : string) :
  dict_get (calls (crm st)) id = None ->
  forall op, op_call_id op = Some id -> run_op rt op st = (Ok tt, st).
Proof.
  intros E op Hop.
  destruct op as [c | i text | i v | i o | i | c d t p]; cbn in Hop; try discriminate;
    injection Hop as ->; unfold run_op.
  - rewrite update_call_notes_run, E. reflexivity.
  - rewrite update_client_sentiment_run, E. reflexivity.
  - rewrite update_call_outcome_run, E. reflexivity.
  - apply log_call_end_unknown. exact E.
Qed.

Lemma unknown_call_id_is_ignored_witness :
  run_op Samples.stopped (OpLogCallEnd "call_0") state_init = (Ok tt, state_init).
Proof.
  apply (unknown_call_id_is_ignored Samples.stopped state_init "call_0"); reflexivity.
Defined.

Lemma later_record_refl r : later_record r r.
Proof. repeat split; auto. exists []. rewrite app_nil_r. reflexivity. Qed.

(** X2.  No operation other than [log_call_start] takes anything back
    from a record of the ledger: after it the record is still there
    under the same id, with the same client and start time, with its
    earlier notes first, and completed if it was completed.  A record
    the operation is not addressed to is left exactly as it was; this
    covers [schedule_appointment], which is addressed to none. *)
Theorem records_only_move_forward (rt : runtime) (op : ledger_op) (st : state)
    (id : string) (r : call_record) :
  is_start op = false ->
  dict_get (calls (crm st)) id = Some r ->
  exists r',
    dict_get (calls (crm (snd (run_op rt op st)))) id = Some r'
    /\ later_record r r'
    /\ (op_call_id op <> Some id -> r' = r).
Proof.
  intros Hop E.
  assert (Hsame : exists r', dict_get (calls (crm st)) id = Some r' /\ later_record r r'
                             /\ (op_call_id op <> Some id -> r' = r)).
  { exists r. split; [exact E|]. split; [apply later_record_refl | reflexivity]. }
  assert (Hmod : forall i r0 r1 st0,
             calls (crm st0) = dict_set (calls (crm st)) i r1 ->
             op_call_id op = Some i ->
             dict_get (calls (crm st)) i = Some r0 ->
             (i = id -> later_record r r1) ->
             exists r', dict_get (calls (crm st0)) id = Some r' /\ later_record r r'
                        /\ (op_call_id op <> Some id -> r' = r)).
  { intros i r0 r1 st0 Hc Hi E0 Hl. rewrite Hc.
    destruct (String.eqb i id) eqn:Ei.
    - apply String.eqb_eq in Ei. subst i. rewrite dict_get_set_same.
      exists r1. split; [reflexivity|]. split; [auto|]. intros Hn. contradiction.
    - apply String.eqb_neq in Ei. rewrite (dict_get_set_other _ _ _ _ Ei).
      exists r. split; [exact E|]. split; [apply later_record_refl | reflexivity]. }
  destruct op as [c | i text | i v | i o | i | c d t p]; [discriminate| | | | |]; unfold run_op.
  - rewrite update_call_notes_run. cbn [snd].
    destruct (dict_get (calls (crm st)) i) as [r0|] eqn:E0; [|exact Hsame].
    eapply (Hmod i r0); [reflexivity | reflexivity | exact E0 |].
    intros ->. rewrite E in E0. injection E0 as <-.
    repeat split; cbn; auto. eexists. reflexivity.
  - rewrite update_client_sentiment_run. cbn [snd].
    destruct (dict_get (calls (crm st)) i) as [r0|] eqn:E0; [|exact Hsame].
    eapply (Hmod i r0); [reflexivity | reflexivity | exact E0 |].
    intros ->. rewrite E in E0. injection E0 as <-.
    repeat split; cbn; auto. exists []. rewrite app_nil_r. reflexivity.
  - rewrite update_call_outcome_run. cbn [snd].
    destruct (dict_get (calls (crm st)) i) as [r0|] eqn:E0; [|exact Hsame].
    eapply (Hmod i r0); [reflexivity | reflexivity | exact E0 |].
    intros ->. rewrite E in E0. injection E0 as <-.
    repeat split; cbn; auto. exists []. rewrite app_nil_r. reflexivity.
  - destruct (dict_get (calls (crm st)) i) as [r0|] eqn:E0.
    + destruct (log_call_end_cases rt i st r0 E0) as (res & dur & Hend & _). rewrite Hend.
      cbn [snd].
      eapply (Hmod i r0); [reflexivity | reflexivity | exact E0 |].
      intros ->. rewrite E in E0. injection E0 as <-.
      repeat split; cbn; auto. exists []. rewrite app_nil_r. reflexivity.
    + rewrite (log_call_end_unknown rt i st E0). exact Hsame.
  - unfold bind. rewrite schedule_appointment_raises. exact Hsame.
Qed.

Lemma records_only_move_forward_witness :
  exists r',
    dict_get
      (calls (crm (snd (run_op Samples.stopped
                          (OpUpdateCallOutcome MoreSamples.opened_id "Not Interested")
                          MoreSamples.opened))))
      MoreSamples.opened_id = Some r'
    /\ later_record (fresh_record Samples.stopped state_init Samples.john) r'
    /\ (op_call_id (OpUpdateCallOutcome MoreSamples.opened_id "Not Interested")
        <> Some MoreSamples.opened_id ->
        r' = fresh_record Samples.stopped state_init Samples.john).
Proof.
  apply (records_only_move_forward Samples.stopped
           (OpUpdateCallOutcome MoreSamples.opened_id "Not Interested")
           MoreSamples.opened MoreSamples.opened_id
           (fresh_record Samples.stopped state_init Samples.john));
    vm_compute; reflexivity.
Defined.

Lemma history_ledger_ok rt steps :
  clock_readable rt -> ledger_ok false (crm (run_steps rt steps state_init)).
Proof. intros Hclock. apply run_steps_ledger_ok; [exact Hclock | constructor]. Qed.

(** X3.  On a ledger reached by any history of operations and calls,
    under a clock that shows real dates with a year of four digits
    (from 1000 on), every operation of the ledger other than
    [schedule_appointment] returns: none of them raises, on a known or
    an unknown call id.  Before the year 1000 [log_call_end] does raise
    ([completed_without_duration]). *)
Theorem ledger_operations_return (rt : runtime) (steps : list session_step)
    (op : ledger_op) :
  clock_readable rt -> is_schedule op = false ->
  fst (run_op rt op (run_steps rt steps state_init)) = Ok tt.
Proof.
  intros Hclock Hop. set (st := run_steps rt steps state_init).
  assert (Hok : ledger_ok false (crm st)).
  { apply run_steps_ledger_ok; [exact Hclock | constructor]. }
  destruct op as [c | i text | i v | i o | i | c d t p]; [| | | | |discriminate]; unfold run_op.
  - unfold bind. rewrite log_call_start_run. reflexivity.
  - rewrite update_call_notes_run. reflexivity.
  - rewrite update_client_sentiment_run. reflexivity.
  - rewrite update_call_outcome_run. reflexivity.
  - destruct (dict_get (calls (crm st)) i) as [r|] eqn:E.
    + destruct (dict_get_Forall (record_ok false) _ _ _ Hok E) as ((d0 & Hd0 & Hs) & _).
      rewrite (log_call_end_known rt i st r d0 E Hs Hd0 (Hclock _)). reflexivity.
    + rewrite (log_call_end_unknown rt i st E). reflexivity.
Qed.

Lemma ledger_operations_return_witness :
  fst (run_op Samples.stopped (OpLogCallEnd MoreSamples.opened_id)
         (run_steps Samples.stopped
            [TemplateCall Samples.template_agent Samples.john None] state_init))
  = Ok tt.
Proof.
  apply (ledger_operations_return Samples.stopped
           [TemplateCall Samples.template_agent Samples.john None]
           (OpLogCallEnd MoreSamples.opened_id)).
  - intros n. reflexivity.
  - reflexivity.
Defined.

(** X4.  Under a clock that shows real dates with a year of four
    digits, [log_call_end] on a call of a reachable ledger reads the
    stored start time back as the date it was written from, and leaves
    the record completed with the current time as end time and the
    time since the start as duration; every other field is kept.
    Closing is not idempotent: a second [log_call_end] succeeds again
    and overwrites end time and duration, measured from the same start
    to the later reading of the clock. *)
Theorem closing_measures_from_the_start (rt : runtime) (steps : list session_step)
    (id : string) (r : call_record) :
  clock_readable rt ->
  let st := run_steps rt steps state_init in
  dict_get (calls (crm st)) id = Some r ->
  let once := snd (log_call_end rt id st) in
  let twice := snd (log_call_end rt id once) in
  let first := now_at rt (clock_reads st) in
  let second := now_at rt (S (clock_reads st)) in
  exists started,
    start_time r = strftime_stamp started
    /\ dict_get (calls (crm once)) id
       = Some (closed_record r first (total_seconds first started))
    /\ dict_get (calls (crm twice)) id
       = Some (closed_record r second (total_seconds second started)).
Proof.
  intros Hclock st E once twice first second.
  pose proof (history_ledger_ok rt steps Hclock) as Hok. fold st in Hok.
  destruct (dict_get_Forall (record_ok false) _ _ _ Hok E) as ((d0 & Hd0 & Hs) & _).
  exists d0. split; [exact Hs|]. subst twice once.
  rewrite (log_call_end_known rt id st r d0 E Hs Hd0 (Hclock _)). cbn [snd].
  erewrite (log_call_end_known rt id _ _ d0);
    [ | cbn [crm with_calls calls]; apply dict_get_set_same | exact Hs | exact Hd0 | apply Hclock ].
  cbn [snd crm with_calls calls tick clock_reads]. rewrite dict_set_set, !dict_get_set_same.
  split; reflexivity.
Qed.

Lemma closing_measures_from_the_start_witness :
  let st := run_steps Samples.stopped [Ledger (OpLogCallStart Samples.john)] state_init in
  let r := fresh_record Samples.stopped state_init Samples.john in
  let once := snd (log_call_end Samples.stopped MoreSamples.opened_id st) in
  let twice := snd (log_call_end Samples.stopped MoreSamples.opened_id once) in
  let first := now_at Samples.stopped (clock_reads st) in
  let second := now_at Samples.stopped (S (clock_reads st)) in
  exists started,
    start_time r = strftime_stamp started
    /\ dict_get (calls (crm once)) MoreSamples.opened_id
       = Some (closed_record r first (total_seconds first started))
    /\ dict_get (calls (crm twice)) MoreSamples.opened_id
       = Some (closed_record r second (total_seconds second started)).
Proof.
  apply (closing_measures_from_the_start Samples.stopped
           [Ledger (OpLogCallStart Samples.john)] MoreSamples.opened_id
           (fresh_record Samples.stopped state_init Samples.john)).
  - intros n. reflexivity.
  - vm_compute. reflexivity.
Defined.

(** X5.  Call ids are not unique by construction: when the id that
    [log_call_start] builds from the clock second and the random draw
    is already in the ledger, the call returns that same id and the
    record stored under it (client, notes, outcome, status) is replaced
    by a new empty record in progress; the ledger holds the same ids as
    before. *)
Theorem reused_call_id_replaces_the_record (rt : runtime) (c : client) (st : state)
    (old : call_record) :
  dict_get (calls (crm st)) (fresh_call_id rt st) = Some old ->
  let st' := snd (log_call_start rt c st) in
  fst (log_call_start rt c st) = Ok (fresh_call_id rt st)
  /\ dict_get (calls (crm st')) (fresh_call_id rt st)
     = Some (mk_call c (strftime_stamp (now_at rt (S (clock_reads st))))
                     in_progress [] None None None None)
  /\ map fst (calls (crm st')) = map fst (calls (crm st)).
Proof.
  intros E st'. subst st'. rewrite log_call_start_run. cbn [fst snd crm calls].
  split; [reflexivity|]. split; [apply dict_get_set_same|].
  revert E. generalize (fresh_record rt st c). generalize (fresh_call_id rt st).
  intros k v. induction (calls (crm st)) as [|[k0 v0] d IH]; cbn; [discriminate|].
  destruct (String.eqb k0 k); cbn; [reflexivity|]. intros E. rewrite (IH E). reflexivity.
Qed.

Lemma reused_call_id_replaces_the_record_witness :
  let st' := snd (log_call_start Samples.stopped Samples.john MoreSamples.opened) in
  fst (log_call_start Samples.stopped Samples.john MoreSamples.opened)
  = Ok (fresh_call_id Samples.stopped MoreSamples.opened)
  /\ dict_get (calls (crm st')) (fresh_call_id Samples.stopped MoreSamples.opened)
     = Some (mk_call Samples.john
               (strftime_stamp (now_at Samples.stopped (S (clock_reads MoreSamples.opened))))
               in_progress [] None None None None)
  /\ map fst (calls (crm st')) = map fst (calls (crm MoreSamples.opened)).
Proof.
  apply (reused_call_id_replaces_the_record Samples.stopped Samples.john MoreSamples.opened
           (fresh_record Samples.stopped state_init Samples.john)).
  vm_compute. reflexivity.
Defined.

Lemma run_op_appointments rt op st :
  appointments (crm (snd (run_op rt op st))) = appointments (crm st).
Proof.
  destruct op as [c | i text | i v | i o | i | c d t p]; unfold run_op.
  - unfold bind. rewrite log_call_start_run. reflexivity.
  - rewrite update_call_notes_run. cbn [snd]. destruct (dict_get _ i); reflexivity.
  - rewrite update_client_sentiment_run. cbn [snd]. destruct (dict_get _ i); reflexivity.
  - rewrite update_call_outcome_run. cbn [snd]. destruct (dict_get _ i); reflexivity.
  - destruct (dict_get (calls (crm st)) i) as [r|] eqn:E.
    + destruct (log_call_end_cases rt i st r E) as (res & dur & -> & _). reflexivity.
    + rewrite (log_call_end_unknown rt i st E). reflexivity.
  - unfold bind. rewrite schedule_appointment_raises. reflexivity.
Qed.

Lemma keeps_get_crm : keeps_crm get_crm.
Proof. intros st. reflexivity. Qed.

Lemma keeps_has_call id : keeps_crm (has_call id).
Proof. intros st. reflexivity. Qed.

Lemma keeps_read_call id : keeps_crm (read_call id).
Proof.
  intros st. unfold read_call, bind, get_crm. cbn.
  destruct (dict_get (calls (crm st)) id); reflexivity.
Qed.

#[local] Hint Resolve keeps_get_crm keeps_has_call keeps_read_call : keeps.

Lemma triple_value {A} P (m : M A) (R : A -> Prop) :
  keeps_crm m -> (forall st a st', m st = (Ok a, st') -> R a) ->
  triple P m (fun a c => P c /\ R a) P.
Proof.
  intros Hk HR st HP. specialize (Hk st). specialize (HR st).
  destruct (m st) as [[a|e] st']; cbn in Hk; rewrite Hk; [split; eauto | exact HP].
Qed.

Lemma triple_assume {A} (P : crm_store -> Prop) (H : Prop) (m : M A) Q E :
  (H -> triple P m Q E) -> triple (fun c => P c /\ H) m Q E.
Proof.
  intros Hm st [HP HH]. specialize (Hm HH st HP).
  destruct (m st) as [[a|e] st']; exact Hm.
Qed.

Lemma pick_weighted_member {A} (population : list A) weights u x :
  pick_weighted population weights u = Some x -> In x population.
Proof.
  revert weights u. induction population as [|y ys IH]; intros [|w ws] u; cbn [pick_weighted];
    try discriminate.
  destruct (u <? w)%nat; [intros [= E]; left; exact E|].
  destruct ys as [|z zs]; [intros [= E]; left; exact E|].
  intros H. right. exact (IH _ _ H).
Qed.

Lemma random_choices_member {A} rt (population : list A) weights st x st' :
  random_choices rt population weights st = (Ok x, st') -> In x population.
Proof.
  unfold random_choices, bind, draw, ret, raise.
  destruct (pick_weighted _ _ _) eqn:E; intros [= <- _]. exact (pick_weighted_member _ _ _ _ E).
Qed.

Lemma titled_outcome_recorded o :
  In o outcomes -> String.eqb o "appointment_scheduled" = false ->
  In (title (replace_char "_" " " o)) recorded_outcomes.
Proof.
  intros [<-|[<-|[<-|[<-|[]]]]] H; try discriminate H; vm_compute; auto.
Qed.

Lemma outcome_of_sentiment_member s o :
  VoiceAgentOpenAI.outcome_of_sentiment s = Ok o -> In o outcomes.
Proof.
  unfold VoiceAgentOpenAI.outcome_of_sentiment.
  destruct (json_getitem s "interest_level") as [level|e]; [|discriminate].
  destruct (json_eq_str level "high"); [intros [= <-]; cbn; auto|].
  destruct (json_eq_str level "medium"); intros [= <-]; cbn; auto.
Qed.

(** The rewritings of a record in the ledger's methods. *)
Ltac later_record_tac :=
  unfold later_record; cbn [call_client start_time status notes];
  repeat split; try reflexivity; try (intros; assumption);
  first [ exists []; rewrite app_nil_r; reflexivity | eexists; reflexivity ].

(** What the handlers of a call maintain.  [P] is a property of the CRM
    that survives a rewriting of the record of the call [id] which keeps
    its client and start time, only adds notes, and leaves the outcome
    as it is or sets one that is [allowed].  [Q] is what the writing of
    an [allowed] outcome makes of [P]. *)
Section Handlers.

Variable rt : runtime.
Variable id : string.
Variable P : crm_store -> Prop.
Variable allowed : string -> Prop.
Hypothesis allowed_recorded : forall o, In o recorded_outcomes -> allowed o.
Hypothesis Pmod :
  forall c r r', P c -> dict_get (calls c) id = Some r ->
    later_record r r' ->
    (outcome r' = outcome r \/ exists o, allowed o /\ outcome r' = Some o) ->
    P (mk_crm (dict_set (calls c) id r') (appointments c)).

Lemma handlers_modify_call f :
  (forall r, later_record r (f r)) ->
  (forall r, outcome (f r) = outcome r \/ exists o, allowed o /\ outcome (f r) = Some o) ->
  triple P (modify_call id f) (fun _ => P) P.
Proof.
  intros Hl Hf st HP. unfold modify_call, set_calls, bind, get_crm, put_crm, raise. cbn.
  destruct (dict_get (calls (crm st)) id) as [r|] eqn:E; cbn; [|exact HP].
  apply (Pmod _ r); auto.
Qed.

Ltac own_step :=
  eapply triple_bind;
  [ apply handlers_modify_call; [intros ?; later_record_tac | intros ?; left; reflexivity]
  | intros ? ].

Lemma handlers_update_call_notes text :
  triple P (update_call_notes rt id text) (fun _ => P) P.
Proof.
  unfold update_call_notes. kept_step.
  match goal with |- context [if ?b then _ else _] => destruct b end.
  - kept_step. apply handlers_modify_call; [intros ?; later_record_tac | intros ?; left; reflexivity].
  - apply triple_keeps. auto with keeps.
Qed.

Lemma handlers_update_client_sentiment v :
  triple P (update_client_sentiment id v) (fun _ => P) P.
Proof.
  unfold update_client_sentiment. kept_step.
  match goal with |- context [if ?b then _ else _] => destruct b end.
  - apply handlers_modify_call; [intros ?; later_record_tac | intros ?; left; reflexivity].
  - apply triple_keeps. auto with keeps.
Qed.

Lemma handlers_update_call_outcome o :
  allowed o -> triple P (update_call_outcome id o) (fun _ => P) P.
Proof.
  intros Ho. unfold update_call_outcome. kept_step.
  match goal with |- context [if ?b then _ else _] => destruct b end.
  - apply handlers_modify_call; [intros ?; later_record_tac|].
    intros ?; right. exists o. split; [exact Ho | reflexivity].
  - apply triple_keeps. auto with keeps.
Qed.

Lemma handlers_log_call_end : triple P (log_call_end rt id) (fun _ => P) P.
Proof.
  unfold log_call_end. kept_step.
  match goal with |- context [if ?b then _ else _] => destruct b end.
  - kept_step. own_step. own_step. do 3 kept_step.
    apply handlers_modify_call; [intros ?; later_record_tac | intros ?; left; reflexivity].
  - apply triple_keeps. auto with keeps.
Qed.

Ltac ledger_step :=
  eapply triple_bind;
  [ first [ apply handlers_update_call_notes | apply handlers_update_client_sentiment
          | apply handlers_log_call_end ]
  | intros ? ].

Variable Q : crm_store -> Prop.
Hypothesis Pout :
  forall o, allowed o -> triple P (update_call_outcome id o) (fun _ => Q) P.

(** The last step of a handler's branch without a booking. *)
Ltac record_outcome :=
  apply Pout; apply allowed_recorded;
  first [ apply titled_outcome_recorded; assumption | vm_compute; tauto ].

Lemma handlers_decide_outcome self msg :
  triple P (VoiceAgentOpenAI.decide_outcome rt self id msg)
         (fun o c => P c /\ In o outcomes) P.
Proof.
  unfold VoiceAgentOpenAI.decide_outcome. kept_step.
  match goal with |- context [if ?b then _ else _] => destruct b end.
  - eapply triple_try_except with (E' := P).
    + kept_step. ledger_step. apply triple_value; [auto with keeps|].
      intros st o st'. unfold lift.
      destruct (VoiceAgentOpenAI.outcome_of_sentiment _) eqn:E; intros [= <- _].
      exact (outcome_of_sentiment_member _ _ E).
    + intros e. apply triple_value; [auto with keeps|]. apply random_choices_member.
  - apply triple_value; [auto with keeps|]. apply random_choices_member.
Qed.

Lemma handlers_template_general self c :
  triple P (VoiceAgent._handle_general_inquiry rt self c id) (fun _ => Q) P.
Proof.
  unfold VoiceAgent._handle_general_inquiry. cbv zeta.
  kept_step. ledger_step.
  eapply triple_bind;
    [apply triple_value; [auto with keeps | apply random_choices_member] | intros outcome].
  apply triple_assume. intros Hin.
  destruct (String.eqb outcome "appointment_scheduled") eqn:E.
  - do 5 kept_step. booking_tail.
  - record_outcome.
Qed.

Lemma handlers_template_property self c p :
  triple P (VoiceAgent._handle_property_inquiry rt self c p id) (fun _ => Q) P.
Proof.
  unfold VoiceAgent._handle_property_inquiry. cbv zeta.
  kept_step. ledger_step.
  match goal with |- context [if ?b then _ else _] => destruct b end.
  - do 6 kept_step. booking_tail.
  - record_outcome.
Qed.

Lemma handlers_openai_general self c history :
  triple P (VoiceAgentOpenAI._handle_general_inquiry rt self c id history) (fun _ => Q) P.
Proof.
  unfold VoiceAgentOpenAI._handle_general_inquiry. cbv zeta.
  do 5 kept_step. ledger_step.
  eapply triple_bind; [apply handlers_decide_outcome | intros outcome].
  apply triple_assume. intros Hin.
  destruct (String.eqb outcome "appointment_scheduled") eqn:E.
  - do 7 kept_step. booking_tail.
  - record_outcome.
Qed.

Lemma handlers_openai_property self c p history :
  triple P (VoiceAgentOpenAI._handle_property_inquiry rt self c p id history)
         (fun _ => Q) P.
Proof.
  unfold VoiceAgentOpenAI._handle_property_inquiry. cbv zeta.
  do 5 kept_step. ledger_step.
  match goal with |- context [if String.eqb ?x schedule_viewing then _ else _] =>
    destruct (String.eqb x schedule_viewing) end.
  - do 7 kept_step. booking_tail.
  - record_outcome.
Qed.

(** The part of [make_call] after [log_call_start]. *)
Lemma handlers_call_body (handler : M unit) :
  triple P handler (fun _ => P) P ->
  triple P (handler ;;; log_call_end rt id ;;; ret id) (fun _ => P) P.
Proof.
  intros Hh. eapply triple_bind; [exact Hh | intros ?].
  ledger_step. apply triple_keeps. auto with keeps.
Qed.

End Handlers.

(** The handler [make_call] picks, for both agents. *)
Lemma handlers_of_make_call rt id P allowed Q :
  (forall o, In o recorded_outcomes -> allowed o) ->
  (forall cs r r', P cs -> dict_get (calls cs) id = Some r ->
     later_record r r' ->
     (outcome r' = outcome r \/ exists o, allowed o /\ outcome r' = Some o) ->
     P (mk_crm (dict_set (calls cs) id r') (appointments cs))) ->
  (forall o, allowed o -> triple P (update_call_outcome id o) (fun _ => Q) P) ->
  (forall (self : VoiceAgent.agent) c (property_id : option string),
      triple P
        (if truthy property_id then
           match find_property (VoiceAgent.properties self)
                   (match property_id with Some i => i | None => "" end) with
           | Some property_info =>
               VoiceAgent._handle_property_inquiry rt self c property_info id
           | None => VoiceAgent._handle_general_inquiry rt self c id
           end
         else VoiceAgent._handle_general_inquiry rt self c id)
        (fun _ => Q) P)
  /\ (forall (self : VoiceAgentOpenAI.agent) c (property_id : option string),
      triple P
        (if truthy property_id then
           match find_property (VoiceAgentOpenAI.properties self)
                   (match property_id with Some i => i | None => "" end) with
           | Some property_info =>
               VoiceAgentOpenAI._handle_property_inquiry rt self c property_info id []
           | None => VoiceAgentOpenAI._handle_general_inquiry rt self c id []
           end
         else VoiceAgentOpenAI._handle_general_inquiry rt self c id [])
        (fun _ => Q) P).
Proof.
  intros Hall Pmod Pout. split; intros self c pid.
  - destruct (truthy pid); [|eapply handlers_template_general; eassumption].
    destruct (find_property _ _);
      [eapply handlers_template_property | eapply handlers_template_general]; eassumption.
  - destruct (truthy pid); [|eapply handlers_openai_general; eassumption].
    destruct (find_property _ _);
      [eapply handlers_openai_property | eapply handlers_openai_general]; eassumption.
Qed.

(** Both agents' [make_call] for the client [c], for such a property
    [P] of the CRM that also holds once [log_call_start] has written
    the record of the call. *)
Lemma make_call_maintains rt (P : crm_store -> Prop) (allowed : string -> Prop) st c :
  (forall o, In o recorded_outcomes -> allowed o) ->
  (forall cs r r', P cs -> dict_get (calls cs) (fresh_call_id rt st) = Some r ->
     later_record r r' ->
     (outcome r' = outcome r \/ exists o, allowed o /\ outcome r' = Some o) ->
     P (mk_crm (dict_set (calls cs) (fresh_call_id rt st) r') (appointments cs))) ->
  P (mk_crm (dict_set (calls (crm st)) (fresh_call_id rt st) (fresh_record rt st c))
            (appointments (crm st))) ->
  (forall self property_id,
      P (crm (snd (VoiceAgent.make_call rt self c property_id st))))
  /\ (forall self property_id,
      P (crm (snd (VoiceAgentOpenAI.make_call rt self c property_id st)))).
Proof.
  intros Hall Pmod Hstart.
  destruct (handlers_of_make_call rt (fresh_call_id rt st) P allowed P Hall Pmod
              (handlers_update_call_outcome (fresh_call_id rt st) P allowed Pmod))
    as [Ht Ho].
  split; intros self pid.
  - unfold VoiceAgent.make_call. unfold bind at 1. rewrite log_call_start_run.
    match goal with |- context [bind ?h ?k ?s] =>
      pose proof (handlers_call_body rt (fresh_call_id rt st) P allowed Pmod h
                    (Ht self c pid) s Hstart) as H;
      destruct (bind h k s) as [[a|e] s'] end; exact H.
  - unfold VoiceAgentOpenAI.make_call. unfold bind at 1. rewrite log_call_start_run. cbv zeta.
    match goal with |- context [bind ?h ?k ?s] =>
      pose proof (handlers_call_body rt (fresh_call_id rt st) P allowed Pmod h
                    (Ho self c pid) s Hstart) as H;
      destruct (bind h k s) as [[a|e] s'] end; exact H.
Qed.



Lemma make_call_appointments rt st c :
  (forall self property_id,
      appointments (crm (snd (VoiceAgent.make_call rt self c property_id st)))
      = appointments (crm st))
  /\ (forall self property_id,
      appointments (crm (snd (VoiceAgentOpenAI.make_call rt self c property_id st)))
      = appointments (crm st)).
Proof.
  apply (make_call_maintains rt (fun cs => appointments cs = appointments (crm st))
           (fun _ => True) st c); auto.
Qed.

(** X6.  No history of ledger operations and calls of either agent,
    in any order, on any runtime, ever stores an appointment: the list
    of appointments of a ledger that started empty stays empty. *)
Theorem no_history_books_an_appointment (rt : runtime) (steps : list session_step) :
  appointments (crm (run_steps rt steps state_init)) = [].
Proof.
  assert (H : forall st, appointments (crm st) = [] ->
                         appointments (crm (run_steps rt steps st)) = []).
  { induction steps as [|s steps IH]; intros st Hst; cbn [run_steps]; [exact Hst|].
    apply IH. destruct s as [op | self c p | self c p]; cbn [run_step].
    - rewrite run_op_appointments. exact Hst.
    - rewrite (proj1 (make_call_appointments rt st c)). exact Hst.
    - rewrite (proj2 (make_call_appointments rt st c)). exact Hst. }
  apply H. reflexivity.
Qed.

Lemma outcome_recordable_spec o :
  outcome_recordable (Some o) = true <-> In o recorded_outcomes.
Proof.
  unfold outcome_recordable. rewrite existsb_exists. split.
  - intros (x & Hx & E). apply String.eqb_eq in E. subst. exact Hx.
  - intros H. exists o. split; [exact H | apply String.eqb_refl].
Qed.

Lemma make_call_outcomes rt st c :
  Forall (fun kv => outcome_recordable (outcome (snd kv)) = true) (calls (crm st)) ->
  (forall self property_id,
      Forall (fun kv => outcome_recordable (outcome (snd kv)) = true)
             (calls (crm (snd (VoiceAgent.make_call rt self c property_id st)))))
  /\ (forall self property_id,
      Forall (fun kv => outcome_recordable (outcome (snd kv)) = true)
             (calls (crm (snd (VoiceAgentOpenAI.make_call rt self c property_id st))))).
Proof.
  intros H0.
  apply (make_call_maintains rt
           (fun cs => Forall (fun kv => outcome_recordable (outcome (snd kv)) = true) (calls cs))
           (fun o => In o recorded_outcomes) st c).
  - auto.
  - intros cs r r' HP E _ Hr'. cbn [calls].
    apply (dict_set_Forall (fun r => outcome_recordable (outcome r) = true)); [exact HP|].
    destruct Hr' as [-> | (o & Ho & ->)].
    + exact (dict_get_Forall (fun r => outcome_recordable (outcome r) = true) _ _ _ HP E).
    + apply outcome_recordable_spec. exact Ho.
  - cbn [calls].
    apply (dict_set_Forall (fun r => outcome_recordable (outcome r) = true)); [exact H0|].
    reflexivity.
Qed.

(** X8.  In a ledger that only the agents' [make_call] has written,
    every record has no outcome or one of exactly four texts:
    [Information Provided], [Follow Up Required], [Not Interested]
    (the general flow) or [Information provided] (the property flow).
    The outcome [Appointment scheduled] is never recorded. *)
Theorem agents_never_record_an_appointment (rt : runtime) (steps : list session_step) :
  only_agent_calls steps = true ->
  let st := run_steps rt steps state_init in
  every_call (fun r => outcome_recordable (outcome r)) (crm st) = true
  /\ forall id r, dict_get (calls (crm st)) id = Some r ->
                  outcome r <> Some "Appointment scheduled".
Proof.
  intros Hsteps st.
  assert (H : Forall (fun kv => outcome_recordable (outcome (snd kv)) = true) (calls (crm st))).
  { subst st.
    assert (G : forall st0,
               Forall (fun kv => outcome_recordable (outcome (snd kv)) = true) (calls (crm st0)) ->
               Forall (fun kv => outcome_recordable (outcome (snd kv)) = true)
                      (calls (crm (run_steps rt steps st0)))).
    { induction steps as [|s steps IH]; intros st0 H0; cbn [run_steps]; [exact H0|].
      cbn [only_agent_calls forallb] in Hsteps. apply andb_prop in Hsteps.
      destruct Hsteps as [Hs Hrest]. apply (IH Hrest).
      destruct s as [op | self c p | self c p]; cbn [run_step]; [discriminate Hs | |].
      - apply (proj1 (make_call_outcomes rt st0 c H0)).
      - apply (proj2 (make_call_outcomes rt st0 c H0)). }
    apply G. constructor. }
  split.
  - unfold every_call. apply forallb_forall. intros kv Hin.
    rewrite Forall_forall in H. exact (H kv Hin).
  - intros id r E Ho.
    pose proof (dict_get_Forall (fun r => outcome_recordable (outcome r) = true) _ _ _ H E) as Hr.
    cbn beta in Hr. rewrite Ho in Hr. discriminate Hr.
Qed.

Lemma agents_never_record_an_appointment_witness :
  let st :=
    run_steps Samples.stopped
      [TemplateCall Samples.template_agent Samples.john (Some "prop002");
       OpenAICall Samples.openai_agent Samples.john None] state_init in
  every_call (fun r => outcome_recordable (outcome r)) (crm st) = true
  /\ forall id r, dict_get (calls (crm st)) id = Some r ->
                  outcome r <> Some "Appointment scheduled".
Proof.
  apply (agents_never_record_an_appointment Samples.stopped
           [TemplateCall Samples.template_agent Samples.john (Some "prop002");
            OpenAICall Samples.openai_agent Samples.john None]).
  reflexivity.
Defined.

Lemma make_call_record rt st c :
  (forall self property_id,
      exists r, dict_get (calls (crm (snd (VoiceAgent.make_call rt self c property_id st))))
                         (fresh_call_id rt st) = Some r
                /\ call_client r = c /\ outcome_recordable (outcome r) = true)
  /\ (forall self property_id,
      exists r, dict_get (calls (crm (snd (VoiceAgentOpenAI.make_call rt self c property_id st))))
                         (fresh_call_id rt st) = Some r
                /\ call_client r = c /\ outcome_recordable (outcome r) = true).
Proof.
  apply (make_call_maintains rt
           (fun cs => exists r, dict_get (calls cs) (fresh_call_id rt st) = Some r
                      /\ call_client r = c /\ outcome_recordable (outcome r) = true)
           (fun o => In o recorded_outcomes) st c).
  - auto.
  - intros cs r r' (r0 & E0 & Hc & Ho) E (Hclient & _) Hr'. rewrite E in E0.
    injection E0 as <-. exists r'. cbn [calls]. rewrite dict_get_set_same.
    split; [reflexivity|]. split; [congruence|].
    destruct Hr' as [-> | (o & Hin & ->)]; [exact Ho | apply outcome_recordable_spec; exact Hin].
  - eexists. cbn [calls]. rewrite dict_get_set_same. repeat split.
Qed.

Lemma closing_fields_open r :
  closing_fields_ok r = true -> status r = in_progress ->
  end_time r = None /\ duration r = None.
Proof.
  unfold closing_fields_ok, is_completed. intros H Hs. rewrite Hs in H.
  apply andb_prop in H. destruct H as [H1 H2].
  destruct (end_time r), (duration r); try discriminate; auto.
Qed.

(** What [make_call] leaves of its call, from any well-formed ledger. *)
Lemma make_call_summary rt st c :
  clock_readable rt -> ledger_ok false (crm st) ->
  (forall self property_id,
      made_call rt c st (VoiceAgent.make_call rt self c property_id st))
  /\ (forall self property_id,
      made_call rt c st (VoiceAgentOpenAI.make_call rt self c property_id st)).
Proof.
  intros Hclock Hok.
  assert (G : forall out : result string * state,
             (exists r, dict_get (calls (crm (snd out))) (fresh_call_id rt st) = Some r
                        /\ call_client r = c /\ outcome_recordable (outcome r) = true) ->
             match out with
             | (Ok id, st') =>
                 id = fresh_call_id rt st
                 /\ call_closed false (fresh_call_id rt st) (appointments (crm st)) (crm st')
             | (Raise _, st') =>
                 call_open false (fresh_call_id rt st) (appointments (crm st)) (crm st')
             end ->
             made_call rt c st out).
  { intros [[id|e] st'] (r & E & Hc & Ho); cbn [snd] in E.
    - intros (-> & _ & _ & r' & o & en & d & E' & Hst & Hout & Hend & Hdur).
      rewrite E in E'. injection E' as <-. exists r. cbn [fst snd].
      split; [exact E|]. split; [reflexivity|]. split; [exact Hc|]. split; [exact Hst|].
      split; [|rewrite Hend, Hdur; split; reflexivity].
      exists o. split; [exact Hout|]. apply outcome_recordable_spec. rewrite <- Hout. exact Ho.
    - intros (Hl & _ & r' & E' & Hst & Hout).
      rewrite E in E'. injection E' as <-. exists r. cbn [fst snd].
      split; [exact E|]. split; [exact Hc|]. split; [exact Hst|]. split; [exact Hout|].
      apply closing_fields_open; [|exact Hst].
      exact (proj1 (proj2 (dict_get_Forall (record_ok false) _ _ _ Hl E))). }
  split; intros self pid; apply G.
  - apply (proj1 (make_call_record rt st c)).
  - apply (VoiceAgent_make_call_closes_or_stays_open rt Hclock false self c pid st Hok).
  - apply (proj2 (make_call_record rt st c)).
  - apply (VoiceAgentOpenAI_make_call_closes_or_stays_open rt Hclock false self c pid st Hok).
Qed.

(** X9.  [make_call] of the template agent, on any reachable ledger
    under a clock that shows real dates with a year of four digits
    (before the year 1000 the call raises out of [log_call_end] and
    leaves a completed record).  When it returns, it returns
    the id that [log_call_start] made, and the record under that id has
    the client it was called with, is completed, and has one of the
    four recorded outcomes, an end time and a duration.  When it
    raises, the record is there with that client, in progress, with no
    outcome, no end time and no duration. *)
Theorem template_call_finishes_or_abandons (rt : runtime) (steps : list session_step)
    (self : VoiceAgent.agent) (c : client) (property_id : option string) :
  clock_readable rt ->
  let st := run_steps rt steps state_init in
  made_call rt c st (VoiceAgent.make_call rt self c property_id st).
Proof.
  intros Hclock st.
  apply (proj1 (make_call_summary rt st c Hclock (history_ledger_ok rt steps Hclock))).
Qed.

Lemma template_call_finishes_or_abandons_witness :
  made_call Samples.stopped Samples.john state_init
    (VoiceAgent.make_call Samples.stopped Samples.template_agent Samples.john
       (Some "prop002") state_init).
Proof.
  apply (template_call_finishes_or_abandons Samples.stopped [] Samples.template_agent
           Samples.john (Some "prop002")).
  intros n. reflexivity.
Defined.

(** X10.  The same for [make_call] of the agent with the chat backend
    as its constructor leaves it ([use_openai] set exactly when
    [openai] is), under a clock that shows real dates with a year of
    four digits, whatever the backend and the JSON decoder answer. *)
Theorem openai_call_finishes_or_abandons (rt : runtime) (steps : list session_step)
    (self : VoiceAgentOpenAI.agent) (c : client) (property_id : option string) :
  clock_readable rt ->
  VoiceAgentOpenAI.use_openai self = Some (VoiceAgentOpenAI.has_openai self) ->
  let st := run_steps rt steps state_init in
  made_call rt c st (VoiceAgentOpenAI.make_call rt self c property_id st).
Proof.
  intros Hclock _ st.
  apply (proj2 (make_call_summary rt st c Hclock (history_ledger_ok rt steps Hclock))).
Qed.

Lemma openai_call_finishes_or_abandons_witness :
  made_call Samples.stopped Samples.john state_init
    (VoiceAgentOpenAI.make_call Samples.stopped Samples.openai_agent Samples.john None
       state_init).
Proof.
  apply (openai_call_finishes_or_abandons Samples.stopped [] Samples.openai_agent
           Samples.john None).
  - intros n. reflexivity.
  - reflexivity.
Defined.

Lemma finished_call_in_history cs id r c i :
  dict_get (calls cs) id = Some r -> call_client r = c ->
  client_id c = Some i -> i <> "" ->
  exists l, get_call_history cs (Some i) = HistoryList l /\ In r l.
Proof.
  intros E Hc Hi Hne. unfold get_call_history, truthy.
  destruct (String.eqb i "") eqn:Ei; [apply String.eqb_eq in Ei; contradiction|].
  cbn [negb]. eexists. split; [reflexivity|].
  revert E. induction (calls cs) as [|[k v] d IH]; cbn [dict_get filter map]; [discriminate|].
  destruct (String.eqb k id).
  - intros [= ->]. cbn [snd]. unfold client_id_is at 1. rewrite Hc, Hi, String.eqb_refl.
    left. reflexivity.
  - intros E. destruct (client_id_is _ _); [right|]; exact (IH E).
Qed.

(** A call that returned, on any ledger and under any clock: the
    handler has written an outcome and [log_call_end] has gone through,
    so the record is finished. *)
Lemma make_call_returned rt st c :
  (forall self property_id id st',
      VoiceAgent.make_call rt self c property_id st = (Ok id, st') ->
      id = fresh_call_id rt st
      /\ exists r, dict_get (calls (crm st')) (fresh_call_id rt st) = Some r
                   /\ call_finished c r)
  /\ (forall self property_id id st',
      VoiceAgentOpenAI.make_call rt self c property_id st = (Ok id, st') ->
      id = fresh_call_id rt st
      /\ exists r, dict_get (calls (crm st')) (fresh_call_id rt st) = Some r
                   /\ call_finished c r).
Proof.
  set (id0 := fresh_call_id rt st).
  set (P := fun cs => exists r, dict_get (calls cs) id0 = Some r /\ call_client r = c).
  set (Q := fun cs => exists r o, dict_get (calls cs) id0 = Some r /\ call_client r = c
                                  /\ outcome r = Some o /\ In o recorded_outcomes).
  assert (Pmod : forall cs r r', P cs -> dict_get (calls cs) id0 = Some r ->
             later_record r r' ->
             (outcome r' = outcome r
              \/ exists o, (fun o => In o recorded_outcomes) o /\ outcome r' = Some o) ->
             P (mk_crm (dict_set (calls cs) id0 r') (appointments cs))).
  { intros cs r r' (r0 & E0 & Hc) E (Hclient & _) _. rewrite E in E0. injection E0 as <-.
    unfold P. exists r'. cbn [calls]. rewrite dict_get_set_same.
    split; [reflexivity | congruence]. }
  assert (Pout : forall o, In o recorded_outcomes ->
             triple P (update_call_outcome id0 o) (fun _ => Q) P).
  { intros o Ho s (r & E & Hc). rewrite update_call_outcome_run, E.
    cbv beta iota. unfold Q. cbn [crm with_calls calls]. eexists _, o.
    rewrite dict_get_set_same. split; [reflexivity|]. cbn. auto. }
  destruct (handlers_of_make_call rt id0 P (fun o => In o recorded_outcomes) Q
              (fun _ H => H) Pmod Pout) as [Ht Ho].
  assert (Hstart : P (mk_crm (dict_set (calls (crm st)) id0 (fresh_record rt st c))
                             (appointments (crm st)))).
  { unfold P. eexists. cbn [calls]. rewrite dict_get_set_same. split; reflexivity. }
  assert (G : forall (h : M unit) s id st',
             triple P h (fun _ => Q) P -> P (crm s) ->
             (h ;;; log_call_end rt id0 ;;; ret id0)%py s = (Ok id, st') ->
             id = id0 /\ exists r, dict_get (calls (crm st')) id0 = Some r
                                   /\ call_finished c r).
  { intros h s id st' Hh HP. specialize (Hh s HP). unfold bind at 1.
    destruct (h s) as [[[]|e] s2]; [|discriminate].
    destruct Hh as (r & o & E & Hc & Hout & Hin).
    destruct (log_call_end_cases rt id0 s2 r E) as (res & dur & Hend & Hdur).
    unfold bind, ret. rewrite Hend.
    destruct res as [[]|e]; [|discriminate]. intros [= <- <-].
    split; [reflexivity|]. eexists. cbn [crm with_calls calls].
    rewrite dict_get_set_same. split; [reflexivity|].
    split; [exact Hc|]. split; [reflexivity|]. split; [exists o; auto|].
    split; [reflexivity | exact (Hdur eq_refl)]. }
  split; intros self pid id st'.
  - unfold VoiceAgent.make_call. unfold bind at 1. rewrite log_call_start_run.
    fold id0. apply G; [apply Ht | exact Hstart].
  - unfold VoiceAgentOpenAI.make_call. unfold bind at 1. rewrite log_call_start_run.
    cbv zeta. fold id0. apply G; [apply Ho | exact Hstart].
Qed.

(** X11.  A call that returned is found again through its client:
    when the client has a non-empty id, [get_call_history] with that id
    on the CRM the call left gives a list that holds the completed
    record of the call.  This holds for both agents. *)
Theorem returned_call_is_in_the_client_history (rt : runtime) (steps : list session_step)
    (c : client) (i : string) (property_id : option string) :
  clock_ok rt -> client_id c = Some i -> i <> "" ->
  let st := run_steps rt steps state_init in
  (forall self id st',
      VoiceAgent.make_call rt self c property_id st = (Ok id, st') ->
      exists l r, get_call_history (crm st') (Some i) = HistoryList l
                  /\ In r l /\ call_finished c r)
  /\ (forall self id st',
      VoiceAgentOpenAI.make_call rt self c property_id st = (Ok id, st') ->
      exists l r, get_call_history (crm st') (Some i) = HistoryList l
                  /\ In r l /\ call_finished c r).
Proof.
  intros _ Hi Hne st.
  destruct (make_call_returned rt st c) as [H1 H2].
  split; intros self id st' Hrun.
  - destruct (H1 self property_id id st' Hrun) as (_ & r & E & Hfin).
    destruct (finished_call_in_history _ _ _ c i E (proj1 Hfin) Hi Hne) as (l & Hl & Hin).
    exists l, r. auto.
  - destruct (H2 self property_id id st' Hrun) as (_ & r & E & Hfin).
    destruct (finished_call_in_history _ _ _ c i E (proj1 Hfin) Hi Hne) as (l & Hl & Hin).
    exists l, r. auto.
Qed.

Lemma returned_call_is_in_the_client_history_witness :
  (forall self id st',
      VoiceAgent.make_call Samples.stopped self Samples.john (Some "prop002") state_init
      = (Ok id, st') ->
      exists l r, get_call_history (crm st') (Some "client123") = HistoryList l
                  /\ In r l /\ call_finished Samples.john r)
  /\ (forall self id st',
      VoiceAgentOpenAI.make_call Samples.stopped self Samples.john (Some "prop002")
        state_init = (Ok id, st') ->
      exists l r, get_call_history (crm st') (Some "client123") = HistoryList l
                  /\ In r l /\ call_finished Samples.john r).
Proof.
  apply (returned_call_is_in_the_client_history Samples.stopped [] Samples.john
           "client123" (Some "prop002")).
  - intros n. reflexivity.
  - reflexivity.
  - discriminate.
Defined.

Lemma random_choice_run {A} rt (x : A) (l : list A) st :
  random_choice rt (x :: l) st
  = (Ok (nth (random_at rt (rand_draws st) mod length (x :: l)) (x :: l) x), drew st).
Proof.
  unfold random_choice, bind, draw, lift, list_index.
  rewrite (nth_error_nth' (x :: l) x); [reflexivity|].
  apply Nat.mod_upper_bound. discriminate.
Qed.

(** The weighted draw of the outcome: it always gives one of the four
    outcomes, and a booking exactly on the first 25 hundredths. *)
Lemma random_choices_outcomes rt st :
  exists o,
    random_choices rt outcomes weights st = (Ok o, drew st)
    /\ pick_weighted outcomes weights (random_at rt (rand_draws st) mod 100) = Some o
    /\ In o outcomes
    /\ String.eqb o "appointment_scheduled"
       = (random_at rt (rand_draws st) mod 100 <? 25)%nat.
Proof.
  unfold random_choices, bind, draw, ret.
  set (u := (random_at rt (rand_draws st) mod 100)%nat).
  unfold outcomes, weights, pick_weighted.
  destruct (u <? 25)%nat eqn:E1; [eexists; repeat split; cbn; auto|].
  destruct (u - 25 <? 40)%nat; [eexists; repeat split; cbn; auto|].
  destruct (u - 25 - 40 <? 20)%nat; [eexists; repeat split; cbn; auto|].
  destruct (u - 25 - 40 - 20 <? 15)%nat; eexists; repeat split; cbn; auto.
Qed.

Lemma update_call_outcome_returns id o st :
  exists st', update_call_outcome id o st = (Ok tt, st').
Proof. rewrite update_call_outcome_run. eexists. reflexivity. Qed.

(** A computation that raises whenever it is run. *)
Lemma never_returns {A} (m : M A) st :
  triple (fun _ => True) m (fun _ _ => False) (fun _ => True) ->
  exists e st', m st = (Raise e, st').
Proof.
  intros H. specialize (H st I). destruct (m st) as [[a|e] st']; [contradiction|eauto].
Qed.

Lemma update_call_notes_returns rt id text st :
  exists st', update_call_notes rt id text st = (Ok tt, st')
              /\ rand_draws st' = rand_draws st.
Proof.
  rewrite update_call_notes_run. eexists. split; [reflexivity|].
  destruct (dict_get _ id); reflexivity.
Qed.

Lemma random_choice_draws {A} rt (l : list A) st st' :
  rand_draws st' = rand_draws st ->
  fst (random_choice rt l st') = fst (random_choice rt l st).
Proof.
  intros H. destruct l as [|x l]; [reflexivity|].
  rewrite !random_choice_run, H. reflexivity.
Qed.

Lemma random_choices_draws {A} rt (l : list A) w st st' :
  rand_draws st' = rand_draws st ->
  fst (random_choices rt l w st') = fst (random_choices rt l w st).
Proof.
  intros H. unfold random_choices, bind, draw, ret, raise. rewrite H.
  destruct (pick_weighted _ _ _); reflexivity.
Qed.

(** A text from the backend, or from a template. *)
Lemma chat_or_template rt (b : bool) msg hist p name ctx (fallback : string) st :
  exists text st1,
    (if b then OpenAIIntegration.generate_response rt msg hist p name ctx else ret fallback) st
    = (Ok text, st1)
    /\ rand_draws st1 = rand_draws st.
Proof.
  destruct b.
  - destruct (generate_response_returns rt msg hist p name ctx st) as [text ->].
    eexists _, _. split; reflexivity.
  - eexists _, _. split; reflexivity.
Qed.

(** The template agent's general flow returns exactly when the outcome
    drawn is not a booking. *)
Lemma template_general_returns rt self c id st :
  (exists st', VoiceAgent._handle_general_inquiry rt self c id st = (Ok tt, st'))
  <-> fst (random_choices rt outcomes weights (drew st)) <> Ok "appointment_scheduled".
Proof.
  unfold VoiceAgent._handle_general_inquiry. cbv zeta.
  unfold bind at 1. unfold general_client_responses at 1. rewrite random_choice_run.
  unfold bind at 1.
  edestruct (update_call_notes_returns rt id) as (s2 & Hu & Hd). rewrite Hu. clear Hu.
  unfold bind at 1.
  rewrite <- (random_choices_draws rt outcomes weights (drew st) s2 Hd).
  destruct (random_choices_outcomes rt s2) as (o & -> & _ & Hin & Ho). cbn [fst].
  destruct (String.eqb o "appointment_scheduled") eqn:E.
  - apply String.eqb_eq in E. subst o.
    match goal with |- context [bind ?m ?k ?s] =>
      destruct (never_returns (bind m k) s) as (e & s' & ->) end.
    + do 5 kept_step. booking_tail.
    + split; [intros [? [=]] | intros H; contradiction H; reflexivity].
  - split; [intros _ [= ->]; discriminate E | intros _; apply update_call_outcome_returns].
Qed.

(** A property flow returns exactly when the client's reply is not the
    request for a viewing. *)
Lemma template_property_returns rt self c p id st :
  (exists st', VoiceAgent._handle_property_inquiry rt self c p id st = (Ok tt, st'))
  <-> fst (random_choice rt property_client_responses st) <> Ok schedule_viewing.
Proof.
  unfold VoiceAgent._handle_property_inquiry. cbv zeta.
  unfold bind at 1. unfold property_client_responses. rewrite !random_choice_run.
  cbn [fst]. set (reply := nth _ _ _).
  unfold bind at 1.
  edestruct (update_call_notes_returns rt id) as (s2 & Hu & Hd). rewrite Hu. clear Hu.
  destruct (String.eqb reply schedule_viewing) eqn:E.
  - apply String.eqb_eq in E. rewrite E.
    match goal with |- context [bind ?m ?k ?s] =>
      destruct (never_returns (bind m k) s) as (e & s' & ->) end.
    + do 6 kept_step. booking_tail.
    + split; [intros [? [=]] | intros H; contradiction H; reflexivity].
  - split; [intros _ [= H]; rewrite H, String.eqb_refl in E; discriminate E
           | intros _; apply update_call_outcome_returns].
Qed.

Lemma openai_property_returns rt self c p id history st b :
  VoiceAgentOpenAI.use_openai self = Some b ->
  (exists st',
      VoiceAgentOpenAI._handle_property_inquiry rt self c p id history st = (Ok tt, st'))
  <-> fst (random_choice rt property_client_responses st) <> Ok schedule_viewing.
Proof.
  intros Hb. unfold VoiceAgentOpenAI._handle_property_inquiry. cbv zeta.
  unfold VoiceAgentOpenAI.read_use_openai. rewrite Hb.
  unfold bind at 1. unfold ret at 1. unfold bind at 1.
  edestruct (chat_or_template rt b) as (script & s1 & Hs & Hd1). rewrite Hs. clear Hs.
  rewrite <- (random_choice_draws rt property_client_responses st s1 Hd1).
  unfold bind at 1. unfold property_client_responses. rewrite !random_choice_run.
  cbn [fst]. set (reply := nth _ _ _).
  unfold bind at 1. unfold ret at 1. unfold bind at 1.
  edestruct (chat_or_template rt b) as (answer & s2 & Hs & Hd2). rewrite Hs. clear Hs.
  unfold bind at 1.
  edestruct (update_call_notes_returns rt id) as (s3 & Hu & Hd). rewrite Hu. clear Hu.
  destruct (String.eqb reply schedule_viewing) eqn:E.
  - apply String.eqb_eq in E. rewrite E.
    match goal with |- context [bind ?m ?k ?s] =>
      destruct (never_returns (bind m k) s) as (e & s' & ->) end.
    + do 7 kept_step. booking_tail.
    + split; [intros [? [=]] | intros H; contradiction H; reflexivity].
  - split; [intros _ [= H]; rewrite H, String.eqb_refl in E; discriminate E
           | intros _; apply update_call_outcome_returns].
Qed.

(** [make_call] returns exactly when its handler does. *)
Lemma call_body_returns rt id apts (handler : M unit) st :
  clock_readable rt ->
  triple (call_open false id apts) handler
         (fun _ => call_decided false id apts) (call_open false id apts) ->
  call_open false id apts (crm st) ->
  fst ((handler ;;; log_call_end rt id ;;; ret id)%py st) = Ok id
  <-> exists st', handler st = (Ok tt, st').
Proof.
  intros Hclock Hh Hs. specialize (Hh st Hs). unfold bind at 1.
  destruct (handler st) as [[[]|e] s2].
  - pose proof (triple_log_call_end rt Hclock false id apts s2 Hh) as He. unfold bind, ret.
    destruct (log_call_end rt id s2) as [[[]|e] s3]; [|contradiction].
    cbn [fst]. split; eauto.
  - cbn [fst]. split; [discriminate | intros [s' H]; discriminate].
Qed.

(** X12.  Under a clock that shows real dates with a year of four
    digits, a general call of the template agent returns exactly when
    the weighted draw of the outcome (the second draw after the one
    for the call id) does not give [appointment_scheduled]; with the
    weights of the code that is when the draw, in hundredths, is at
    least 25.  On the other draws the call raises. *)
Theorem template_general_call_returns_unless_booking (rt : runtime)
    (steps : list session_step) (self : VoiceAgent.agent) (c : client) :
  clock_readable rt ->
  let st := run_steps rt steps state_init in
  (fst (VoiceAgent.make_call rt self c None st) = Ok (fresh_call_id rt st)
   <-> fst (random_choices rt outcomes weights (drew (drew st))) <> Ok "appointment_scheduled")
  /\ (fst (random_choices rt outcomes weights (drew (drew st))) <> Ok "appointment_scheduled"
      <-> (25 <= random_at rt (2 + rand_draws st) mod 100)%nat).
Proof.
  intros Hclock st. split.
  - unfold VoiceAgent.make_call. unfold bind at 1. rewrite log_call_start_run. cbn [truthy].
    etransitivity.
    { apply (call_body_returns rt (fresh_call_id rt st) (appointments (crm st)) _ _ Hclock).
      - apply VoiceAgent_general_inquiry; exact Hclock.
      - cbn [crm]. apply call_open_after_start; [exact Hclock|].
        apply history_ledger_ok. exact Hclock. }
    etransitivity; [apply template_general_returns|].
    erewrite random_choices_draws; [reflexivity|reflexivity].
  - destruct (random_choices_outcomes rt (drew (drew st))) as (o & -> & _ & _ & Ho).
    cbn [fst drew rand_draws] in *. change (2 + rand_draws st)%nat with (S (S (rand_draws st))).
    destruct (Nat.ltb_spec (random_at rt (S (S (rand_draws st))) mod 100) 25) as [Hlt|Hge].
    + apply String.eqb_eq in Ho. subst o. split; [intros H; contradiction H; reflexivity | lia].
    + apply String.eqb_neq in Ho. split; [intros _; exact Hge | intros _ [= H]; contradiction].
Qed.

Lemma template_general_call_returns_unless_booking_witness :
  (fst (VoiceAgent.make_call Samples.stopped Samples.template_agent Samples.john None
          state_init)
   = Ok (fresh_call_id Samples.stopped state_init)
   <-> fst (random_choices Samples.stopped outcomes weights (drew (drew state_init)))
       <> Ok "appointment_scheduled")
  /\ (fst (random_choices Samples.stopped outcomes weights (drew (drew state_init)))
      <> Ok "appointment_scheduled"
      <-> (25 <= random_at Samples.stopped (2 + rand_draws state_init) mod 100)%nat).
Proof.
  apply (template_general_call_returns_unless_booking Samples.stopped []
           Samples.template_agent Samples.john).
  intros n. reflexivity.
Defined.

(** X13.  Under a clock that shows real dates with a year of four
    digits, a call about a property of the catalog returns exactly when
    the reply drawn for the client (the draw after the one for the call
    id) is not the request for a viewing.  This holds for the template
    agent and for the agent with the chat backend as its constructor
    leaves it ([use_openai] set exactly when [openai] is), with or
    without a key, and does not depend on what the backend answers. *)
Theorem property_call_returns_unless_viewing (rt : runtime) (steps : list session_step)
    (c : client) (property_id : string) :
  clock_readable rt -> property_id <> "" ->
  let st := run_steps rt steps state_init in
  (forall self p,
      find_property (VoiceAgent.properties self) property_id = Some p ->
      fst (VoiceAgent.make_call rt self c (Some property_id) st) = Ok (fresh_call_id rt st)
      <-> fst (random_choice rt property_client_responses (drew st)) <> Ok schedule_viewing)
  /\ (forall self p,
      find_property (VoiceAgentOpenAI.properties self) property_id = Some p ->
      VoiceAgentOpenAI.use_openai self = Some (VoiceAgentOpenAI.has_openai self) ->
      fst (VoiceAgentOpenAI.make_call rt self c (Some property_id) st)
      = Ok (fresh_call_id rt st)
      <-> fst (random_choice rt property_client_responses (drew st)) <> Ok schedule_viewing).
Proof.
  intros Hclock Hid st.
  assert (Ht : truthy (Some property_id) = true).
  { cbn. destruct (String.eqb_spec property_id ""); [contradiction | reflexivity]. }
  split.
  - intros self p Hp. unfold VoiceAgent.make_call. unfold bind at 1.
    rewrite log_call_start_run, Ht, Hp.
    etransitivity.
    { apply (call_body_returns rt (fresh_call_id rt st) (appointments (crm st)) _ _ Hclock).
      - apply VoiceAgent_property_inquiry; exact Hclock.
      - cbn [crm]. apply call_open_after_start; [exact Hclock|].
        apply history_ledger_ok. exact Hclock. }
    etransitivity; [apply template_property_returns|].
    erewrite random_choice_draws; [reflexivity|reflexivity].
  - intros self p Hp Hb. unfold VoiceAgentOpenAI.make_call. unfold bind at 1.
    rewrite log_call_start_run. cbv zeta. rewrite Ht, Hp.
    etransitivity.
    { apply (call_body_returns rt (fresh_call_id rt st) (appointments (crm st)) _ _ Hclock).
      - apply VoiceAgentOpenAI_property_inquiry; exact Hclock.
      - cbn [crm]. apply call_open_after_start; [exact Hclock|].
        apply history_ledger_ok. exact Hclock. }
    etransitivity; [apply (openai_property_returns rt self c p _ _ _ _ Hb)|].
    erewrite random_choice_draws; [reflexivity|reflexivity].
Qed.

Lemma property_call_returns_unless_viewing_witness :
  (forall self p,
      find_property (VoiceAgent.properties self) "prop002" = Some p ->
      fst (VoiceAgent.make_call Samples.stopped self Samples.john (Some "prop002") state_init)
      = Ok (fresh_call_id Samples.stopped state_init)
      <-> fst (random_choice Samples.stopped property_client_responses (drew state_init))
          <> Ok schedule_viewing)
  /\ (forall self p,
      find_property (VoiceAgentOpenAI.properties self) "prop002" = Some p ->
      VoiceAgentOpenAI.use_openai self = Some (VoiceAgentOpenAI.has_openai self) ->
      fst (VoiceAgentOpenAI.make_call Samples.stopped self Samples.john (Some "prop002")
             state_init)
      = Ok (fresh_call_id Samples.stopped state_init)
      <-> fst (random_choice Samples.stopped property_client_responses (drew state_init))
          <> Ok schedule_viewing).
Proof.
  apply (property_call_returns_unless_viewing Samples.stopped [] Samples.john "prop002").
  - intros n. reflexivity.
  - discriminate.
Defined.


Lemma find_property_unknown ps i :
  (forall p, In p ps -> prop_id p <> i) -> find_property ps i = None.
Proof.
  intros H. unfold find_property.
  destruct (find _ ps) as [p|] eqn:E; [|reflexivity].
  apply find_some in E. destruct E as [Hin He]. apply String.eqb_eq in He.
  contradiction (H p Hin He).
Qed.

(** X14.  A property id that no property of the agent has is not an
    error: [make_call] with it is the same computation as [make_call]
    without a property id, the general inquiry, for both agents. *)
Theorem unknown_property_id_is_a_general_call (rt : runtime) (c : client)
    (property_id : string) (st : state) :
  (forall self,
      (forall p, In p (VoiceAgent.properties self) -> prop_id p <> property_id) ->
      VoiceAgent.make_call rt self c (Some property_id) st
      = VoiceAgent.make_call rt self c None st)
  /\ (forall self,
      (forall p, In p (VoiceAgentOpenAI.properties self) -> prop_id p <> property_id) ->
      VoiceAgentOpenAI.make_call rt self c (Some property_id) st
      = VoiceAgentOpenAI.make_call rt self c None st).
Proof.
  split; intros self H; apply find_property_unknown in H.
  - unfold VoiceAgent.make_call. rewrite H. destruct (truthy (Some property_id)); reflexivity.
  - unfold VoiceAgentOpenAI.make_call. rewrite H.
    destruct (truthy (Some property_id)); reflexivity.
Qed.







Lemma generate_response_down rt msg hist p name ctx st :
  backend_is_down rt ->
  OpenAIIntegration.generate_response rt msg hist p name ctx st
  = (Ok OpenAIIntegration.apology, after_chat st).
Proof.
  intros Hdown.
  unfold OpenAIIntegration.generate_response, try_except, bind, chat_completion_create, lift.
  match goal with |- context [chat_at rt ?n ?req] => destruct (Hdown n req) as [e ->] end.
  reflexivity.
Qed.

Lemma analyze_client_sentiment_down rt msg st :
  backend_is_down rt ->
  OpenAIIntegration.analyze_client_sentiment rt msg st
  = (Ok OpenAIIntegration.default_sentiment, after_chat st).
Proof.
  intros Hdown. rewrite analyze_client_sentiment_unfold.
  match goal with |- context [chat_at rt ?n ?req] => destruct (Hdown n req) as [e ->] end.
  reflexivity.
Qed.

Lemma bind_ret {A B} (a : A) (k : A -> M B) st : bind (ret a) k st = k a st.
Proof. reflexivity. Qed.

(** With the backend down the decision is the one for the default
    assessment, which is stored on the way. *)
Lemma decide_outcome_down rt self id msg st r :
  backend_is_down rt -> VoiceAgentOpenAI.use_openai self = Some true ->
  dict_get (calls (crm st)) id = Some r ->
  VoiceAgentOpenAI.decide_outcome rt self id msg st
  = (Ok "information_provided",
     with_calls (after_chat st)
       (dict_set (calls (crm st)) id
          (mk_call (call_client r) (start_time r) (status r) (notes r) (outcome r)
                   (Some OpenAIIntegration.default_sentiment) (end_time r) (duration r)))).
Proof.
  intros Hdown Huse E. unfold VoiceAgentOpenAI.decide_outcome, VoiceAgentOpenAI.read_use_openai.
  rewrite Huse, bind_ret. apply try_except_ok.
  unfold bind at 1. rewrite (analyze_client_sentiment_down _ _ _ Hdown).
  unfold bind. rewrite update_client_sentiment_run. cbn [crm after_chat]. rewrite E.
  reflexivity.
Qed.

Lemma openai_general_inquiry_down rt self c id history st r :
  backend_is_down rt -> VoiceAgentOpenAI.use_openai self = Some true ->
  dict_get (calls (crm st)) id = Some r ->
  exists st' note,
    VoiceAgentOpenAI._handle_general_inquiry rt self c id history st = (Ok tt, st')
    /\ crm st'
       = mk_crm (dict_set (calls (crm st)) id
                   (mk_call (call_client r) (start_time r) (status r) (notes r ++ [note])
                            (Some "Information Provided")
                            (Some OpenAIIntegration.default_sentiment)
                            (end_time r) (duration r)))
                (appointments (crm st)).
Proof.
  intros Hdown Huse E.
  unfold VoiceAgentOpenAI._handle_general_inquiry. cbv zeta.
  unfold VoiceAgentOpenAI.read_use_openai. rewrite Huse.
  rewrite bind_ret. unfold bind at 1. rewrite (generate_response_down _ _ _ _ _ _ _ Hdown).
  unfold bind at 1. unfold general_client_responses at 1. rewrite random_choice_run.
  rewrite bind_ret. unfold bind at 1. rewrite (generate_response_down _ _ _ _ _ _ _ Hdown).
  unfold bind at 1. rewrite update_call_notes_run.
  cbn [crm after_chat drew clock_reads]. rewrite E.
  unfold bind at 1.
  erewrite (decide_outcome_down rt self id _ _ _ Hdown Huse);
    [|cbn [crm with_calls calls]; apply dict_get_set_same].
  cbn [String.eqb Ascii.eqb Bool.eqb].
  rewrite update_call_outcome_run.
  cbn [crm with_calls calls tick after_chat drew appointments call_client start_time status
       notes outcome sentiment end_time duration].
  rewrite dict_get_set_same, !dict_set_set.
  eexists _, _. split; [reflexivity|].
  cbn [crm with_calls calls tick after_chat drew appointments call_client start_time status
       notes outcome sentiment end_time duration].
  reflexivity.
Qed.

(** X16.  With the backend down and a clock that shows real dates with
    a year of four digits, a general call of the agent that has and
    uses the integration never raises: the default assessment (medium
    interest) is
    stored as the client's sentiment, the outcome is
    [Information Provided], and the call is completed.  No draw decides
    the outcome and no viewing is ever offered. *)
Theorem backend_down_general_call_provides_information (rt : runtime)
    (self : VoiceAgentOpenAI.agent) (c : client) (st : state) :
  clock_readable rt -> backend_is_down rt ->
  VoiceAgentOpenAI.has_openai self = true ->
  VoiceAgentOpenAI.use_openai self = Some true ->
  exists st' r,
    VoiceAgentOpenAI.make_call rt self c None st = (Ok (fresh_call_id rt st), st')
    /\ dict_get (calls (crm st')) (fresh_call_id rt st) = Some r
    /\ call_client r = c /\ status r = completed
    /\ outcome r = Some "Information Provided"
    /\ sentiment r = Some OpenAIIntegration.default_sentiment.
Proof.
  intros Hclock Hdown _ Huse.
  unfold VoiceAgentOpenAI.make_call. unfold bind at 1. rewrite log_call_start_run.
  cbv zeta. cbn [truthy]. unfold bind at 1.
  match goal with |- context [VoiceAgentOpenAI._handle_general_inquiry rt self c ?id ?h ?s] =>
    destruct (openai_general_inquiry_down rt self c id h s (fresh_record rt st c) Hdown Huse)
      as (s2 & note & -> & Hcrm)
  end.
  { cbn [crm calls]. apply dict_get_set_same. }
  cbn [crm calls appointments] in Hcrm. rewrite dict_set_set in Hcrm.
  unfold bind at 1.
  erewrite (log_call_end_known rt _ s2 _ (now_at rt (S (clock_reads st))));
    [ | rewrite Hcrm; cbn [calls]; apply dict_get_set_same | reflexivity
      | apply Hclock | apply Hclock ].
  eexists _, _. split; [reflexivity|].
  cbn [crm with_calls calls]. rewrite dict_get_set_same. split; [reflexivity|].
  repeat split.
Qed.

Lemma backend_down_general_call_provides_information_witness :
  exists st' r,
    VoiceAgentOpenAI.make_call Samples.stopped Samples.openai_agent Samples.john None
      state_init
    = (Ok (fresh_call_id Samples.stopped state_init), st')
    /\ dict_get (calls (crm st')) (fresh_call_id Samples.stopped state_init) = Some r
    /\ call_client r = Samples.john /\ status r = completed
    /\ outcome r = Some "Information Provided"
    /\ sentiment r = Some OpenAIIntegration.default_sentiment.
Proof.
  apply (backend_down_general_call_provides_information Samples.stopped
           Samples.openai_agent Samples.john state_init).
  - intros n. reflexivity.
  - intros n req. eexists. reflexivity.
  - reflexivity.
  - reflexivity.
Defined.

(** X17.  When the backend's assessment cannot be read for its
    interest level (the key is missing, or the JSON is not an object),
    the assessment has already been stored as the client's sentiment
    of the call, and the outcome is the weighted draw, taken in the
    state where the sentiment is stored. *)
Theorem unusable_assessment_is_stored_and_ignored (rt : runtime)
    (self : VoiceAgentOpenAI.agent) (id msg : string) (st : state)
    (assessment : json) (e : exn) (r : call_record) :
  VoiceAgentOpenAI.use_openai self = Some true ->
  fst (OpenAIIntegration.analyze_client_sentiment rt msg st) = Ok assessment ->
  VoiceAgentOpenAI.outcome_of_sentiment assessment = Raise e ->
  dict_get (calls (crm st)) id = Some r ->
  VoiceAgentOpenAI.decide_outcome rt self id msg st
  = random_choices rt outcomes weights
      (with_calls (after_chat st)
         (dict_set (calls (crm st)) id
            (mk_call (call_client r) (start_time r) (status r) (notes r) (outcome r)
                     (Some assessment) (end_time r) (duration r)))).
Proof.
  intros Huse Ha Hbad E.
  unfold VoiceAgentOpenAI.decide_outcome, VoiceAgentOpenAI.read_use_openai.
  rewrite Huse, bind_ret. unfold try_except. unfold bind at 1.
  destruct (analyze_client_sentiment_state rt msg st) as [v Hv]. rewrite Hv in Ha |- *.
  cbn [fst] in Ha. injection Ha as ->.
  unfold bind. rewrite update_client_sentiment_run. cbn [crm after_chat]. rewrite E.
  unfold lift. rewrite Hbad. reflexivity.
Qed.

Lemma unusable_assessment_is_stored_and_ignored_witness :
  VoiceAgentOpenAI.decide_outcome MoreSamples.terse Samples.openai_agent
    MoreSamples.opened_id "What kind of properties do you have in that area?"
    MoreSamples.opened
  = random_choices MoreSamples.terse outcomes weights
      (with_calls (after_chat MoreSamples.opened)
         (dict_set (calls (crm MoreSamples.opened)) MoreSamples.opened_id
            (mk_call Samples.john
               (start_time (fresh_record Samples.stopped state_init Samples.john))
               in_progress [] None (Some MoreSamples.terse_assessment) None None))).
Proof.
  apply (unusable_assessment_is_stored_and_ignored MoreSamples.terse Samples.openai_agent
           MoreSamples.opened_id "What kind of properties do you have in that area?"
           MoreSamples.opened MoreSamples.terse_assessment (KeyError "interest_level")
           (fresh_record Samples.stopped state_init Samples.john));
    vm_compute; reflexivity.
Defined.

(** X18.  [generate_response], [generate_property_description] and
    [analyze_client_sentiment] never raise and change the state by
    exactly one call of the backend.  What they return is fixed by the
    backend's answer to the request they sent: when the answer has a
    first choice they return it (decoded by [json.loads], for the
    assessment); when the backend raises, answers with no choice, or the
    choice does not decode, they return their fallback: the apology,
    the placeholder description, the default assessment. *)
Theorem openai_helpers_always_answer (rt : runtime) (st : state) :
  (forall msg hist p name ctx,
      OpenAIIntegration.generate_response rt msg hist p name ctx st
      = (Ok match chat_at rt (chat_calls st)
                    (mk_request "gpt-4o"
                       (OpenAIIntegration.build_messages msg hist p name ctx) 300 false) with
            | Ok (text :: _) => text
            | _ => OpenAIIntegration.apology
            end,
         after_chat st))
  /\ (forall p,
      OpenAIIntegration.generate_property_description rt p st
      = (Ok match chat_at rt (chat_calls st)
                    (mk_request "gpt-4o"
                       [mk_message "system" "You are an expert real estate copywriter.";
                        mk_message "user" (OpenAIIntegration.description_prompt p)]
                       200 false) with
            | Ok (text :: _) => text
            | _ => OpenAIIntegration.description_unavailable
            end,
         after_chat st))
  /\ (forall msg,
      OpenAIIntegration.analyze_client_sentiment rt msg st
      = (Ok match chat_at rt (chat_calls st)
                    (mk_request "gpt-4o"
                       [mk_message "system" "You are an AI assistant that analyzes client messages for real estate agents.";
                        mk_message "user" (OpenAIIntegration.sentiment_prompt msg)]
                       300 true) with
            | Ok (text :: _) =>
                match json_loads rt text with
                | Ok assessment => assessment
                | Raise _ => OpenAIIntegration.default_sentiment
                end
            | _ => OpenAIIntegration.default_sentiment
            end,
         after_chat st)).
Proof.
  split; [|split].
  - intros msg hist p name ctx.
    unfold OpenAIIntegration.generate_response, try_except, bind, chat_completion_create, lift.
    destruct (chat_at rt (chat_calls st) _) as [[|text rest]|e]; reflexivity.
  - intros p.
    unfold OpenAIIntegration.generate_property_description, try_except, bind,
      chat_completion_create, lift.
    destruct (chat_at rt (chat_calls st) _) as [[|text rest]|e]; reflexivity.
  - intros msg. rewrite analyze_client_sentiment_unfold.
    destruct (chat_at rt (chat_calls st) _) as [[|text rest]|e]; try reflexivity.
    cbn [list_index nth_error]. destruct (json_loads rt text); reflexivity.
Qed.

(** X19.  The constructor of [OpenAIIntegration] takes the key passed
    to it when that is a non-empty string and otherwise the key of the
    environment; the key it keeps is never empty.  It raises exactly
    when neither of the two is a non-empty string; an empty key passed
    in does not hide the one of the environment. *)
Theorem openai_key_selection (api_key environ_key : option string) :
  match OpenAIIntegration.init api_key environ_key with
  | Ok o =>
      OpenAIIntegration.api_key o <> ""
      /\ (api_key = Some (OpenAIIntegration.api_key o)
          \/ (truthy api_key = false /\ environ_key = Some (OpenAIIntegration.api_key o)))
  | Raise _ => truthy api_key = false /\ truthy environ_key = false
  end.
Proof.
  unfold OpenAIIntegration.init.
  destruct (truthy api_key) eqn:Ek.
  - destruct api_key as [k|]; [|discriminate]. rewrite Ek. cbn [OpenAIIntegration.api_key].
    split; [|left; reflexivity]. cbn in Ek. intros ->. discriminate.
  - destruct environ_key as [k|]; [|split; reflexivity].
    destruct (truthy (Some k)) eqn:Ee; [|split; reflexivity].
    cbn [OpenAIIntegration.api_key]. split; [|right; split; reflexivity].
    cbn in Ee. intros ->. discriminate.
Qed.

Lemma openai_init_ok k e :
  match OpenAIIntegration.init k e with
  | Ok _ => truthy k || truthy e = true
  | Raise _ => truthy k || truthy e = false
  end.
Proof.
  unfold OpenAIIntegration.init.
  destruct (truthy k) eqn:Ek.
  - destruct k as [k|]; [|discriminate]. rewrite Ek. reflexivity.
  - destruct e as [e|]; [|reflexivity]. destruct (truthy (Some e)) eqn:Ee; reflexivity.
Qed.

(** X20.  Constructing the agent with the chat backend never raises,
    whatever the keys: it leaves an empty CRM, reads neither the clock
    nor the random stream nor the backend, and [use_openai] is true
    exactly when a non-empty key was passed or is in the environment. *)
Theorem agent_uses_openai_iff_a_key_is_set (rt : runtime)
    (openai_api_key environ_key : option string) (st : state) :
  exists a,
    VoiceAgentOpenAI.init rt openai_api_key environ_key st
    = (Ok a, mk_state crm_init (clock_reads st) (rand_draws st) (chat_calls st))
    /\ VoiceAgentOpenAI.use_openai a = Some (truthy openai_api_key || truthy environ_key)
    /\ VoiceAgentOpenAI.has_openai a = (truthy openai_api_key || truthy environ_key).
Proof.
  unfold VoiceAgentOpenAI.init, VoiceAgentOpenAI._load_properties.
  cbn [VoiceAgentOpenAI.has_openai]. unfold bind, ret, put_crm.
  pose proof (openai_init_ok openai_api_key environ_key) as H.
  destruct (OpenAIIntegration.init openai_api_key environ_key);
    eexists; (split; [reflexivity|]); cbn; rewrite H; split; reflexivity.
Qed.

Lemma generate_property_description_run rt p st :
  OpenAIIntegration.generate_property_description rt p st
  = (Ok match chat_at rt (chat_calls st)
                (mk_request "gpt-4o"
                   [mk_message "system" "You are an expert real estate copywriter.";
                    mk_message "user" (OpenAIIntegration.description_prompt p)]
                   200 false) with
        | Ok (text :: _) => text
        | _ => OpenAIIntegration.description_unavailable
        end,
     after_chat st).
Proof.
  unfold OpenAIIntegration.generate_property_description, try_except, bind,
    chat_completion_create, lift.
  destruct (chat_at rt (chat_calls st) _) as [[|text rest]|e]; reflexivity.
Qed.

(** X21.  The loop of [_load_properties] that asks the backend for
    descriptions never raises and calls the backend once per property,
    in order.  It returns as many properties, and the one at position
    [i] is the property at position [i] with its description replaced
    by the first choice of the backend's answer to call number [i] of
    the loop, the request for that property, or by the placeholder text
    when that call raised or gave no choice.  The original description
    is never kept. *)
Theorem enrichment_replaces_every_description (rt : runtime) (ps : list property)
    (st : state) :
  exists ps',
    VoiceAgentOpenAI.enrich_descriptions rt ps st
    = (Ok ps', mk_state (crm st) (clock_reads st) (rand_draws st)
                        (chat_calls st + length ps))
    /\ length ps' = length ps
    /\ forall i p, nth_error ps i = Some p ->
         nth_error ps' i
         = Some (VoiceAgentOpenAI.set_description p
                   match chat_at rt (chat_calls st + i)
                           (mk_request "gpt-4o"
                              [mk_message "system" "You are an expert real estate copywriter.";
                               mk_message "user" (OpenAIIntegration.description_prompt p)]
                              200 false) with
                   | Ok (text :: _) => text
                   | _ => OpenAIIntegration.description_unavailable
                   end).
Proof.
  revert st. induction ps as [|p ps IH]; intros st.
  - exists []. cbn. rewrite Nat.add_0_r. destruct st. split; [reflexivity|].
    split; [reflexivity|]. intros [|i] q; discriminate.
  - cbn [VoiceAgentOpenAI.enrich_descriptions length].
    unfold bind at 1. unfold try_except. unfold bind at 1.
    rewrite generate_property_description_run. unfold ret at 1.
    unfold bind at 1. destruct (IH (after_chat st)) as (ps' & -> & Hlen & Hnth).
    eexists (_ :: ps'). split; [|split].
    + unfold ret, after_chat. cbn. repeat f_equal. lia.
    + cbn. rewrite Hlen. reflexivity.
    + intros [|i] q Hq.
      * cbn in Hq. injection Hq as <-. rewrite Nat.add_0_r. reflexivity.
      * cbn [nth_error] in *. specialize (Hnth i q Hq).
        cbn [after_chat chat_calls] in Hnth.
        replace (chat_calls st + S i)%nat with (S (chat_calls st) + i)%nat by lia.
        exact Hnth.
Qed.

(** X22.  While the clock shows the date [d], the three candidate
    dates of the general flow can be built exactly when the month of
    [d] has two more days after it; on the last two days of every
    month building them raises. *)
Theorem general_dates_need_two_more_days (rt : runtime) (d : datetime) (st : state) :
  (forall n, now_at rt n = d) -> valid_datetime d = true ->
  (exists dates, fst (general_available_dates rt st) = Ok dates)
  <-> day d + 2 <= days_in_month (year d) (month d).
Proof.
  intros Hnow Hv. pose proof (valid_datetime_bounds d Hv) as (_ & _ & Hd & _).
  split.
  - intros [dates H]. revert H.
    unfold general_available_dates, bind, datetime_now, lift, ret. cbn [clock_reads].
    rewrite !Hnow. unfold replace_day.
    destruct ((1 <=? day d + 1) && (day d + 1 <=? days_in_month (year d) (month d)));
      [|discriminate].
    destruct ((1 <=? day d + 2) && (day d + 2 <=? days_in_month (year d) (month d))) eqn:E;
      [|discriminate].
    intros _. apply andb_prop in E. destruct E as [_ E]. apply Z.leb_le in E. exact E.
  - intros H. eexists. apply (general_available_dates_mid_month rt d st Hnow); lia.
Qed.

Lemma general_dates_need_two_more_days_witness :
  (exists dates, fst (general_available_dates Samples.stopped state_init) = Ok dates)
  <-> day Samples.mid_january + 2
      <= days_in_month (year Samples.mid_january) (month Samples.mid_january).
Proof.
  apply (general_dates_need_two_more_days Samples.stopped Samples.mid_january state_init).
  - intros n. reflexivity.
  - reflexivity.
Defined.

Lemma days_in_month_bounds y m : 28 <= days_in_month y m <= 31.
Proof.
  unfold days_in_month.
  repeat match goal with |- context [if ?b then _ else _] => destruct b end; lia.
Qed.

(** [d + timedelta(days=1)] is a date, whatever the day of the month
    and of the year. *)
Lemma next_day_ok d :
  valid_datetime d = true -> year d < 9999 ->
  exists d', next_day d = Ok d' /\ valid_datetime d' = true /\ year d' <= year d + 1.
Proof.
  intros Hv Hy. pose proof (valid_datetime_bounds d Hv) as (Hyr & Hm & Hd & Hh & Hn & Hs).
  assert (Hvalid : forall y m dd, 1 <= y <= 9999 -> 1 <= m <= 12 ->
             1 <= dd <= days_in_month y m ->
             valid_datetime (mk_datetime y m dd (hour d) (minute d) (second d)) = true).
  { intros y m dd ? ? ?. unfold valid_datetime. cbn [year month day hour minute second].
    repeat (apply andb_true_intro; split); apply Z.leb_le; lia. }
  unfold next_day.
  destruct (Z.ltb_spec (day d) (days_in_month (year d) (month d))) as [Hlt|Hge].
  - eexists. split; [reflexivity|]. split; [apply Hvalid; lia | cbn; lia].
  - destruct (Z.ltb_spec (month d) 12) as [Hm12|Hm12].
    + eexists. split; [reflexivity|].
      pose proof (days_in_month_bounds (year d) (month d + 1)).
      split; [apply Hvalid; lia | cbn; lia].
    + destruct (Z.ltb_spec (year d) 9999) as [_|?]; [|lia].
      eexists. split; [reflexivity|].
      split; [apply Hvalid; [lia | lia | cbn; lia] | cbn; lia].
Qed.

Lemma add_two_days_ok d :
  valid_datetime d = true -> year d < 9998 ->
  exists d1 d2, add_days d 1 = Ok d1 /\ add_days d 2 = Ok d2.
Proof.
  intros Hv Hy.
  destruct (next_day_ok d Hv ltac:(lia)) as (d1 & E1 & V1 & Y1).
  destruct (next_day_ok d1 V1 ltac:(lia)) as (d2 & E2 & _).
  exists d1, d2. cbn [add_days]. rewrite E1, E2. split; reflexivity.
Qed.

(** X24.  When the client asks for a viewing, the property flow of the
    agent with the chat backend builds its candidate dates with
    [timedelta], which succeeds on every day of the calendar, month and
    year ends included: the handler gets as far as the booking and it
    is [schedule_appointment] that raises, with its [AttributeError].
    The property flow of the template agent builds tomorrow with
    [replace(day=...)]: on the last day of a month it raises
    [ValueError] before the booking. *)
Theorem viewing_request_fails_at_the_booking (rt : runtime) (c : client) (p : property)
    (id : string) (st : state) :
  clock_ok rt -> (forall n, year (now_at rt n) < 9998) ->
  fst (random_choice rt property_client_responses st) = Ok schedule_viewing ->
  (forall self history,
      VoiceAgentOpenAI.use_openai self = Some (VoiceAgentOpenAI.has_openai self) ->
      exists st',
        VoiceAgentOpenAI._handle_property_inquiry rt self c p id history st
        = (Raise (AttributeError "'str' object has no attribute 'time'"), st'))
  /\ (forall self d,
      (forall n, now_at rt n = d) -> day d = days_in_month (year d) (month d) ->
      exists st',
        VoiceAgent._handle_property_inquiry rt self c p id st
        = (Raise (ValueError "day is out of range for month"), st')).
Proof.
  intros Hclock Hyear Hreply. split.
  - intros self history Hb.
    unfold VoiceAgentOpenAI._handle_property_inquiry. cbv zeta.
    unfold VoiceAgentOpenAI.read_use_openai. rewrite Hb.
    rewrite bind_ret. unfold bind at 1.
    edestruct (chat_or_template rt (VoiceAgentOpenAI.has_openai self))
      as (script & s1 & Hs & Hd1). rewrite Hs. clear Hs.
    rewrite <- (random_choice_draws rt property_client_responses st s1 Hd1) in Hreply.
    unfold bind at 1.
    destruct (random_choice rt property_client_responses s1) as [[reply|e] s2];
      cbn [fst] in Hreply; [|discriminate]. injection Hreply as ->.
    rewrite bind_ret. unfold bind at 1.
    edestruct (chat_or_template rt (VoiceAgentOpenAI.has_openai self))
      as (answer & s3 & Hs & Hd3). rewrite Hs. clear Hs.
    unfold bind at 1.
    edestruct (update_call_notes_returns rt id) as (s4 & Hu & Hd4). rewrite Hu. clear Hu.
    rewrite String.eqb_refl.
    unfold bind at 1. unfold datetime_now at 1.
    destruct (add_two_days_ok (now_at rt (clock_reads s4)) (Hclock _) (Hyear _))
      as (d1 & d2 & E1 & E2).
    unfold bind at 1. unfold lift at 1. rewrite E1.
    unfold bind at 1. unfold lift at 1. rewrite E2.
    unfold bind at 1. unfold lift at 1. cbn [list_index nth_error].
    unfold bind at 1. unfold lift at 1. unfold property_available_times.
    cbn [list_index nth_error].
    rewrite bind_ret. unfold bind at 1.
    destruct (VoiceAgentOpenAI.has_openai self).
    + unfold bind at 1.
      match goal with |- context [OpenAIIntegration.generate_response rt ?m ?h ?q ?n ?x ?s] =>
        destruct (generate_response_returns rt m h q n x s) as [text ->] end.
      unfold ret at 1. unfold bind at 1. rewrite schedule_appointment_raises.
      eexists. reflexivity.
    + unfold ret at 1. unfold bind at 1. rewrite schedule_appointment_raises.
      eexists. reflexivity.
  - intros self d Hnow Hlast.
    unfold VoiceAgent._handle_property_inquiry. cbv zeta.
    unfold bind at 1.
    destruct (random_choice rt property_client_responses st) as [[reply|e] s2];
      cbn [fst] in Hreply; [|discriminate]. injection Hreply as ->.
    unfold bind at 1.
    edestruct (update_call_notes_returns rt id) as (s4 & Hu & Hd4). rewrite Hu. clear Hu.
    rewrite String.eqb_refl.
    unfold bind, datetime_now, lift. cbn [clock_reads]. rewrite !Hnow.
    unfold replace_day.
    destruct (Z.leb_spec (day d + 1) (days_in_month (year d) (month d))) as [?|_]; [lia|].
    rewrite Bool.andb_false_r. eexists. reflexivity.
Qed.

Lemma viewing_request_fails_at_the_booking_witness :
  (forall self history,
      VoiceAgentOpenAI.use_openai self = Some (VoiceAgentOpenAI.has_openai self) ->
      exists st',
        VoiceAgentOpenAI._handle_property_inquiry MoreSamples.month_end self Samples.john
          MoreSamples.condo MoreSamples.opened_id history MoreSamples.opened
        = (Raise (AttributeError "'str' object has no attribute 'time'"), st'))
  /\ (forall self d,
      (forall n, now_at MoreSamples.month_end n = d) ->
      day d = days_in_month (year d) (month d) ->
      exists st',
        VoiceAgent._handle_property_inquiry MoreSamples.month_end self Samples.john
          MoreSamples.condo MoreSamples.opened_id MoreSamples.opened
        = (Raise (ValueError "day is out of range for month"), st')).
Proof.
  apply (viewing_request_fails_at_the_booking MoreSamples.month_end Samples.john
           MoreSamples.condo MoreSamples.opened_id MoreSamples.opened).
  - intros n. reflexivity.
  - intros n. reflexivity.
  - vm_compute. reflexivity.
Defined.
